(** * Monkey-patch scanner and risk classifier: a shallow embedding

    This development embeds the monkey-patch static scanner
    ([repo_scripts/scan_monkey_patches.py]) and the risk classifier
    ([repo_scripts/monkey_patch_classify.py]) and proves properties of
    the Python code.

    Conventions.
    - Python [str] values are Rocq [string]s.  The character predicates
      used by [str.strip] and by the regular expressions ([\s], [\w],
      [\b]) are given for code points below 128; the embedding therefore
      speaks about ASCII source text.
    - Python [int] is [Z]; [dict] is [gmap]; [set] is [gset], except where
      a loop over a set can leave early, where the iteration order is made
      an explicit list.
    - The result of [ast.parse] is an input of the model: a source file
      comes with its text lines and with the tree the parser returns for
      them ([None] when the parser raises).
    - The three [ast.NodeVisitor] subclasses are state-passing functions
      over the syntax tree; the inherited [generic_visit] is shared. *)

From stdpp Require Import gmap strings list fin_maps pretty sorting.
From Stdlib Require Import ZArith Ascii.

Open Scope Z_scope.

Scheme All for list.
Scheme All for option.
Scheme All for prod.

(** ** Python string helpers *)

Module PyStr.

(** [str.isspace] on one character, also the class [\s]. *)
Definition is_space (c : ascii) : bool :=
  let n := N_of_ascii c in
  ((9 <=? n)%N && (n <=? 13)%N) || ((28 <=? n)%N && (n <=? 32)%N).

Definition is_digit (c : ascii) : bool :=
  let n := N_of_ascii c in (48 <=? n)%N && (n <=? 57)%N.

Definition is_alpha (c : ascii) : bool :=
  let n := N_of_ascii c in
  ((65 <=? n)%N && (n <=? 90)%N) || ((97 <=? n)%N && (n <=? 122)%N).

(** The class [[A-Za-z_]]. *)
Definition is_ident_start (c : ascii) : bool :=
  is_alpha c || Ascii.eqb c "_".

(** The class [\w]. *)
Definition is_word (c : ascii) : bool :=
  is_alpha c || is_digit c || Ascii.eqb c "_".

(** Truth value of a string: [bool(s)]. *)
Definition truthy (s : string) : bool :=
  match s with EmptyString => false | _ => true end.

(** [a or b] on an optional string: [None] and the empty string are false. *)
Definition or_else (a : option string) (b : string) : string :=
  match a with
  | Some s => if truthy s then s else b
  | None => b
  end.

Fixpoint lstrip (s : string) : string :=
  match s with
  | EmptyString => EmptyString
  | String c s' => if is_space c then lstrip s' else s
  end.

Definition rstrip (s : string) : string :=
  String.rev (lstrip (String.rev s)).

Definition strip (s : string) : string := lstrip (rstrip s).

Definition startswith (s p : string) : bool := String.prefix p s.

Definition endswith (s p : string) : bool :=
  String.prefix (String.rev p) (String.rev s).

(** [s.split(sep)] for a one-character separator. *)
Fixpoint split (sep : ascii) (s : string) : list string :=
  match s with
  | EmptyString => [EmptyString]
  | String c s' =>
      if Ascii.eqb c sep then EmptyString :: split sep s'
      else match split sep s' with
           | h :: t => String c h :: t
           | [] => [String c EmptyString]
           end
  end.

(** [s.split(".")[0]] and [s.split(".")[-1]]. *)
Definition first_component (s : string) : string :=
  hd EmptyString (split "."%char s).

Definition last_component (s : string) : string :=
  List.last (split "."%char s) EmptyString.

(** ["." in s]. *)
Fixpoint has_dot (s : string) : bool :=
  match s with
  | EmptyString => false
  | String c s' => Ascii.eqb c "." || has_dot s'
  end.

(** [sep.join(l)]. *)
Definition join (sep : string) (l : list string) : string :=
  String.concat sep l.

Definition newline : string := String "010"%char EmptyString.

(** [f"{n:>5}"]: decimal, right aligned in a field of width 5. *)
Definition str_of_Z (n : Z) : string := pretty n.

Fixpoint spaces (k : nat) : string :=
  match k with O => EmptyString | S k' => String " "%char (spaces k') end.

Definition rjust5 (s : string) : string :=
  spaces (5 - String.length s)%nat +:+ s.

(** Python slice [l[a:b]] with integer bounds: a negative bound counts
    from the end, and both are clamped to the list. *)
Definition norm_index {A} (l : list A) (i : Z) : nat :=
  let n := Z.of_nat (List.length l) in
  let i' := if i <? 0 then Z.max 0 (i + n) else Z.min i n in
  Z.to_nat i'.

Definition slice {A} (l : list A) (a b : Z) : list A :=
  let a' := norm_index l a in
  let b' := norm_index l b in
  take (b' - a')%nat (drop a' l).

(** [l[i]] for a 1-based line number already checked to be in range. *)
Definition nth_line (l : list string) (lineno : Z) : string :=
  nth (Z.to_nat (lineno - 1)) l EmptyString.

End PyStr.

(** ** Syntax trees

    The part of Python's [ast] the scanner reacts to.  Constructor
    arguments follow the [_fields] order of the [ast] classes, which is the
    order in which [NodeVisitor.generic_visit] walks the children.  Every
    node kind for which none of the three visitors has a method (module
    bodies apart) is an [Other] node carrying its child nodes in field
    order: expression statements, [if]/[for]/[while]/[with]/[try],
    constants, tuples, lambdas, keywords and so on.  Leaves that carry no
    child node and trigger no visitor method are left out of the
    constructors: the expression contexts ([Load], [Store], [Del]), the
    operator of an augmented assignment, the [alias] nodes below an import
    (kept as data), and string fields such as [type_comment]. *)

Record alias : Type := Alias {
  alias_name : string;            (* [alias.name] *)
  alias_asname : option string    (* [alias.asname] *)
}.

Inductive node : Type :=
| Module (body : list node)
| Name (lineno : Z) (id : string)
| Attribute (lineno : Z) (value : node) (attr : string)
| Subscript (lineno : Z) (value : node) (slice : node)
| Call (lineno : Z) (func : node) (args : list node) (keywords : list node)
| Assign (lineno : Z) (targets : list node) (value : node)
| AugAssign (lineno : Z) (target : node) (value : node)
| AnnAssign (lineno : Z) (target : node) (annotation : node)
    (value : option node)
| Delete (lineno : Z) (targets : list node)
| FunctionDef (lineno : Z) (name : string) (args : node) (body : list node)
    (decorator_list : list node) (returns : option node)
    (type_params : list node)
| AsyncFunctionDef (lineno : Z) (name : string) (args : node)
    (body : list node) (decorator_list : list node) (returns : option node)
    (type_params : list node)
| ClassDef (lineno : Z) (name : string) (bases : list node)
    (keywords : list node) (body : list node) (decorator_list : list node)
    (type_params : list node)
| Import (lineno : Z) (names : list alias)
| ImportFrom (lineno : Z) (module : option string) (names : list alias)
| Other (children : list node).

(** [isinstance(node, (ast.FunctionDef, ast.AsyncFunctionDef, ast.ClassDef))] *)
Definition is_def (n : node) : bool :=
  match n with
  | FunctionDef _ _ _ _ _ _ _ | AsyncFunctionDef _ _ _ _ _ _ _
  | ClassDef _ _ _ _ _ _ _ => true
  | _ => false
  end.

(** *** [ast.NodeVisitor.generic_visit]

    Calls [visit] on every child node, in field order. *)
Section GenericVisit.
Context {S : Type} (visit : node → S → S).

Definition visit_list (ns : list node) (s : S) : S :=
  fold_left (λ s c, visit c s) ns s.

Definition visit_opt (n : option node) (s : S) : S :=
  match n with Some c => visit c s | None => s end.

Definition generic_visit (n : node) (s : S) : S :=
  match n with
  | Module body => visit_list body s
  | Name _ _ => s
  | Attribute _ value _ => visit value s
  | Subscript _ value slice => visit slice (visit value s)
  | Call _ func args keywords =>
      visit_list keywords (visit_list args (visit func s))
  | Assign _ targets value => visit value (visit_list targets s)
  | AugAssign _ target value => visit value (visit target s)
  | AnnAssign _ target annotation value =>
      visit_opt value (visit annotation (visit target s))
  | Delete _ targets => visit_list targets s
  | FunctionDef _ _ args body decorator_list returns type_params
  | AsyncFunctionDef _ _ args body decorator_list returns type_params =>
      visit_list type_params
        (visit_opt returns
          (visit_list decorator_list (visit_list body (visit args s))))
  | ClassDef _ _ bases keywords body decorator_list type_params =>
      visit_list type_params
        (visit_list decorator_list
          (visit_list body (visit_list keywords (visit_list bases s))))
  | Import _ _ => s
  | ImportFrom _ _ _ => s
  | Other children => visit_list children s
  end.
End GenericVisit.

(** ** ImportResolver *)

Record ImportResolver : Type := mkResolver {
  alias_to_module : gmap string string;
  alias_is_from_object : gmap string (string * string);
  import_lines : gset Z
}.

Definition resolver_init : ImportResolver := mkResolver ∅ ∅ ∅.

(** One iteration of the loop of [visit_Import]. *)
Definition import_alias (r : ImportResolver) (a : alias) : ImportResolver :=
  let mod_ := alias_name a in
  let asname := PyStr.or_else (alias_asname a) (PyStr.last_component mod_) in
  mkResolver (<[asname := mod_]> (alias_to_module r))
             (alias_is_from_object r) (import_lines r).

Definition visit_Import (lineno : Z) (names : list alias)
    (r : ImportResolver) : ImportResolver :=
  let r := mkResolver (alias_to_module r) (alias_is_from_object r)
                      ({[lineno]} ∪ import_lines r) in
  fold_left import_alias names r.

(** One iteration of the loop of [visit_ImportFrom]. *)
Definition import_from_alias (module : string) (r : ImportResolver)
    (a : alias) : ImportResolver :=
  let asname := PyStr.or_else (alias_asname a) (alias_name a) in
  let full := if PyStr.truthy module
              then module +:+ "." +:+ alias_name a else alias_name a in
  mkResolver (<[asname := full]> (alias_to_module r))
             (<[asname := (module, alias_name a)]> (alias_is_from_object r))
             (import_lines r).

Definition visit_ImportFrom (lineno : Z) (module : option string)
    (names : list alias) (r : ImportResolver) : ImportResolver :=
  let r := mkResolver (alias_to_module r) (alias_is_from_object r)
                      ({[lineno]} ∪ import_lines r) in
  let module := PyStr.or_else module EmptyString in
  fold_left (import_from_alias module) names r.

Fixpoint resolver_visit (n : node) (r : ImportResolver) : ImportResolver :=
  match n with
  | Import lineno names =>
      generic_visit resolver_visit n (visit_Import lineno names r)
  | ImportFrom lineno module names =>
      generic_visit resolver_visit n (visit_ImportFrom lineno module names r)
  | _ => generic_visit resolver_visit n r
  end.

(** ** ScopeTracker

    The stack grows at its end ([list.append]); [pop] drops the last
    entry.  Every [pop] follows a push on the same stack with a balanced
    traversal in between (lemma [scope_visit_id]), so the stack is never
    empty when [pop] runs. *)

Definition scope_stack := list (string * string).

(** [ScopeTracker.current] *)
Definition scope_current (stack : scope_stack)
    : bool * option string * option string :=
  let step (acc : option string * option string) (e : string * string) :=
    let '(fn, cl) := acc in
    let '(t, n) := e in
    let fn := match fn with
              | None => if String.eqb t "function" then Some n else None
              | Some _ => fn
              end in
    let cl := match cl with
              | None => if String.eqb t "class" then Some n else None
              | Some _ => cl
              end in
    (fn, cl) in
  let '(fn, cl) := fold_left step (rev stack) (None, None) in
  (bool_decide (List.length stack = 0%nat), fn, cl).

Fixpoint scope_visit (n : node) (stack : scope_stack) : scope_stack :=
  match n with
  | FunctionDef _ name _ _ _ _ _ | AsyncFunctionDef _ name _ _ _ _ _ =>
      removelast (generic_visit scope_visit n (stack ++ [("function", name)]))
  | ClassDef _ name _ _ _ _ _ =>
      removelast (generic_visit scope_visit n (stack ++ [("class", name)]))
  | _ => generic_visit scope_visit n stack
  end.

(** ** Constants of [scan_monkey_patches.py] *)

Definition DEFAULT_CONTEXT_LINES : Z := 2.
Definition KNOWN_SINGLETON_BASES : gset string := {[ "logging"; "warnings" ]}.

Definition CATEGORY_ATTRIBUTE_REASSIGNMENT := "attribute_reassignment_on_import".
Definition CATEGORY_SETATTR := "setattr_on_import_or_class".
Definition CATEGORY_SYS_MODULES := "sys_modules_assignment".
Definition CATEGORY_BUILTINS := "builtins_mutation".
Definition CATEGORY_IMPORT_TIME := "import_time_side_effect".
Definition CATEGORY_TEST_PATCH_MISUSE := "test_patch_misuse".
Definition CATEGORY_GLOBAL_ENV := "global_env_mutation".
Definition CATEGORY_SINGLETON_REBIND := "singleton_rebind".
Definition CATEGORY_OTHER := "other".

Definition INTENT_MODULE_INJECTION := "module injection/aliasing".
Definition INTENT_OVERRIDE_THIRD_PARTY := "override third-party behavior".
Definition INTENT_NON_SCOPED_TEST_PATCH := "non-scoped test patch".
Definition INTENT_GLOBAL_RUNTIME_CHANGE := "global runtime change".
Definition INTENT_IMPORT_TIME_OVERRIDE := "import-time behavior override".
Definition INTENT_UNSPECIFIED := "unspecified monkey patch".

(** ** Findings *)

Record Finding : Type := mkFinding {
  file : string;
  line : Z;
  code : string;
  category : string;
  intent : string;
  import_base : option string;
  is_test : bool;
  is_module_scope : bool;
  function : option string;
  class_name : option string;
  nearby_comment : option string;
  context : option string;
  git_author : option string;
  git_commit : option string;
  git_commit_date : option string
}.

(** A path as the scanner uses it: its text ([str(file_path)]) and, when it
    lies under the repository root, the components of
    [file_path.relative_to(repo_root)]. *)
Record path : Type := Path {
  path_str : string;
  rel_parts : option (list string)
}.

(** [str(file_path.relative_to(repo_root))] if the path is under the root,
    else [str(file_path)]. *)
Definition finding_file (p : path) : string :=
  match rel_parts p with
  | Some [] => "."
  | Some parts => PyStr.join "/" parts
  | None => path_str p
  end.

Definition get_context (lines : list string) (lineno n : Z) : string :=
  let i := Z.max 1 (lineno - n) in
  let j := Z.min (Z.of_nat (List.length lines)) (lineno + n) in
  let segment := PyStr.slice lines (i - 1) j in
  PyStr.join PyStr.newline
    (imap (λ k s, PyStr.rjust5 (PyStr.str_of_Z (Z.of_nat k + 1)) +:+ ": " +:+ s)
          segment).

(** The loop of [get_nearby_comment] over the reversed window: the
    stripped lines collected until the first line that is neither a comment
    nor blank, in the order of collection. *)
Fixpoint collect_comments (window_rev : list string) : list string :=
  match window_rev with
  | [] => []
  | l :: rest =>
      let s := PyStr.strip l in
      if PyStr.startswith s "#" then s :: collect_comments rest
      else if String.eqb s EmptyString then s :: collect_comments rest
      else []
  end.

Definition get_nearby_comment (lines : list string) (lineno : Z)
    : option string :=
  let lookback := 5 in
  let start := Z.max 0 (lineno - 2 - lookback) in
  let window := PyStr.slice lines start (Z.max 0 (lineno - 1)) in
  let collected := rev (collect_comments (rev window)) in
  let text := PyStr.strip (PyStr.join PyStr.newline collected) in
  if PyStr.truthy text then Some text else None.

Definition is_path_in_tests (p : path) : bool :=
  match rel_parts p with
  | Some parts => bool_decide ("tests" ∈ parts)
  | None => false
  end.

Definition base_module_name (mod_ : option string) : option string :=
  match mod_ with
  | Some m => if PyStr.truthy m then Some (PyStr.first_component m) else None
  | None => None
  end.

(** The [while] loop of [dotted_name_from_attribute] and its exit. *)
Fixpoint dotted_loop (cur : node) (parts : list string)
    : option (list string) :=
  match cur with
  | Attribute _ value attr => dotted_loop value (parts ++ [attr])
  | Name _ id => Some (rev (parts ++ [id]))
  | _ => None
  end.

Definition dotted_name_from_attribute (attr : node) : option string :=
  PyStr.join "." <$> dotted_loop attr [].

(** Truth value of an optional string ([if base:]). *)
Definition truthy_opt (s : option string) : bool :=
  match s with Some s => PyStr.truthy s | None => false end.

Definition is_alias_external (alias_ : string) (resolver : ImportResolver)
    (project_pkgs : gset string) : bool * option string :=
  match alias_to_module resolver !! alias_ with
  | None => (false, None)
  | Some mod_ =>
      if negb (PyStr.truthy mod_) then (false, None)
      else
        let base := base_module_name (Some mod_) in
        (match base with
         | Some b => if PyStr.truthy b then bool_decide (b ∉ project_pkgs)
                     else false
         | None => false
         end, base)
  end.

Definition classify_intent (category : string) (import_base : option string)
    (is_test : bool) : string :=
  if String.eqb category CATEGORY_SYS_MODULES then INTENT_MODULE_INJECTION
  else if String.eqb category CATEGORY_BUILTINS
  then INTENT_GLOBAL_RUNTIME_CHANGE
  else if String.eqb category CATEGORY_IMPORT_TIME
  then INTENT_IMPORT_TIME_OVERRIDE
  else if String.eqb category CATEGORY_TEST_PATCH_MISUSE && is_test
  then INTENT_NON_SCOPED_TEST_PATCH
  else if truthy_opt import_base
          && (String.eqb category CATEGORY_ATTRIBUTE_REASSIGNMENT
              || String.eqb category CATEGORY_SETATTR
              || String.eqb category CATEGORY_SINGLETON_REBIND)
  then INTENT_OVERRIDE_THIRD_PARTY
  else INTENT_UNSPECIFIED.

Definition _is_sys_modules (sub : node) : bool :=
  match sub with
  | Subscript _ (Attribute _ (Name _ id) attr) _ =>
      String.eqb id "sys" && String.eqb attr "modules"
  | _ => false
  end.

Definition _is_os_environ (sub : node) : bool :=
  match sub with
  | Subscript _ (Attribute _ (Name _ id) attr) _ =>
      String.eqb id "os" && String.eqb attr "environ"
  | _ => false
  end.

(** [any(abs(lineno - li) <= window for li in import_lines)], [window = 5] *)
Definition _near_import (lineno : Z) (import_lines : gset Z) : bool :=
  bool_decide (set_Exists (λ li, Z.abs (lineno - li) <= 5) import_lines).

Definition _is_patch_name (name : string) (resolver : ImportResolver) : bool :=
  match alias_to_module resolver !! name with
  | None => String.eqb name "patch"
  | Some mapped =>
      if negb (PyStr.truthy mapped) then String.eqb name "patch"
      else PyStr.endswith mapped ".patch"
           || String.eqb mapped "unittest.mock.patch"
  end.

(** The attribute branch shared by [_is_patch_call] and
    [_is_patch_decorator]: [dotted is not None and dotted.endswith(".patch")]. *)
Definition dotted_ends_with_patch (n : node) : bool :=
  match dotted_name_from_attribute n with
  | Some dotted => PyStr.endswith dotted ".patch"
  | None => false
  end.

(** [_is_patch_call(node, resolver)], given [node.func]. *)
Definition _is_patch_call (func : node) (resolver : ImportResolver) : bool :=
  match func with
  | Name _ id => _is_patch_name id resolver
  | Attribute _ _ _ => dotted_ends_with_patch func
  | _ => false
  end.

Definition _is_patch_decorator (dec : node) (resolver : ImportResolver)
    : bool :=
  match dec with
  | Call _ func _ _ => _is_patch_call func resolver
  | Name _ id => _is_patch_name id resolver
  | Attribute _ _ _ => dotted_ends_with_patch dec
  | _ => false
  end.

(** [getattr(node, "lineno", -1)]: the nodes without a line number are the
    module and the nodes the model lumps into [Other]. *)
Definition lineno_of (n : node) : Z :=
  match n with
  | Name l _ | Attribute l _ _ | Subscript l _ _ | Call l _ _ _
  | Assign l _ _ | AugAssign l _ _ | AnnAssign l _ _ _ | Delete l _
  | FunctionDef l _ _ _ _ _ _ | AsyncFunctionDef l _ _ _ _ _ _
  | ClassDef l _ _ _ _ _ _ | Import l _ | ImportFrom l _ _ => l
  | Module _ | Other _ => -1
  end.

(** ** MonkeyPatchScanner

    The scanner object's read-only fields are the section variables; its
    mutable part is the scope tracker's stack and the list of findings. *)

Record Scanner : Type := mkScanner {
  scope : scope_stack;
  findings : list Finding
}.

Section MonkeyPatchScanner.
Variable file_path : path.
Variable lines : list string.
Variable resolver : ImportResolver.
Variable project_pkgs : gset string.

(** The record [_add_finding] builds.  The context window is taken with
    [DEFAULT_CONTEXT_LINES]; the scanner's own [context_lines] field is
    stored by the constructor and never read. *)
Definition make_finding (lineno : Z) (category : string)
    (import_base : option string) (is_module_scope : bool)
    (fn_name cl_name : option string) : Finding :=
  let code_line :=
    if (1 <=? lineno) && (lineno <=? Z.of_nat (List.length lines))
    then PyStr.rstrip (PyStr.nth_line lines lineno) else EmptyString in
  let context := get_context lines lineno DEFAULT_CONTEXT_LINES in
  let comment := get_nearby_comment lines lineno in
  let is_test := is_path_in_tests file_path in
  let intent := classify_intent category import_base is_test in
  {| file := finding_file file_path;
     line := lineno;
     code := code_line;
     category := category;
     intent := intent;
     import_base := import_base;
     is_test := is_test;
     is_module_scope := is_module_scope;
     function := fn_name;
     class_name := cl_name;
     nearby_comment := comment;
     context := Some context;
     git_author := None;
     git_commit := None;
     git_commit_date := None |}.

Definition _add_finding (lineno : Z) (category : string)
    (import_base : option string) (is_module_scope : bool)
    (fn_name cl_name : option string) (s : Scanner) : Scanner :=
  mkScanner (scope s)
    (findings s ++ [make_finding lineno category import_base
                      is_module_scope fn_name cl_name]).

(** *** [_handle_assignment]

    The body of the loop over the targets is a cascade of blocks, each
    ending in [continue] when it fires.  A block is a partial function:
    [None] means control falls through to the next block. *)
Section Target.
Variable lineno : Z.
Variable is_module_scope : bool.
Variables fn_name cl_name : option string.

Definition add (category : string) (base : option string)
    (s : Scanner) : Scanner :=
  _add_finding lineno category base is_module_scope fn_name cl_name s.

(** [sys.modules[...]] *)
Definition target_sys_modules (t : node) (s : Scanner) : option Scanner :=
  match t with
  | Subscript _ _ _ =>
      if _is_sys_modules t
      then Some (add CATEGORY_SYS_MODULES (Some "sys") s) else None
  | _ => None
  end.

(** [builtins.X = ...] *)
Definition target_builtins (t : node) (s : Scanner) : option Scanner :=
  match t with
  | Attribute _ (Name _ id) _ =>
      if String.eqb id "builtins"
      then Some (add CATEGORY_BUILTINS (Some "builtins") s) else None
  | _ => None
  end.

(** [os.environ[...]] *)
Definition target_os_environ (t : node) (s : Scanner) : option Scanner :=
  match t with
  | Subscript _ _ _ =>
      if _is_os_environ t
      then Some (add CATEGORY_GLOBAL_ENV (Some "os") s) else None
  | _ => None
  end.

(** [logging.getLogger = ...] or [warnings.filterwarnings = ...] *)
Definition target_singleton (t : node) (s : Scanner) : option Scanner :=
  match t with
  | Attribute _ _ _ =>
      match dotted_name_from_attribute t with
      | Some dotted =>
          if PyStr.truthy dotted then
            let base := PyStr.first_component dotted in
            if bool_decide (base ∈ KNOWN_SINGLETON_BASES)
               && PyStr.has_dot dotted
            then Some (add CATEGORY_SINGLETON_REBIND (Some base) s)
            else None
          else None
      | None => None
      end
  | _ => None
  end.

(** The alias at the base of an attribute target. *)
Definition target_base_alias (t : node) : option string :=
  match t with
  | Attribute _ (Name _ id) _ => Some id
  | Attribute _ _ _ =>
      match dotted_name_from_attribute t with
      | Some dotted =>
          if PyStr.truthy dotted && PyStr.has_dot dotted
          then Some (PyStr.first_component dotted) else None
      | None => None
      end
  | _ => None
  end.

(** [pkg.attr = ...] where the alias [pkg] is imported *)
Definition target_attribute (t : node) (s : Scanner) : option Scanner :=
  match t with
  | Attribute _ _ _ =>
      match target_base_alias t with
      | Some base_alias =>
          if PyStr.truthy base_alias then
            let '(external, base) :=
              is_alias_external base_alias resolver project_pkgs in
            if truthy_opt base then
              let s := add CATEGORY_ATTRIBUTE_REASSIGNMENT base s in
              let s :=
                if is_module_scope
                   && _near_import lineno (import_lines resolver)
                then add CATEGORY_IMPORT_TIME base s else s in
              Some s
            else None
          else None
      | None => None
      end
  | _ => None
  end.

(** assignment to an imported alias ([from X import Y; Y = ...]) *)
Definition target_name (t : node) (s : Scanner) : option Scanner :=
  match t with
  | Name _ id =>
      match alias_to_module resolver !! id with
      | Some mod_ =>
          let base := base_module_name (Some mod_) in
          if truthy_opt base
          then Some (add CATEGORY_ATTRIBUTE_REASSIGNMENT base s)
          else None
      | None => None
      end
  | _ => None
  end.

Definition handle_target (s : Scanner) (t : node) : Scanner :=
  match target_sys_modules t s with Some s' => s' | None =>
  match target_builtins t s with Some s' => s' | None =>
  match target_os_environ t s with Some s' => s' | None =>
  match target_singleton t s with Some s' => s' | None =>
  match target_attribute t s with Some s' => s' | None =>
  match target_name t s with Some s' => s' | None => s
  end end end end end end.
End Target.

(** The targets [_handle_assignment] loops over. *)
Definition assignment_targets (n : node) : list node :=
  match n with
  | Assign _ targets _ => targets
  | AnnAssign _ target _ _ => [target]
  | AugAssign _ target _ => [target]
  | _ => []
  end.

Definition _handle_assignment (n : node) (lineno : Z) (s : Scanner)
    : Scanner :=
  let '(is_module_scope, fn_name, cl_name) := scope_current (scope s) in
  fold_left (handle_target lineno is_module_scope fn_name cl_name)
            (assignment_targets n) s.

(** *** [visit_Call], without its final [generic_visit] *)

(** [setattr(...)] *)
Definition call_setattr (lineno : Z) (func : node) (args : list node)
    (ms : bool) (fn cl : option string) (s : Scanner) : Scanner :=
  match func, args with
  | Name _ id, target :: _ =>
      if String.eqb id "setattr" then
        let base_alias :=
          match target with
          | Name _ tid => Some tid
          | Attribute _ (Name _ vid) _ => Some vid
          | _ => None
          end in
        let '(external, base) :=
          if truthy_opt base_alias
          then is_alias_external (PyStr.or_else base_alias EmptyString)
                                 resolver project_pkgs
          else (false, None) in
        _add_finding lineno CATEGORY_SETATTR base ms fn cl s
      else s
  | _, _ => s
  end.

(** [builtins.setattr(...)] *)
Definition call_builtins_setattr (lineno : Z) (func : node)
    (ms : bool) (fn cl : option string) (s : Scanner) : Scanner :=
  match func with
  | Attribute _ _ _ =>
      match dotted_name_from_attribute func with
      | Some dotted =>
          if String.eqb dotted "builtins.setattr"
          then _add_finding lineno CATEGORY_SETATTR (Some "builtins")
                            ms fn cl s
          else s
      | None => s
      end
  | _ => s
  end.

(** [patch(...)] called at module scope *)
Definition call_patch (lineno : Z) (func : node)
    (ms : bool) (fn cl : option string) (s : Scanner) : Scanner :=
  if ms && _is_patch_call func resolver
  then _add_finding lineno CATEGORY_TEST_PATCH_MISUSE (Some "unittest")
                    ms fn cl s
  else s.

(** [os.environ.update(...)], [os.environ.setdefault(...)] *)
Definition call_os_environ (lineno : Z) (func : node)
    (ms : bool) (fn cl : option string) (s : Scanner) : Scanner :=
  match func with
  | Attribute _ (Attribute _ (Name _ id) vattr) fattr =>
      if String.eqb id "os" && String.eqb vattr "environ"
         && (String.eqb fattr "update" || String.eqb fattr "setdefault")
      then _add_finding lineno CATEGORY_GLOBAL_ENV (Some "os") ms fn cl s
      else s
  | _ => s
  end.

Definition call_checks (lineno : Z) (func : node) (args : list node)
    (s : Scanner) : Scanner :=
  let '(ms, fn, cl) := scope_current (scope s) in
  let s := call_setattr lineno func args ms fn cl s in
  let s := call_builtins_setattr lineno func ms fn cl s in
  let s := call_patch lineno func ms fn cl s in
  call_os_environ lineno func ms fn cl s.

(** *** [visit_Delete], without its final [generic_visit] *)
Definition delete_target (lineno : Z) (s : Scanner) (target : node)
    : Scanner :=
  match target with
  | Subscript _ _ _ =>
      if _is_sys_modules target then
        let '(ms, fn, cl) := scope_current (scope s) in
        _add_finding lineno CATEGORY_SYS_MODULES (Some "sys") ms fn cl s
      else s
  | _ => s
  end.

Definition delete_checks (lineno : Z) (targets : list node) (s : Scanner)
    : Scanner :=
  fold_left (delete_target lineno) targets s.

(** *** [visit_FunctionDef] and [visit_ClassDef], without their final
    [generic_visit]: decorators of a definition at module scope.
    [fn] and [cl] are the names recorded in the finding. *)
Definition decorator_check (node_lineno : Z) (fn cl : option string)
    (s : Scanner) (dec : node) : Scanner :=
  if _is_patch_decorator dec resolver then
    let lineno := match dec with
                  | Module _ | Other _ => node_lineno
                  | _ => lineno_of dec
                  end in
    _add_finding lineno CATEGORY_TEST_PATCH_MISUSE (Some "unittest")
                 true fn cl s
  else s.

Definition decorator_checks (node_lineno : Z) (fn cl : option string)
    (decorator_list : list node) (s : Scanner) : Scanner :=
  if (scope_current (scope s)).1.1
  then fold_left (decorator_check node_lineno fn cl) decorator_list s
  else s.

(** *** The overridden [generic_visit]

    A function or class definition is handed to the scope tracker, whose
    own traversal walks the whole definition; for every other node the
    inherited [generic_visit] continues with the scanner's [visit]. *)
Definition scanner_generic_visit (visit : node → Scanner → Scanner)
    (n : node) (s : Scanner) : Scanner :=
  if is_def n then mkScanner (scope_visit n (scope s)) (findings s)
  else generic_visit visit n s.

(** The scanner's own visitor methods ([visit_Assign], [visit_AnnAssign],
    [visit_AugAssign], [visit_Call], [visit_Delete], [visit_FunctionDef],
    [visit_ClassDef]) up to their final call of [generic_visit].  There
    is no [visit_AsyncFunctionDef]. *)
Definition visit_method (n : node) (s : Scanner) : Scanner :=
  match n with
  | Assign lineno _ _ | AnnAssign lineno _ _ _ | AugAssign lineno _ _ =>
      _handle_assignment n lineno s
  | Call lineno func args _ => call_checks lineno func args s
  | Delete lineno targets => delete_checks lineno targets s
  | FunctionDef lineno name _ _ decorator_list _ _ =>
      decorator_checks lineno (Some name) None decorator_list s
  | ClassDef lineno name _ _ _ decorator_list _ =>
      decorator_checks lineno None (Some name) decorator_list s
  | _ => s
  end.

(** [MonkeyPatchScanner.visit]: the method for the node's class if there
    is one, which ends in [generic_visit]; [generic_visit] otherwise. *)
Fixpoint scanner_visit (n : node) (s : Scanner) : Scanner :=
  scanner_generic_visit scanner_visit n (visit_method n s).

(** The findings of the tree pass: [scanner.visit(tree); scanner.findings]. *)
Definition tree_findings (tree : node) : list Finding :=
  findings (scanner_visit tree (mkScanner [] [])).
End MonkeyPatchScanner.

(** ** Regular expressions of the fallback pass

    The four patterns only use literal characters, character classes,
    starred or plussed character classes and the word boundary, so a
    pattern is a list of such items.  [search] decides whether the pattern
    matches somewhere in the string, as [rx.search(s)] does; repetition
    tries every number of characters, which is what backtracking explores. *)

Module Regex.

Inductive item : Type :=
| Chr (c : ascii)                 (* a literal character *)
| Cls (p : ascii → bool)          (* one character of a class *)
| Star (p : ascii → bool)         (* [p*] *)
| Plus (p : ascii → bool)         (* [p+] *)
| Boundary.                       (* [\b] *)

Definition pattern := list item.

Definition lit (s : string) : pattern :=
  Chr <$> String.list_ascii_of_string s.

(** [\b] between the previous character (if any) and the next one. *)
Definition at_boundary (prev : option ascii) (s : list ascii) : bool :=
  let that := match prev with Some c => PyStr.is_word c | None => false end in
  let this := match s with c :: _ => PyStr.is_word c | [] => false end in
  negb (Bool.eqb this that).

(** [p*] followed by the continuation [k]. *)
Fixpoint star (p : ascii → bool) (k : option ascii → list ascii → bool)
    (prev : option ascii) (s : list ascii) : bool :=
  k prev s ||
  match s with
  | c :: s' => p c && star p k (Some c) s'
  | [] => false
  end.

(** Does the pattern match at the start of [s]?  [prev] is the character
    before [s] in the searched string. *)
Fixpoint match_here (pat : pattern) (prev : option ascii) (s : list ascii)
    : bool :=
  match pat with
  | [] => true
  | Chr c :: pat' =>
      match s with
      | c' :: s' => Ascii.eqb c c' && match_here pat' (Some c') s'
      | [] => false
      end
  | Cls p :: pat' =>
      match s with
      | c' :: s' => p c' && match_here pat' (Some c') s'
      | [] => false
      end
  | Star p :: pat' => star p (match_here pat') prev s
  | Plus p :: pat' =>
      match s with
      | c' :: s' => p c' && star p (match_here pat') (Some c') s'
      | [] => false
      end
  | Boundary :: pat' => at_boundary prev s && match_here pat' prev s
  end.

Fixpoint search_from (pat : pattern) (prev : option ascii) (s : list ascii)
    : bool :=
  match_here pat prev s ||
  match s with
  | c :: s' => search_from pat (Some c) s'
  | [] => false
  end.

Definition search (pat : pattern) (s : string) : bool :=
  search_from pat None (String.list_ascii_of_string s).

Definition not_rbracket (c : ascii) : bool := negb (Ascii.eqb c "]").

(** [sys\.modules\[[^\]]+\]\s*=\s*] *)
Definition rx_sys_modules : pattern :=
  lit "sys.modules[" ++
  [Plus not_rbracket; Chr "]"; Star PyStr.is_space; Chr "=";
   Star PyStr.is_space].

(** [\bbuiltins\.[A-Za-z_]\w*\s*=\s*] *)
Definition rx_builtins : pattern :=
  [Boundary] ++ lit "builtins." ++
  [Cls PyStr.is_ident_start; Star PyStr.is_word; Star PyStr.is_space;
   Chr "="; Star PyStr.is_space].

(** [\bos\.environ\[[^\]]+\]\s*=\s*] *)
Definition rx_os_environ : pattern :=
  [Boundary] ++ lit "os.environ[" ++
  [Plus not_rbracket; Chr "]"; Star PyStr.is_space; Chr "=";
   Star PyStr.is_space].

(** [\bsetattr\s*\(] *)
Definition rx_setattr : pattern :=
  [Boundary] ++ lit "setattr" ++ [Star PyStr.is_space; Chr "("].

End Regex.

(** ** Regex fallback *)

Definition fallback_patterns : list (Regex.pattern * string) :=
  [ (Regex.rx_sys_modules, CATEGORY_SYS_MODULES);
    (Regex.rx_builtins, CATEGORY_BUILTINS);
    (Regex.rx_os_environ, CATEGORY_GLOBAL_ENV);
    (Regex.rx_setattr, CATEGORY_SETATTR) ].

(** The inner loop of [regex_fallback]: the category of the first pattern
    found in the stripped line. *)
Fixpoint first_match (patterns : list (Regex.pattern * string)) (s : string)
    : option string :=
  match patterns with
  | [] => None
  | (rx, cat) :: rest =>
      if Regex.search rx s then Some cat else first_match rest s
  end.

(** The outer loop, [enumerate(lines, start=i)]. *)
Fixpoint regex_fallback_from (i : Z) (lines : list string)
    : list (Z * string) :=
  match lines with
  | [] => []
  | l :: rest =>
      match first_match fallback_patterns (PyStr.strip l) with
      | Some cat => (i, cat) :: regex_fallback_from (i + 1) rest
      | None => regex_fallback_from (i + 1) rest
      end
  end.

Definition regex_fallback (lines : list string) : list (Z * string) :=
  regex_fallback_from 1 lines.

(** ** Logging

    A call of the [logging] module is recorded with its level; the root
    logger set up by [main] emits a record only at or above its level
    ([DEBUG] with [--verbose], [INFO] otherwise). *)

Inductive log_level : Type := DEBUG | INFO | ERROR.

Definition level_no (l : log_level) : Z :=
  match l with DEBUG => 10 | INFO => 20 | ERROR => 40 end.

Record log_record : Type := LogRecord {
  record_level : log_level;
  record_msg : string
}.

Definition emitted (verbose : bool) (records : list log_record)
    : list log_record :=
  let threshold := level_no (if verbose then DEBUG else INFO) in
  filter (λ r, threshold <= level_no (record_level r)) records.

(** ** [scan_file] *)

(** A source file as [scan_file] sees it: its path, the result of
    [read_lines], and the result of [ast.parse] on the joined lines
    ([None] when it raises). *)
Record SourceFile : Type := mkSourceFile {
  src_path : path;
  text_lines : list string;
  parsed : option node
}.

(** How a call ends: with a value, or with the exception it lets escape. *)
Inductive outcome (A : Type) : Type :=
| Returned (a : A)
| Raised.
Arguments Returned {A} a.
Arguments Raised {A}.

(** The minimal finding built for a regex hit. *)
Definition fallback_finding (file_path : path) (text_lines : list string)
    (context_lines : Z) (lineno : Z) (category : string) : Finding :=
  let code_line :=
    if (1 <=? lineno) && (lineno <=? Z.of_nat (List.length text_lines))
    then PyStr.rstrip (PyStr.nth_line text_lines lineno) else EmptyString in
  let context := get_context text_lines lineno context_lines in
  let comment := get_nearby_comment text_lines lineno in
  let is_module_scope := true in
  let is_test := is_path_in_tests file_path in
  {| file := finding_file file_path;
     line := lineno;
     code := code_line;
     category := category;
     intent := classify_intent category None is_test;
     import_base := None;
     is_test := is_test;
     is_module_scope := is_module_scope;
     function := None;
     class_name := None;
     nearby_comment := comment;
     context := Some context;
     git_author := None;
     git_commit := None;
     git_commit_date := None |}.

(** The key set [seen], computed once from the tree findings. *)
Definition seen_keys (fs : list Finding) : gset (Z * string) :=
  list_to_set ((λ f, (line f, category f)) <$> fs).

(** The loop over the fallback hits. *)
Definition add_fallback (file_path : path) (text_lines : list string)
    (context_lines : Z) (seen : gset (Z * string))
    (findings : list Finding) (hit : Z * string) : list Finding :=
  let '(lineno, category) := hit in
  if bool_decide ((lineno, category) ∈ seen) then findings
  else findings ++ [fallback_finding file_path text_lines context_lines
                      lineno category].

Definition scan_file (src : SourceFile) (project_pkgs : gset string)
    (context_lines : Z) (strict : bool)
    : list log_record * outcome (list Finding) :=
  match parsed src with
  | None =>
      let log := [LogRecord DEBUG ("Failed to parse " +:+ path_str (src_path src))] in
      if strict then (log, Raised) else (log, Returned [])
  | Some tree =>
      let resolver := resolver_visit tree resolver_init in
      let findings :=
        tree_findings (src_path src) (text_lines src) resolver project_pkgs
                      tree in
      let findings :=
        if negb strict then
          let fallback_hits := regex_fallback (text_lines src) in
          let seen := seen_keys findings in
          fold_left (add_fallback (src_path src) (text_lines src)
                       context_lines seen) fallback_hits findings
        else findings in
      ([], Returned findings)
  end.

(** ** [iter_python_files]

    [listing] is what [repo_root.rglob("*.py")] yields, in the order it
    yields it; [patterns] is the set of exclusion globs in the order the
    [for] loop happens to iterate over it; [path_match] stands for
    [PurePath.match]. *)

Definition DEFAULT_EXCLUDES : gset string :=
  {[ ".git"; ".venv"; "venv"; "__pycache__"; "node_modules"; "build"; "dist";
     ".founder_files"; "external"; "libraries"; "z_FUTURE_IMPIMENTATIONS";
     "zzz_agent_repos" ]}.

Section IterPythonFiles.
Variable path_match : list string → string → bool.

Definition rel_of (p : path) : list string :=
  match rel_parts p with Some parts => parts | None => [] end.

(** [parts & exclude_dirs] is non-empty. *)
Definition in_excluded_dir (exclude_dirs : gset string) (p : path) : bool :=
  bool_decide (list_to_set (rel_of p) ∩ exclude_dirs ≠ (∅ : gset string)).

(** The loop over the patterns with its [break]. *)
Fixpoint glob_skip (rel : list string) (patterns : list string) : bool :=
  match patterns with
  | [] => false
  | pat :: rest => if path_match rel pat then true else glob_skip rel rest
  end.

Definition iter_python_files (listing : list SourceFile)
    (exclude_dirs : gset string) (patterns : list string)
    : list SourceFile :=
  filter (λ f, ¬ (in_excluded_dir exclude_dirs (src_path f) = true
                  ∨ glob_skip (rel_of (src_path f)) patterns = true))
         listing.
End IterPythonFiles.

(** ** [write_reports] *)

(** Values handed to [json.dump] and cells handed to [csv.writer]. *)
Inductive json : Type :=
| JNull
| JBool (b : bool)
| JInt (n : Z)
| JStr (s : string)
| JList (l : list json)
| JDict (l : list (string * json)).

Inductive cell : Type :=
| CStr (s : string)
| CInt (n : Z)
| CBool (b : bool).

Definition json_opt (s : option string) : json :=
  match s with Some s => JStr s | None => JNull end.

(** [dataclasses.asdict(f)]: the fields in declaration order. *)
Definition asdict (f : Finding) : json :=
  JDict
    [ ("file", JStr (file f));
      ("line", JInt (line f));
      ("code", JStr (code f));
      ("category", JStr (category f));
      ("intent", JStr (intent f));
      ("import_base", json_opt (import_base f));
      ("is_test", JBool (is_test f));
      ("is_module_scope", JBool (is_module_scope f));
      ("function", json_opt (function f));
      ("class_name", json_opt (class_name f));
      ("nearby_comment", json_opt (nearby_comment f));
      ("context", json_opt (context f));
      ("git_author", json_opt (git_author f));
      ("git_commit", json_opt (git_commit f));
      ("git_commit_date", json_opt (git_commit_date f)) ].

Definition csv_header : list cell :=
  CStr <$> [ "file"; "line"; "category"; "import_base"; "is_test";
             "is_module_scope"; "intent"; "code" ].

Definition csv_row (f : Finding) : list cell :=
  [ CStr (file f); CInt (line f); CStr (category f);
    CStr (PyStr.or_else (import_base f) EmptyString);
    CBool (is_test f); CBool (is_module_scope f);
    CStr (intent f); CStr (code f) ].

(** What [git blame] answers for a file and a line: author, commit, date,
    each possibly missing. *)
Definition blame_oracle : Type :=
  string → Z → option string * option string * option string.

Definition with_blame (blame : blame_oracle) (f : Finding) : Finding :=
  let '(author, commit, date) := blame (file f) (line f) in
  {| file := file f; line := line f; code := code f;
     category := category f; intent := intent f;
     import_base := import_base f; is_test := is_test f;
     is_module_scope := is_module_scope f; function := function f;
     class_name := class_name f; nearby_comment := nearby_comment f;
     context := context f;
     git_author := author; git_commit := commit; git_commit_date := date |}.

(** Counting as the summary does: [d[k] = d.get(k, 0) + 1]. *)
Definition count_keys (keys : list string) : gmap string Z :=
  fold_left (λ d k, <[k := default 0 (d !! k) + 1]> d) keys ∅.

(** [sorted(d.items())]: by key (the keys are distinct). *)
Definition sorted_items (d : gmap string Z) : list (string * Z) :=
  merge_sort (λ x y, String.le x.1 y.1) (map_to_list d).

(** [sorted(d.items(), key=lambda x: (-x[1], x[0]))] *)
Definition by_count_then_name (x y : string * Z) : Prop :=
  x.2 > y.2 ∨ (x.2 = y.2 ∧ String.le x.1 y.1).

Definition sorted_by_count (d : gmap string Z) : list (string * Z) :=
  merge_sort by_count_then_name (map_to_list d).

Definition top_n (d : gmap string Z) : list (string * Z) :=
  take 10 (sorted_by_count d).

Definition bullet (x : string * Z) : string :=
  "- " +:+ x.1 +:+ ": " +:+ PyStr.str_of_Z x.2.

Definition table_row (x : string * Z) : string :=
  "| " +:+ x.1 +:+ " | " +:+ PyStr.str_of_Z x.2 +:+ " |".

(** The text of [SUMMARY.md]; [now_iso] is
    [dt.datetime.now().isoformat()] at the time of writing. *)
Definition summary_md (now_iso : string) (findings : list Finding) : string :=
  let nl := PyStr.newline in
  let by_category := count_keys (category <$> findings) in
  let by_import_base :=
    count_keys (omap (λ f, match import_base f with
                           | Some b => if PyStr.truthy b then Some b else None
                           | None => None
                           end) findings) in
  let by_file := count_keys (file <$> findings) in
  let lines :=
    [ "# Monkey Patch Scan Summary" +:+ nl;
      "Date: " +:+ now_iso +:+ nl;
      nl +:+ "## Totals by Category" +:+ nl ]
    ++ (bullet <$> sorted_items by_category)
    ++ [ nl +:+ "## Top Externals Patched" +:+ nl ]
    ++ (bullet <$> top_n by_import_base)
    ++ [ nl +:+ "## Files with Highest Patch Count" +:+ nl ]
    ++ (bullet <$> top_n by_file)
    ++ (if bool_decide (by_import_base ≠ ∅)
        then [ nl +:+ "## Patches Grouped by Package" +:+ nl;
               "| Package | Count |" +:+ nl +:+ "|---|---:|" ]
             ++ (table_row <$> sorted_by_count by_import_base)
        else [])
    ++ [ nl +:+ "## Next Steps" +:+ nl;
         "- [ ] Review global mutations (builtins, os.environ) and confine to startup phases.";
         "- [ ] Replace module-scope patches with context-managed patches in tests.";
         "- [ ] Isolate import-time overrides behind flags or dependency injection.";
         "- [ ] Add targeted tests for any retained patches with clear rationale." ] in
  PyStr.join nl lines +:+ nl.

(** The three files of one output directory. *)
Record Reports : Type := mkReports {
  report_json : string;
  report_csv : string;
  report_summary : string
}.

Section WriteReports.
(** [json.dump(_, indent=2, ensure_ascii=False)] and the text a
    [csv.writer] produces for a list of rows. *)
Variable json_dump : json → string.
Variable csv_write : list (list cell) → string.

Definition write_reports (blame : blame_oracle) (now_iso : string)
    (findings : list Finding) (with_git : bool) : Reports :=
  let findings :=
    if with_git then with_blame blame <$> findings else findings in
  {| report_json := json_dump (JList (asdict <$> findings));
     report_csv := csv_write (csv_header :: (csv_row <$> findings));
     report_summary := summary_md now_iso findings |}.
End WriteReports.

(** ** The fixture files of [run_self_test] *)

Module Fixtures.

(** The double quote character. *)
Definition dq : string := String "034"%char EmptyString.

Definition const : node := Other [].
Definition expr_stmt (e : node) : node := Other [e].
(** A file of the temporary directory [td] the self test scans. *)
Definition in_root (name : string) : path :=
  Path ("/tmp/td/" +:+ name) (Some [name]).

Definition a_modscope_assign : SourceFile :=
  mkSourceFile (in_root "a_modscope_assign.py")
    [ EmptyString;
      "import requests";
      "requests.adapters.DEFAULT_POOLSIZE = 1  # change pool size" ]
    (Some (Module
      [ Import 2 [Alias "requests" None];
        Assign 3
          [Attribute 3 (Attribute 3 (Name 3 "requests") "adapters")
             "DEFAULT_POOLSIZE"]
          const ])).

Definition b_setattr : SourceFile :=
  mkSourceFile (in_root "b_setattr.py")
    [ EmptyString;
      "import requests";
      "setattr(requests, " +:+ dq +:+ "api" +:+ dq +:+ ", object())" ]
    (Some (Module
      [ Import 2 [Alias "requests" None];
        expr_stmt
          (Call 3 (Name 3 "setattr")
             [Name 3 "requests"; const; Call 3 (Name 3 "object") [] []]
             []) ])).

Definition c_sysmodules : SourceFile :=
  mkSourceFile (in_root "c_sysmodules.py")
    [ EmptyString;
      "import sys";
      "sys.modules[" +:+ dq +:+ "foo" +:+ dq +:+ "] = object()" ]
    (Some (Module
      [ Import 2 [Alias "sys" None];
        Assign 3
          [Subscript 3 (Attribute 3 (Name 3 "sys") "modules") const]
          (Call 3 (Name 3 "object") [] []) ])).

(** [lambda *a, **k: None]: a lambda node with its arguments node (two
    [arg] children) and its body. *)
Definition d_builtins : SourceFile :=
  mkSourceFile (in_root "d_builtins.py")
    [ EmptyString;
      "import builtins";
      "builtins.open = lambda *a, **k: None" ]
    (Some (Module
      [ Import 2 [Alias "builtins" None];
        Assign 3
          [Attribute 3 (Name 3 "builtins") "open"]
          (Other [Other [Other []; Other []]; const]) ])).

Definition e_patch_misuse : SourceFile :=
  mkSourceFile (in_root "e_patch_misuse.py")
    [ EmptyString;
      "from unittest.mock import patch";
      "@patch(" +:+ dq +:+ "x.y.func" +:+ dq +:+ ")";
      "def test_foo():";
      "    pass";
      "patch(" +:+ dq +:+ "x.y.func" +:+ dq +:+ ")  # not context-managed" ]
    (Some (Module
      [ ImportFrom 2 (Some "unittest.mock") [Alias "patch" None];
        FunctionDef 4 "test_foo" (Other []) [Other []]
          [Call 3 (Name 3 "patch") [const] []] None [];
        expr_stmt (Call 6 (Name 6 "patch") [const] []) ])).

Definition f_env_mut : SourceFile :=
  mkSourceFile (in_root "f_env_mut.py")
    [ EmptyString;
      "import os";
      "os.environ[" +:+ dq +:+ "SOME_KEY" +:+ dq +:+ "] = " +:+ dq +:+ "1" +:+ dq;
      "os.environ.update({" +:+ dq +:+ "A" +:+ dq +:+ ":" +:+ dq +:+ "b" +:+ dq +:+ "})" ]
    (Some (Module
      [ Import 2 [Alias "os" None];
        Assign 3
          [Subscript 3 (Attribute 3 (Name 3 "os") "environ") const]
          const;
        expr_stmt
          (Call 4
             (Attribute 4 (Attribute 4 (Name 4 "os") "environ") "update")
             [Other [const; const]] []) ])).

(** [lambda name=None: None] *)
Definition g_singleton_rebind : SourceFile :=
  mkSourceFile (in_root "g_singleton_rebind.py")
    [ EmptyString;
      "import logging";
      "logging.getLogger = lambda name=None: None" ]
    (Some (Module
      [ Import 2 [Alias "logging" None];
        Assign 3
          [Attribute 3 (Name 3 "logging") "getLogger"]
          (Other [Other [Other []; const]; const]) ])).

Definition h_from_import_attr : SourceFile :=
  mkSourceFile (in_root "h_from_import_attr.py")
    [ EmptyString;
      "from somepkg import moduleX as mx";
      "mx.feature_flag = True" ]
    (Some (Module
      [ ImportFrom 2 (Some "somepkg") [Alias "moduleX" (Some "mx")];
        Assign 3 [Attribute 3 (Name 3 "mx") "feature_flag"] const ])).

Definition sample_files : list SourceFile :=
  [ a_modscope_assign; b_setattr; c_sysmodules; d_builtins;
    e_patch_misuse; f_env_mut; g_singleton_rebind; h_from_import_attr ].

End Fixtures.

(** ** [run_self_test] and [main] *)

(** What a run sees of the world outside the program. *)
Record Env : Type := mkEnv {
  (** [repo_root.rglob("*.py")], in the order it yields the files *)
  env_listing : list SourceFile;
  (** the order in which a [for] loop iterates over [set(l)]: the
      distinct elements of [l], in an order that depends on the hash seed
      of the interpreter *)
  env_set_order : list string → list string;
  (** [Path(file).resolve() == Path(__file__).resolve()] *)
  env_is_own_script : path → bool;
  (** [top_level_packages_default(repo_root)] *)
  env_default_pkgs : gset string;
  (** [dt.datetime.now().strftime("%Y-%m-%d_%H%M")] when the run starts *)
  env_now_stamp : string;
  (** [dt.datetime.now().isoformat()] when the summary is written *)
  env_now_iso : string;
  env_blame : blame_oracle;
  (** [root.rglob("*.py")] in the temporary directory of the self test *)
  env_self_test_listing : list SourceFile
}.

Record Args : Type := mkArgs {
  arg_repo_root : string;
  arg_output_dir : string;
  arg_project_packages : option (list string);
  arg_exclude_dirs : list string;
  arg_exclude_globs : list string;
  arg_context_lines : Z;
  arg_with_git : bool;
  arg_strict : bool;
  arg_verbose : bool;
  arg_self_test : bool
}.

Record RunResult : Type := mkRunResult {
  exit_code : Z;
  run_log : list log_record;           (* the logging calls, in order *)
  written : option (string * Reports)  (* output directory and its files *)
}.

Definition self_test_expected : gset string :=
  {[ CATEGORY_ATTRIBUTE_REASSIGNMENT; CATEGORY_SETATTR; CATEGORY_SYS_MODULES;
     CATEGORY_BUILTINS; CATEGORY_TEST_PATCH_MISUSE; CATEGORY_GLOBAL_ENV;
     CATEGORY_SINGLETON_REBIND ]}.

(** [repr] of a list of strings without quotes or backslashes. *)
Definition repr_list (l : list string) : string :=
  "[" +:+ PyStr.join ", " ((λ s, "'" +:+ s +:+ "'") <$> l) +:+ "]".

(** The em dash of the self-test message, as UTF-8. *)
Definition em_dash : string :=
  String "226"%char (String "128"%char (String "148"%char EmptyString)).

Section Main.
Variable path_match : list string → string → bool.
Variable json_dump : json → string.
Variable csv_write : list (list cell) → string.

(** The scanning loop of [run_self_test]: [scan_file] is called outside
    any [try], so an exception would end the loop. *)
Fixpoint self_test_scan (files : list SourceFile) (pkgs : gset string)
    : outcome (list Finding) :=
  match files with
  | [] => Returned []
  | f :: rest =>
      match scan_file f pkgs DEFAULT_CONTEXT_LINES false with
      | (_, Returned fds) =>
          match self_test_scan rest pkgs with
          | Returned more => Returned (fds ++ more)
          | Raised => Raised
          end
      | (_, Raised) => Raised
      end
  end.

(** The verdict of [run_self_test] on the findings of the fixtures. *)
Definition self_test_verdict (verbose : bool) (n_files : nat)
    (findings : list Finding) : list log_record * Z :=
  let cats : gset string := list_to_set (category <$> findings) in
  let missing := self_test_expected ∖ cats in
  if bool_decide (missing ≠ ∅) then
    ((if verbose
      then [LogRecord DEBUG
              ("[SELF-TEST] Missing categories: " +:+
               repr_list (merge_sort String.le (elements missing)))]
      else []), 2)
  else
    ((if verbose
      then [LogRecord DEBUG
              ("[SELF-TEST] OK " +:+ em_dash +:+ " " +:+
               PyStr.str_of_Z (Z.of_nat (List.length findings)) +:+
               " findings across " +:+
               PyStr.str_of_Z (Z.of_nat n_files) +:+ " files")]
      else []), 0).

(** [listing] is what [rglob] yields in the temporary directory holding
    the [sample_files]; the directory has no subdirectory, so [pkgs] is
    empty. *)
Definition run_self_test (listing : list SourceFile) (verbose : bool)
    : outcome (list log_record * Z) :=
  let n_files := List.length Fixtures.sample_files in
  let pkgs : gset string := ∅ in
  match self_test_scan
          (iter_python_files path_match listing DEFAULT_EXCLUDES []) pkgs with
  | Returned findings => Returned (self_test_verdict verbose n_files findings)
  | Raised => Raised
  end.

(** The state of the scanning loop of [main]. *)
Record ScanLoop : Type := mkScanLoop {
  all_findings : list Finding;
  parse_errors : Z;
  loop_log : list log_record
}.

Definition scan_step (e : Env) (pkgs : gset string) (a : Args)
    (st : ScanLoop) (f : SourceFile) : ScanLoop :=
  if env_is_own_script e (src_path f) then st
  else
    match scan_file f pkgs (arg_context_lines a) (arg_strict a) with
    | (l, Raised) =>
        mkScanLoop (all_findings st) (parse_errors st + 1)
          (loop_log st ++ l ++
           [LogRecord ERROR ("Parse error in " +:+ path_str (src_path f))])
    | (l, Returned fds) =>
        mkScanLoop (all_findings st ++ fds) (parse_errors st)
          (loop_log st ++ l)
    end.

Definition project_packages (e : Env) (a : Args) : gset string :=
  match arg_project_packages a with
  | Some (p :: ps) => list_to_set (p :: ps)
  | _ => env_default_pkgs e
  end.

(** [main] without argument parsing.  The model has no failing file
    system operation, so the outer [except] clause is never entered; an
    exception escaping the self test ends the run without an exit code
    of [main]'s own. *)
Definition main (e : Env) (a : Args) : outcome RunResult :=
  if arg_self_test a then
    match run_self_test (env_self_test_listing e) (arg_verbose a) with
    | Returned (l, rc) => Returned (mkRunResult rc l None)
    | Raised => Raised
    end
  else
    let project_pkgs := project_packages e a in
    let out_dir := arg_output_dir a +:+ "/" +:+ env_now_stamp e in
    let log0 :=
      [ LogRecord INFO ("Scanning repo: " +:+ arg_repo_root a);
        LogRecord INFO ("Output directory: " +:+ out_dir);
        LogRecord INFO
          ("Project packages: " +:+
           PyStr.join ", " (merge_sort String.le (elements project_pkgs))) ] in
    let files :=
      iter_python_files path_match (env_listing e)
        (list_to_set (arg_exclude_dirs a))
          (env_set_order e (arg_exclude_globs a)) in
    let st := fold_left (scan_step e project_pkgs a) files
                        (mkScanLoop [] 0 log0) in
    let reports :=
      write_reports json_dump csv_write (env_blame e) (env_now_iso e)
                    (all_findings st) (arg_with_git a) in
    let log1 :=
      loop_log st ++
      [LogRecord INFO
         ("Done. Findings: " +:+
          PyStr.str_of_Z (Z.of_nat (List.length (all_findings st))))] in
    if arg_strict a && negb (parse_errors st =? 0) then
      Returned
        (mkRunResult 1
           (log1 ++
            [LogRecord ERROR
               ("Strict mode: " +:+ PyStr.str_of_Z (parse_errors st) +:+
                " file(s) failed to parse.")])
           (Some (out_dir, reports)))
    else Returned (mkRunResult 0 log1 (Some (out_dir, reports))).
End Main.

(** ** The risk classifier, [monkey_patch_classify.py] *)

Module MonkeyPatchClassify.

Record Finding : Type := mkFinding {
  file : string;
  line : Z;
  category : string;
  is_test : bool;
  is_module_scope : bool;
  import_base : option string
}.

Definition classify (f : Finding) : string :=
  if (String.eqb (category f) "sys_modules_assignment"
      || String.eqb (category f) "import_time_side_effect")
     && negb (is_test f)
  then "HIGH"
  else if String.eqb (category f) "global_env_mutation"
          && negb (is_test f) && is_module_scope f
  then "HIGH"
  else if String.eqb (category f) "attribute_reassignment_on_import"
          && negb (is_test f)
  then "MODERATE"
  else if String.eqb (category f) "global_env_mutation" && is_test f
  then "MODERATE"
  else "SAFE".

End MonkeyPatchClassify.

(** ** Vocabulary of the statements *)

(** The child nodes of a node, in the order [generic_visit] walks them. *)
Definition children (n : node) : list node :=
  match n with
  | Module body => body
  | Name _ _ => []
  | Attribute _ value _ => [value]
  | Subscript _ value slice => [value; slice]
  | Call _ func args keywords => func :: args ++ keywords
  | Assign _ targets value => targets ++ [value]
  | AugAssign _ target value => [target; value]
  | AnnAssign _ target annotation value =>
      [target; annotation] ++ option_list value
  | Delete _ targets => targets
  | FunctionDef _ _ args body decorator_list returns type_params
  | AsyncFunctionDef _ _ args body decorator_list returns type_params =>
      args :: body ++ decorator_list ++ option_list returns ++ type_params
  | ClassDef _ _ bases keywords body decorator_list type_params =>
      bases ++ keywords ++ body ++ decorator_list ++ type_params
  | Import _ _ => []
  | ImportFrom _ _ _ => []
  | Other children => children
  end.

(** [scanned root n]: while [scanner.visit(root)] runs, the scanner's own
    [visit] is called on [n].  The scanner does not descend below a
    function or class definition. *)
Inductive scanned (root : node) : node → Prop :=
| scanned_root : scanned root root
| scanned_child p c :
    scanned root p → is_def p = false → c ∈ children p → scanned root c.

(** [inside root n]: [n] occurs in the tree [root]. *)
Inductive inside (root : node) : node → Prop :=
| inside_root : inside root root
| inside_child p c : inside root p → c ∈ children p → inside root c.

Definition is_import (n : node) : bool :=
  match n with
  | Import _ _ | ImportFrom _ _ _ => true
  | _ => false
  end.

(** The findings a call of [scan_file] hands back; none if it raises. *)
Definition returned_findings (r : list log_record * outcome (list Finding))
    : list Finding :=
  match r.2 with
  | Returned fs => fs
  | Raised => []
  end.

(** The findings of the tree pass on a source file, with the resolver built
    from the file's own tree. *)
Definition tree_pass (src : SourceFile) (project_pkgs : gset string)
    : list Finding :=
  match parsed src with
  | Some tree =>
      tree_findings (src_path src) (text_lines src)
        (resolver_visit tree resolver_init) project_pkgs tree
  | None => []
  end.

(** The tree of a source file that parses. *)
Definition tree_of (src : SourceFile) : node :=
  default (Module []) (parsed src).

(** What the statements compare of a finding. *)
Definition brief (f : Finding)
    : Z * string * option string * bool :=
  (line f, category f, import_base f, is_module_scope f).

(** The resolver [scan_file] builds for a tree. *)
Definition resolver_of (tree : node) : ImportResolver :=
  resolver_visit tree resolver_init.

(** The dedup key of a finding within one file. *)
Definition key (f : Finding) : Z * string := (line f, category f).

Definition with_key (k : Z * string) (fs : list Finding) : list Finding :=
  filter (λ f, key f = k) fs.

Section ScannerVocabulary.
Variable file_path : path.
Variable lines : list string.
Variable resolver : ImportResolver.
Variable project_pkgs : gset string.

(** The findings a visitor method adds at module scope. *)
Definition method_findings (n : node) : list Finding :=
  findings (visit_method file_path lines resolver project_pkgs n
                         (mkScanner [] [])).

(** [F] only appends findings, and which ones does not depend on the
    findings already there. *)
Definition appends (F : Scanner → Scanner) : Prop :=
  ∀ st fs, F (mkScanner st fs)
           = mkScanner st (fs ++ findings (F (mkScanner st []))).

(** The same for a block of the target cascade, which may fall through. *)
Definition block_appends (G : Scanner → option Scanner) : Prop :=
  ∀ st fs, G (mkScanner st fs)
           = (λ s', mkScanner st (fs ++ findings s')) <$> G (mkScanner st []).

(** What the walk below a node contributes. *)
Definition below (n : node) : list Finding :=
  if is_def n then []
  else children n ≫= tree_findings file_path lines resolver project_pkgs.

(** The findings one assignment target yields at module scope. *)
Definition target_findings (lineno : Z) (t : node) : list Finding :=
  findings (handle_target file_path lines resolver project_pkgs
                          lineno true None None (mkScanner [] []) t).

(** The findings one call yields at module scope. *)
Definition call_findings (lineno : Z) (func : node) (args : list node)
    : list Finding :=
  findings (call_checks file_path lines resolver project_pkgs
                        lineno func args (mkScanner [] [])).

(** The findings one target of a [del] statement yields at module scope. *)
Definition delete_findings (lineno : Z) (t : node) : list Finding :=
  findings (delete_target file_path lines lineno (mkScanner [] []) t).

(** The findings one decorator yields. *)
Definition decorator_findings (lineno : Z) (fn cl : option string)
    (dec : node) : list Finding :=
  findings (decorator_check file_path lines resolver lineno fn cl
                            (mkScanner [] []) dec).
End ScannerVocabulary.

(** The calls [visit_Call] reports as environment mutation:
    [os.environ.update(...)] and [os.environ.setdefault(...)]. *)
Definition is_environ_call (func : node) : bool :=
  match func with
  | Attribute _ (Attribute _ (Name _ id) vattr) fattr =>
      String.eqb id "os" && String.eqb vattr "environ"
      && (String.eqb fattr "update" || String.eqb fattr "setdefault")
  | _ => false
  end.

(** The categories the tree pass can report. *)
Definition scanner_category (cat : string) : Prop :=
  cat ∈ [ CATEGORY_SYS_MODULES; CATEGORY_BUILTINS; CATEGORY_GLOBAL_ENV;
          CATEGORY_SINGLETON_REBIND; CATEGORY_ATTRIBUTE_REASSIGNMENT;
          CATEGORY_IMPORT_TIME; CATEGORY_SETATTR;
          CATEGORY_TEST_PATCH_MISUSE ].

(** The files the loop of [main] hands to [scan_file], the findings it
    collects from them and the log records each file leaves behind. *)
Section RunVocabulary.
Variable path_match : list string → string → bool.

Definition files_to_scan (e : Env) (a : Args) : list SourceFile :=
  filter (λ f, env_is_own_script e (src_path f) = false)
    (iter_python_files path_match (env_listing e)
       (list_to_set (arg_exclude_dirs a))
       (env_set_order e (arg_exclude_globs a))).

Definition scan_of (e : Env) (a : Args) (f : SourceFile)
    : list log_record * outcome (list Finding) :=
  scan_file f (project_packages e a) (arg_context_lines a) (arg_strict a).

Definition run_findings (e : Env) (a : Args) : list Finding :=
  files_to_scan e a ≫= λ f, returned_findings (scan_of e a f).

Definition raised (r : list log_record * outcome (list Finding)) : bool :=
  match r.2 with Raised => true | Returned _ => false end.

(** The number of files on which [scan_file] raises. *)
Definition raised_count (e : Env) (a : Args) (files : list SourceFile) : Z :=
  Z.of_nat (List.length (filter (λ f, raised (scan_of e a f) = true) files)).

Definition file_log (e : Env) (a : Args) (f : SourceFile)
    : list log_record :=
  (scan_of e a f).1 ++
  (if raised (scan_of e a f)
   then [LogRecord ERROR ("Parse error in " +:+ path_str (src_path f))]
   else []).
End RunVocabulary.

(** ** Example files

    Each comes with the tree [ast.parse] builds for its text. *)

Module Examples.

Import Fixtures.

Definition in_repo (parts : list string) : path :=
  Path ("/repo/" +:+ PyStr.join "/" parts) (Some parts).

(** The packages the example repository owns. *)
Definition owned : gset string := {[ "pkg"; "tests" ]}.

Definition sys_modules_at (l : Z) : node :=
  Subscript l (Attribute l (Name l "sys") "modules") const.

(** A chained assignment to two entries of [sys.modules] on one line. *)
Definition chained_sys_modules : SourceFile :=
  mkSourceFile (in_repo ["pkg"; "compat.py"])
    [ "import sys";
      "sys.modules[" +:+ dq +:+ "a" +:+ dq +:+ "] = sys.modules[" +:+ dq
        +:+ "b" +:+ dq +:+ "] = None" ]
    (Some (Module
      [ Import 1 [Alias "sys" None];
        Assign 2 [sys_modules_at 2; sys_modules_at 2] const ])).

(** [sys.modules[names[0]] = mod] inside a function. *)
Definition nested_sys_modules : SourceFile :=
  mkSourceFile (in_repo ["pkg"; "install.py"])
    [ "import sys";
      "def install(names, mod):";
      "    sys.modules[names[0]] = mod" ]
    (Some (Module
      [ Import 1 [Alias "sys" None];
        FunctionDef 2 "install" (Other [Other []; Other []])
          [ Assign 3
              [Subscript 3 (Attribute 3 (Name 3 "sys") "modules")
                 (Subscript 3 (Name 3 "names") const)]
              (Name 3 "mod") ]
          [] None [] ])).

(** The same assignment at module scope. *)
Definition module_sys_modules : SourceFile :=
  mkSourceFile (in_repo ["pkg"; "install.py"])
    [ "import sys";
      "sys.modules[names[0]] = mod" ]
    (Some (Module
      [ Import 1 [Alias "sys" None];
        Assign 2
          [Subscript 2 (Attribute 2 (Name 2 "sys") "modules")
             (Subscript 2 (Name 2 "names") const)]
          (Name 2 "mod") ])).

(** [sys.modules["foo"] = mod] inside a function. *)
Definition nested_sys_modules_literal : SourceFile :=
  mkSourceFile (in_repo ["pkg"; "install.py"])
    [ "import sys";
      "def install(mod):";
      "    sys.modules[" +:+ dq +:+ "foo" +:+ dq +:+ "] = mod" ]
    (Some (Module
      [ Import 1 [Alias "sys" None];
        FunctionDef 2 "install" (Other [Other []])
          [ Assign 3 [sys_modules_at 3] (Name 3 "mod") ]
          [] None [] ])).

Definition environ_update_at (l : Z) : node :=
  expr_stmt
    (Call l (Attribute l (Attribute l (Name l "os") "environ") "update")
       [Other [const; const]] []).

(** [os.environ.update({"A": "b"})] inside a function. *)
Definition nested_environ_update : SourceFile :=
  mkSourceFile (in_repo ["pkg"; "setup_env.py"])
    [ "import os";
      "def configure():";
      "    os.environ.update({" +:+ dq +:+ "A" +:+ dq +:+ ": " +:+ dq
        +:+ "b" +:+ dq +:+ "})" ]
    (Some (Module
      [ Import 1 [Alias "os" None];
        FunctionDef 2 "configure" (Other [])
          [ environ_update_at 3 ] [] None [] ])).

(** The same call at module scope. *)
Definition module_environ_update : SourceFile :=
  mkSourceFile (in_repo ["pkg"; "setup_env.py"])
    [ "import os";
      "os.environ.update({" +:+ dq +:+ "A" +:+ dq +:+ ": " +:+ dq
        +:+ "b" +:+ dq +:+ "})" ]
    (Some (Module
      [ Import 1 [Alias "os" None]; environ_update_at 2 ])).

(** [import requests], a blank line, [requests.api = object()]. *)
Definition requests_api : SourceFile :=
  mkSourceFile (in_repo ["pkg"; "patches.py"])
    [ "import requests"; EmptyString; "requests.api = object()" ]
    (Some (Module
      [ Import 1 [Alias "requests" None];
        Assign 3 [Attribute 3 (Name 3 "requests") "api"]
          (Call 3 (Name 3 "object") [] []) ])).

(** Rebinding a name bound by [from somepkg import thing]. *)
Definition bare_rebinding : SourceFile :=
  mkSourceFile (in_repo ["pkg"; "rebind.py"])
    [ "from somepkg import thing"; "thing = None" ]
    (Some (Module
      [ ImportFrom 1 (Some "somepkg") [Alias "thing" None];
        Assign 2 [Name 2 "thing"] const ])).

(** [import a.b.c] followed by [a.attr = 1]. *)
Definition dotted_import : SourceFile :=
  mkSourceFile (in_repo ["pkg"; "dotted.py"])
    [ "import a.b.c"; "a.attr = 1" ]
    (Some (Module
      [ Import 1 [Alias "a.b.c" None];
        Assign 2 [Attribute 2 (Name 2 "a") "attr"] const ])).

(** [import a.b.a] followed by [a.attr = 1]: the last component of the
    dotted path is also its first. *)
Definition dotted_import_same : SourceFile :=
  mkSourceFile (in_repo ["pkg"; "dotted.py"])
    [ "import a.b.a"; "a.attr = 1" ]
    (Some (Module
      [ Import 1 [Alias "a.b.a" None];
        Assign 2 [Attribute 2 (Name 2 "a") "attr"] const ])).

(** A file the parser rejects. *)
Definition unparsable : SourceFile :=
  mkSourceFile (in_repo ["pkg"; "broken.py"]) [ "def broken(:" ] None.

(** A repository of two files, one of them unparsable, seen by two runs
    that differ in the order of set iteration and in the reading of the
    clock. *)
Definition two_files (order : list string → list string)
    (stamp iso : string) : Env :=
  {| env_listing := [unparsable; requests_api];
     env_set_order := order;
     env_is_own_script := λ _, false;
     env_default_pkgs := owned;
     env_now_stamp := stamp;
     env_now_iso := iso;
     env_blame := λ _ _, (None, None, None);
     env_self_test_listing := sample_files |}.

Definition morning : Env :=
  two_files remove_dups "2026-01-01_0900" "2026-01-01T09:00:01".
Definition evening : Env :=
  two_files (λ l, reverse (remove_dups l))
            "2026-01-01_2100" "2026-01-01T21:00:01".

Definition default_args : Args :=
  {| arg_repo_root := "/repo";
     arg_output_dir := "/repo/.repo_studios/monkey_patch";
     arg_project_packages := None;
     arg_exclude_dirs := [".git"; ".venv"];
     arg_exclude_globs := ["external/**"; "libraries/**"];
     arg_context_lines := 2;
     arg_with_git := false;
     arg_strict := false;
     arg_verbose := false;
     arg_self_test := false |}.

Definition strict_args : Args :=
  {| arg_repo_root := "/repo";
     arg_output_dir := "/repo/.repo_studios/monkey_patch";
     arg_project_packages := None;
     arg_exclude_dirs := [".git"; ".venv"];
     arg_exclude_globs := ["external/**"; "libraries/**"];
     arg_context_lines := 2;
     arg_with_git := false;
     arg_strict := true;
     arg_verbose := false;
     arg_self_test := false |}.

(** Stand-ins for [PurePath.match] and the two serializers where a
    statement about one run does not depend on them. *)
Definition no_match (rel : list string) (pat : string) : bool := false.
Definition no_json (j : json) : string := EmptyString.
Definition no_csv (rows : list (list cell)) : string := EmptyString.

End Examples.

(** ** Further vocabulary *)

(** The arguments of a run given another value for [--project-packages]. *)
Definition with_project_packages (a : Args) (pkgs : option (list string))
    : Args :=
  {| arg_repo_root := arg_repo_root a;
     arg_output_dir := arg_output_dir a;
     arg_project_packages := pkgs;
     arg_exclude_dirs := arg_exclude_dirs a;
     arg_exclude_globs := arg_exclude_globs a;
     arg_context_lines := arg_context_lines a;
     arg_with_git := arg_with_git a;
     arg_strict := arg_strict a;
     arg_verbose := arg_verbose a;
     arg_self_test := arg_self_test a |}.

(** What a run leaves behind besides its log: the exit code and the files
    written; nothing when an exception escapes. *)
Definition run_effect (o : outcome RunResult)
    : option (Z * option (string * Reports)) :=
  match o with
  | Returned r => Some (exit_code r, written r)
  | Raised => None
  end.

(** The import base the tree pass records with each category.  A
    [setattr] finding carries whatever the resolver knows about the
    target, possibly nothing. *)
Definition base_of_category (cat : string) (base : option string) : Prop :=
  (cat = CATEGORY_SYS_MODULES ∧ base = Some "sys")
  ∨ (cat = CATEGORY_BUILTINS ∧ base = Some "builtins")
  ∨ (cat = CATEGORY_GLOBAL_ENV ∧ base = Some "os")
  ∨ (cat = CATEGORY_TEST_PATCH_MISUSE ∧ base = Some "unittest")
  ∨ (cat = CATEGORY_SINGLETON_REBIND
     ∧ ∃ b, base = Some b ∧ b ∈ KNOWN_SINGLETON_BASES)
  ∨ ((cat = CATEGORY_ATTRIBUTE_REASSIGNMENT ∨ cat = CATEGORY_IMPORT_TIME)
     ∧ truthy_opt base = true)
  ∨ cat = CATEGORY_SETATTR.

(** The categories of the regex fallback. *)
Definition fallback_category (cat : string) : Prop :=
  cat ∈ [ CATEGORY_SYS_MODULES; CATEGORY_BUILTINS; CATEGORY_GLOBAL_ENV;
          CATEGORY_SETATTR ].

(** The line of code a finding quotes: [lines[lineno - 1].rstrip()] when
    the line number is in range, the empty string otherwise. *)
Definition code_line (lines : list string) (lineno : Z) : string :=
  if (1 <=? lineno) && (lineno <=? Z.of_nat (List.length lines))
  then PyStr.rstrip (PyStr.nth_line lines lineno) else EmptyString.

(** A finding built by [_add_finding] at module scope and not for a
    decorator, with a category and an import base that go together. *)
Definition plain_finding (file_path : path) (lines : list string)
    (lineno : Z) (f : Finding) : Prop :=
  ∃ cat base, f = make_finding file_path lines lineno cat base true None None
              ∧ base_of_category cat base.

(** The findings the regex fallback adds to those of the tree pass; a
    file that does not parse never reaches it. *)
Definition fallback_pass (src : SourceFile) (project_pkgs : gset string)
    (context_lines : Z) : list Finding :=
  match parsed src with
  | Some _ =>
      (λ h, fallback_finding (src_path src) (text_lines src) context_lines
                             h.1 h.2)
      <$> filter (λ h, h ∉ seen_keys (tree_pass src project_pkgs))
                 (regex_fallback (text_lines src))
  | None => []
  end.

(** [binds n a m]: the import statement [n] enters the alias [a] with the
    module path [m] into [alias_to_module]. *)
Definition binds (n : node) (a m : string) : Prop :=
  match n with
  | Import _ names =>
      ∃ al, al ∈ names
            ∧ a = PyStr.or_else (alias_asname al)
                    (PyStr.last_component (alias_name al))
            ∧ m = alias_name al
  | ImportFrom _ module names =>
      ∃ al, al ∈ names
            ∧ a = PyStr.or_else (alias_asname al) (alias_name al)
            ∧ m = (if PyStr.truthy (PyStr.or_else module EmptyString)
                   then PyStr.or_else module EmptyString +:+ "." +:+ alias_name al
                   else alias_name al)
  | _ => False
  end.

(** The names along an attribute chain, root first: [a.b.c] gives
    [a; b; c].  [None] when the chain is not rooted at a name. *)
Fixpoint chain_names (n : node) : option (list string) :=
  match n with
  | Name _ id => Some [id]
  | Attribute _ value attr => (λ ns, ns ++ [attr]) <$> chain_names value
  | _ => None
  end.

(** ** More of the risk classifier, [monkey_patch_classify.py] *)

Module RiskSummary.

(** *** [latest_scan_dir] *)

(** An entry of the directory [root], as [root.iterdir()] yields it: its
    name and whether it is a directory. *)
Record DirEntry : Type := mkDirEntry {
  entry_name : string;
  entry_is_dir : bool
}.

(** The condition of the list comprehension,
    [p.is_dir() and p.name[0].isdigit()].  Indexing an empty name raises;
    a directory listing holds no such entry. *)
Definition is_scan_dir (p : DirEntry) : outcome bool :=
  if entry_is_dir p then
    match entry_name p with
    | String c _ => Returned (PyStr.is_digit c)
    | EmptyString => Raised
    end
  else Returned false.

(** The list comprehension: the names of the entries that pass. *)
Fixpoint scan_dirs (entries : list DirEntry) : outcome (list string) :=
  match entries with
  | [] => Returned []
  | p :: rest =>
      match is_scan_dir p with
      | Raised => Raised
      | Returned b =>
          match scan_dirs rest with
          | Raised => Raised
          | Returned l => Returned (if b then entry_name p :: l else l)
          end
      end
  end.

(** [sorted(subdirs)[-1]]; paths with one parent compare by their names.
    With no candidate the function raises [FileNotFoundError]. *)
Definition latest_scan_dir (entries : list DirEntry) : outcome string :=
  match scan_dirs entries with
  | Returned (d :: ds) =>
      Returned (List.last (merge_sort String.le (d :: ds)) d)
  | Returned [] => Raised
  | Raised => Raised
  end.

(** *** [Finding.from_obj] and [load_findings]

    The dataclass does not check the types of its fields.  [from_obj]
    converts the line, the category and the two flags and passes [file]
    and [import_base] on as they come, so in the record it builds these
    two fields are JSON values.  The values are those of [json]; a report
    holds no floating-point number. *)

Record Loaded : Type := mkLoaded {
  loaded_file : json;
  loaded_line : Z;
  loaded_category : string;
  loaded_is_test : bool;
  loaded_is_module_scope : bool;
  loaded_import_base : json
}.

Section Conversions.
(** [int(s)] for a string, [None] when it raises, and [str(v)] for a value
    that is not a string are left to the interpreter. *)
Variable int_of_str : string → option Z.
Variable str_of_value : json → string.

(** [int(v)], [None] when it raises. *)
Definition py_int (v : json) : option Z :=
  match v with
  | JInt n => Some n
  | JBool b => Some (if b then 1 else 0)
  | JStr s => int_of_str s
  | JNull | JList _ | JDict _ => None
  end.

(** [str(v)] *)
Definition py_str (v : json) : string :=
  match v with
  | JStr s => s
  | _ => str_of_value v
  end.

(** [bool(v)] *)
Definition py_bool (v : json) : bool :=
  match v with
  | JNull => false
  | JBool b => b
  | JInt n => negb (n =? 0)
  | JStr s => PyStr.truthy s
  | JList l => match l with [] => false | _ => true end
  | JDict l => match l with [] => false | _ => true end
  end.

(** [o.get(key, default)] on an object read from JSON, given as its
    members in the order of the text; of two members with one name the
    later one counts. *)
Definition dict_get (o : list (string * json)) (key : string)
    (default : json) : json :=
  fold_left (λ acc kv, if String.eqb kv.1 key then kv.2 else acc) o default.

Definition from_obj (o : list (string * json)) : outcome Loaded :=
  match py_int (dict_get o "line" (JInt 0)) with
  | Some line =>
      Returned
        {| loaded_file := dict_get o "file" (JStr EmptyString);
           loaded_line := line;
           loaded_category := py_str (dict_get o "category" (JStr "unknown"));
           loaded_is_test := py_bool (dict_get o "is_test" (JBool false));
           loaded_is_module_scope :=
             py_bool (dict_get o "is_module_scope" (JBool false));
           loaded_import_base := dict_get o "import_base" JNull |}
  | None => Raised
  end.

(** [Finding.from_obj(x)] for an element of the report: a value that is
    not an object has no method [get]. *)
Definition from_value (x : json) : outcome Loaded :=
  match x with
  | JDict o => from_obj o
  | _ => Raised
  end.

(** [load_findings], given the elements of the JSON array read from
    [report.json]. *)
Fixpoint load_findings (data : list json) : outcome (list Loaded) :=
  match data with
  | [] => Returned []
  | x :: rest =>
      match from_value x with
      | Raised => Raised
      | Returned f =>
          match load_findings rest with
          | Raised => Raised
          | Returned fs => Returned (f :: fs)
          end
      end
  end.
End Conversions.

(** The loaded record as a [Finding] of the declared field types, when
    [file] is a string and [import_base] a string or null. *)
Definition as_finding (l : Loaded) : option MonkeyPatchClassify.Finding :=
  match loaded_file l, loaded_import_base l with
  | JStr f, JStr b =>
      Some (MonkeyPatchClassify.mkFinding f (loaded_line l)
              (loaded_category l) (loaded_is_test l)
              (loaded_is_module_scope l) (Some b))
  | JStr f, JNull =>
      Some (MonkeyPatchClassify.mkFinding f (loaded_line l)
              (loaded_category l) (loaded_is_test l)
              (loaded_is_module_scope l) None)
  | _, _ => None
  end.

(** *** [aggregate]

    A [Counter], like a dict filled while iterating, keeps its keys in
    the order of their first occurrence. *)
Fixpoint count_into (acc : list (string * Z)) (k : string)
    : list (string * Z) :=
  match acc with
  | [] => [(k, 1)]
  | (k', n) :: rest =>
      if String.eqb k' k then (k', n + 1) :: rest
      else (k', n) :: count_into rest k
  end.

Definition counter (keys : list string) : list (string * Z) :=
  fold_left count_into keys [].

(** [sorted(items, key=itemgetter(1), reverse=True)]: by descending count,
    items of equal count in their original order. *)
Fixpoint insert_by_count (x : string * Z) (l : list (string * Z))
    : list (string * Z) :=
  match l with
  | [] => [x]
  | y :: l' => if x.2 <? y.2 then y :: insert_by_count x l' else x :: l
  end.

(** [Counter.most_common()] *)
Definition most_common (items : list (string * Z)) : list (string * Z) :=
  foldr insert_by_count [] items.

(** The dict [aggregate] returns. *)
Record Aggregate : Type := mkAggregate {
  counts_by_risk : list (string * Z);
  top_files : list (string * Z);
  top_categories : list (string * Z)
}.

Definition aggregate (findings : list MonkeyPatchClassify.Finding)
    : Aggregate :=
  {| counts_by_risk := counter (MonkeyPatchClassify.classify <$> findings);
     top_files :=
       take 10 (most_common (counter (MonkeyPatchClassify.file <$> findings)));
     top_categories :=
       most_common (counter (MonkeyPatchClassify.category <$> findings)) |}.

(** *** [write_outputs]: the text of [RISK_SUMMARY.md] *)

(** [counts.get(level, 0)] *)
Fixpoint counts_get (counts : list (string * Z)) (level : string)
    (default : Z) : Z :=
  match counts with
  | [] => default
  | (k, n) :: rest =>
      if String.eqb k level then n else counts_get rest level default
  end.

Definition risk_summary_md (agg : Aggregate) : string :=
  let md :=
    [ "# Monkey-Patch Risk Summary"; EmptyString; "## Counts by Risk" ]
    ++ ((λ level, "- " +:+ level +:+ ": " +:+
                  PyStr.str_of_Z (counts_get (counts_by_risk agg) level 0))
        <$> [ "HIGH"; "MODERATE"; "SAFE" ])
    ++ [ EmptyString; "## Top Files" ]
    ++ (bullet <$> top_files agg)
    ++ [ EmptyString; "## Top Categories" ]
    ++ (bullet <$> top_categories agg) in
  PyStr.join PyStr.newline md +:+ PyStr.newline.

(** What the classifier reads of a finding the scanner wrote. *)
Definition loaded_of (f : Finding) : Loaded :=
  {| loaded_file := JStr (file f);
     loaded_line := line f;
     loaded_category := category f;
     loaded_is_test := is_test f;
     loaded_is_module_scope := is_module_scope f;
     loaded_import_base := json_opt (import_base f) |}.

Definition classifier_view (f : Finding) : MonkeyPatchClassify.Finding :=
  MonkeyPatchClassify.mkFinding (file f) (line f) (category f) (is_test f)
    (is_module_scope f) (import_base f).

End RiskSummary.

(** A directory whose name begins with a digit: a scan directory as
    [latest_scan_dir] sees it. *)
Definition is_candidate (p : RiskSummary.DirEntry) : bool :=
  RiskSummary.entry_is_dir p
  && match RiskSummary.entry_name p with
     | String c _ => PyStr.is_digit c
     | EmptyString => false
     end.

Definition candidates (entries : list RiskSummary.DirEntry) : list string :=
  RiskSummary.entry_name <$> filter (λ p, is_candidate p = true) entries.

(** ** [add_git_blame]: reading the answer of [git blame]

    The subprocess is outside the model.  [proc] is what
    [subprocess.run] hands back: the return code and the lines of the
    standard output ([stdout.splitlines()]), or nothing when the call
    itself raises (no [git], timeout). *)

Module GitBlame.

(** The class [[0-9a-f]]. *)
Definition is_hex (c : ascii) : bool :=
  let n := N_of_ascii c in
  PyStr.is_digit c || ((97 <=? n)%N && (n <=? 102)%N).

(** [k] characters of the class followed by a space, at the start. *)
Fixpoint hex_then_space (k : nat) (s : string) : bool :=
  match k, s with
  | O, String c _ => Ascii.eqb c " "
  | S k', String c s' => is_hex c && hex_then_space k' s'
  | _, EmptyString => false
  end.

(** [re.match(r"^[0-9a-f]{7,40} ", line)]: some number of repetitions
    between 7 and 40 fits. *)
Definition commit_line (line : string) : bool :=
  existsb (λ k, hex_then_space k line) (seq 7 34).

(** [line.split()[0]] for a line with a word in it: the characters from
    the first one that is not white space up to the next white space. *)
Fixpoint until_space (s : string) : string :=
  match s with
  | EmptyString => EmptyString
  | String c s' => if PyStr.is_space c then EmptyString
                   else String c (until_space s')
  end.

Definition first_word (line : string) : string :=
  until_space (PyStr.lstrip line).

(** [line[n:]] *)
Fixpoint drop_chars (n : nat) (s : string) : string :=
  match n, s with
  | S n', String _ s' => drop_chars n' s'
  | _, _ => s
  end.

Section Parse.
(** [int(s)] and [datetime.fromtimestamp(ts, tz=UTC).isoformat()], [None]
    when they raise. *)
Variable int_of_str : string → option Z.
Variable iso_of_timestamp : Z → option string.

Definition blame_triple : Type :=
  option string * option string * option string.

(** One iteration of the loop over the lines. *)
Definition blame_step (st : outcome blame_triple) (line : string)
    : outcome blame_triple :=
  match st with
  | Raised => Raised
  | Returned (author, commit, date) =>
      if PyStr.startswith line "author "
      then Returned (Some (PyStr.strip (drop_chars 7 line)), commit, date)
      else if commit_line line
      then Returned (author, Some (first_word line), date)
      else if PyStr.startswith line "author-time "
      then match int_of_str (PyStr.strip (drop_chars 12 line)) with
           | Some ts =>
               match iso_of_timestamp ts with
               | Some d => Returned (author, commit, Some d)
               | None => Raised
               end
           | None => Raised
           end
      else st
  end.

Definition parse_blame (lines : list string) : outcome blame_triple :=
  fold_left blame_step lines (Returned (None, None, None)).

Definition add_git_blame (proc : option (Z * list string)) : blame_triple :=
  match proc with
  | None => (None, None, None)
  | Some (returncode, lines) =>
      if negb (returncode =? 0) then (None, None, None)
      else match parse_blame lines with
           | Returned t => t
           | Raised => (None, None, None)
           end
  end.
End Parse.

(** A string of lower-case hexadecimal digits. *)
Fixpoint all_hex (s : string) : bool :=
  match s with
  | EmptyString => true
  | String c s' => is_hex c && all_hex s'
  end.

End GitBlame.

(** * Properties *)

(** ** Trees: induction and traversal *)

Lemma list_all_Forall (P : node → Prop) (l : list node) :
  list_all node P l → Forall P l.
Proof. induction 1; constructor; assumption. Qed.

Lemma option_all_Forall (P : node → Prop) (o : option node) :
  option_all node P o → Forall P (option_list o).
Proof. destruct 1; simpl; repeat constructor; assumption. Qed.

(** Induction on a tree through its list of children. *)
Lemma node_children_ind (P : node → Prop) :
  (∀ n, Forall P (children n) → P n) → ∀ n, P n.
Proof.
  intros step. induction n using node_ind; apply step; simpl;
    repeat match goal with
    | H : list_all _ _ _ |- _ => apply list_all_Forall in H
    | H : option_all _ _ _ |- _ => apply option_all_Forall in H
    end;
    repeat first [ apply Forall_app_2 | apply Forall_cons_2 | apply Forall_nil_2
                 | assumption ].
Qed.

Section Traversal.
Context {S : Type} (visit : node → S → S).

Lemma visit_list_app (l1 l2 : list node) (s : S) :
  visit_list visit (l1 ++ l2) s = visit_list visit l2 (visit_list visit l1 s).
Proof. unfold visit_list. apply fold_left_app. Qed.

Lemma visit_opt_list (o : option node) (s : S) :
  visit_opt visit o s = visit_list visit (option_list o) s.
Proof. destruct o; reflexivity. Qed.

(** The inherited [generic_visit] visits the children in order. *)
Lemma generic_visit_children (n : node) (s : S) :
  generic_visit visit n s = visit_list visit (children n) s.
Proof.
  destruct n; simpl; rewrite ?visit_opt_list, ?visit_list_app; reflexivity.
Qed.

(** A property of the state kept by every child is kept by the walk. *)
Lemma visit_list_preserves (I : S → Prop) (l : list node) :
  Forall (λ c, ∀ s, I s → I (visit c s)) l →
  ∀ s, I s → I (visit_list visit l s).
Proof.
  unfold visit_list. induction 1 as [|c l Hc _ IH]; simpl; auto.
Qed.
End Traversal.

(** ** The scope tracker leaves the stack as it found it *)

Lemma scope_visit_list_id (l : list node) :
  Forall (λ c, ∀ st, scope_visit c st = st) l →
  ∀ st, visit_list scope_visit l st = st.
Proof.
  unfold visit_list. induction 1 as [|c l Hc _ IH]; intros st; simpl.
  - reflexivity.
  - rewrite Hc. apply IH.
Qed.

Lemma scope_visit_unfold (n : node) (st : scope_stack) :
  scope_visit n st =
  match n with
  | FunctionDef _ name _ _ _ _ _ | AsyncFunctionDef _ name _ _ _ _ _ =>
      removelast (generic_visit scope_visit n (st ++ [("function", name)]))
  | ClassDef _ name _ _ _ _ _ =>
      removelast (generic_visit scope_visit n (st ++ [("class", name)]))
  | _ => generic_visit scope_visit n st
  end.
Proof. destruct n; reflexivity. Qed.

Lemma scope_visit_id (n : node) (st : scope_stack) : scope_visit n st = st.
Proof.
  revert st. induction n as [n IH] using node_children_ind. intros st.
  assert (Hgen : ∀ st', generic_visit scope_visit n st' = st').
  { intros st'. rewrite generic_visit_children.
    apply scope_visit_list_id, IH. }
  rewrite scope_visit_unfold.
  destruct n; rewrite Hgen; try reflexivity; apply removelast_last.
Qed.

Section ScannerSpec.
Variable file_path : path.
Variable lines : list string.
Variable resolver : ImportResolver.
Variable project_pkgs : gset string.

Local Abbreviation add_finding := (_add_finding file_path lines).
Local Abbreviation below_ := (below file_path lines resolver project_pkgs).
Local Abbreviation target_findings_ := (target_findings file_path lines resolver project_pkgs).
Local Abbreviation call_findings_ := (call_findings file_path lines resolver project_pkgs).
Local Abbreviation delete_findings_ := (delete_findings file_path lines).
Local Abbreviation decorator_findings_ := (decorator_findings file_path lines resolver).
Local Abbreviation mfindings := (method_findings file_path lines resolver project_pkgs).
Local Abbreviation handle := (handle_target file_path lines resolver project_pkgs).
Local Abbreviation method := (visit_method file_path lines resolver project_pkgs).
Local Abbreviation visit := (scanner_visit file_path lines resolver project_pkgs).
Local Abbreviation tfindings := (tree_findings file_path lines resolver project_pkgs).

Lemma appends_id : appends (λ s, s).
Proof. intros st fs. simpl. by rewrite app_nil_r. Qed.

Lemma appends_add lineno cat base ms fn cl :
  appends (add_finding lineno cat base ms fn cl).
Proof. intros st fs. reflexivity. Qed.

Lemma appends_comp (F G : Scanner → Scanner) :
  appends F → appends G → appends (λ s, G (F s)).
Proof.
  intros HF HG st fs. rewrite (HF st fs), HG.
  rewrite (HF st []), (HG st (_ ++ _)). simpl. by rewrite app_assoc.
Qed.

Lemma appends_if (b : bool) (F G : Scanner → Scanner) :
  appends F → appends G → appends (λ s, if b then F s else G s).
Proof. by destruct b. Qed.

Lemma appends_fold {A} (f : Scanner → A → Scanner) (l : list A) :
  (∀ x, appends (λ s, f s x)) → appends (λ s, fold_left f l s).
Proof.
  intros Hf. induction l as [|x l IH]; simpl.
  - apply appends_id.
  - apply (appends_comp (λ s, f s x) (λ s, fold_left f l s)); auto.
Qed.

(** A visitor method reads the stack only through [scope_current]. *)
Lemma appends_scope (F : bool → option string → option string
                         → Scanner → Scanner) :
  (∀ ms fn cl, appends (F ms fn cl)) →
  appends (λ s, let '(ms, fn, cl) := scope_current (scope s) in F ms fn cl s).
Proof.
  intros HF st fs. simpl. destruct (scope_current st) as [[ms fn] cl].
  apply HF.
Qed.

Lemma appends_block (G : Scanner → option Scanner) (F : Scanner → Scanner) :
  block_appends G → appends F →
  appends (λ s, match G s with Some s' => s' | None => F s end).
Proof.
  intros HG HF st fs. rewrite (HG st fs).
  destruct (G (mkScanner st [])) as [s'|]; simpl; [reflexivity | apply HF].
Qed.

Ltac block_tac :=
  intros st fs; simpl;
  repeat case_match; simplify_eq/=; rewrite ?app_nil_r, <- ?app_assoc;
  reflexivity.

Lemma block_sys_modules lineno ms fn cl t :
  block_appends (target_sys_modules file_path lines lineno ms fn cl t).
Proof. unfold target_sys_modules, add, _add_finding. block_tac. Qed.

Lemma block_builtins lineno ms fn cl t :
  block_appends (target_builtins file_path lines lineno ms fn cl t).
Proof. unfold target_builtins, add, _add_finding. block_tac. Qed.

Lemma block_os_environ lineno ms fn cl t :
  block_appends (target_os_environ file_path lines lineno ms fn cl t).
Proof. unfold target_os_environ, add, _add_finding. block_tac. Qed.

Lemma block_singleton lineno ms fn cl t :
  block_appends (target_singleton file_path lines lineno ms fn cl t).
Proof. unfold target_singleton, add, _add_finding. block_tac. Qed.

Lemma block_attribute lineno ms fn cl t :
  block_appends
    (target_attribute file_path lines resolver project_pkgs
                      lineno ms fn cl t).
Proof. unfold target_attribute, add, _add_finding. block_tac. Qed.

Lemma block_name lineno ms fn cl t :
  block_appends (target_name file_path lines resolver lineno ms fn cl t).
Proof. unfold target_name, add, _add_finding. block_tac. Qed.

Lemma appends_handle lineno ms fn cl t :
  appends (λ s, handle lineno ms fn cl s t).
Proof.
  unfold handle_target.
  repeat (apply appends_block;
          [first [ apply block_sys_modules | apply block_builtins
                 | apply block_os_environ | apply block_singleton
                 | apply block_attribute | apply block_name ] |]).
  apply appends_id.
Qed.

Lemma appends_handle_assignment n lineno :
  appends (_handle_assignment file_path lines resolver project_pkgs n lineno).
Proof.
  unfold _handle_assignment.
  apply (appends_scope (λ ms fn cl s,
           fold_left (handle lineno ms fn cl) (assignment_targets n) s)).
  intros ms fn cl. apply appends_fold. intros t. apply appends_handle.
Qed.

Ltac leaf_tac :=
  intros st fs; simpl;
  repeat case_match; simplify_eq/=; rewrite ?app_nil_r; reflexivity.

Lemma appends_call_setattr lineno func args ms fn cl :
  appends (call_setattr file_path lines resolver project_pkgs
                        lineno func args ms fn cl).
Proof. unfold call_setattr, _add_finding. leaf_tac. Qed.

Lemma appends_call_builtins_setattr lineno func ms fn cl :
  appends (call_builtins_setattr file_path lines lineno func ms fn cl).
Proof. unfold call_builtins_setattr, _add_finding. leaf_tac. Qed.

Lemma appends_call_patch lineno func ms fn cl :
  appends (call_patch file_path lines resolver lineno func ms fn cl).
Proof. unfold call_patch, _add_finding. leaf_tac. Qed.

Lemma appends_call_os_environ lineno func ms fn cl :
  appends (call_os_environ file_path lines lineno func ms fn cl).
Proof. unfold call_os_environ, _add_finding. leaf_tac. Qed.

Lemma appends_call_checks lineno func args :
  appends (call_checks file_path lines resolver project_pkgs lineno func args).
Proof.
  unfold call_checks.
  apply (appends_scope (λ ms fn cl s,
    call_os_environ file_path lines lineno func ms fn cl
      (call_patch file_path lines resolver lineno func ms fn cl
        (call_builtins_setattr file_path lines lineno func ms fn cl
          (call_setattr file_path lines resolver project_pkgs
                        lineno func args ms fn cl s))))).
  intros ms fn cl.
  apply (appends_comp
           (λ s, call_patch file_path lines resolver lineno func ms fn cl
              (call_builtins_setattr file_path lines lineno func ms fn cl
                (call_setattr file_path lines resolver project_pkgs
                              lineno func args ms fn cl s)))
           (call_os_environ file_path lines lineno func ms fn cl));
    [|apply appends_call_os_environ].
  apply (appends_comp
           (λ s, call_builtins_setattr file_path lines lineno func ms fn cl
                (call_setattr file_path lines resolver project_pkgs
                              lineno func args ms fn cl s))
           (call_patch file_path lines resolver lineno func ms fn cl));
    [|apply appends_call_patch].
  apply (appends_comp
           (call_setattr file_path lines resolver project_pkgs
                         lineno func args ms fn cl)
           (call_builtins_setattr file_path lines lineno func ms fn cl));
    [apply appends_call_setattr | apply appends_call_builtins_setattr].
Qed.

Lemma appends_delete_checks lineno targets :
  appends (delete_checks file_path lines lineno targets).
Proof.
  unfold delete_checks. apply appends_fold. intros t.
  unfold delete_target, _add_finding. leaf_tac.
Qed.

Lemma appends_decorator_checks lineno fn cl decs :
  appends (decorator_checks file_path lines resolver lineno fn cl decs).
Proof.
  intros st fs. unfold decorator_checks. simpl.
  destruct (scope_current st).1.1.
  - apply (appends_fold (decorator_check file_path lines resolver lineno fn cl)).
    intros d. unfold decorator_check, _add_finding. clear. leaf_tac.
  - simpl. by rewrite app_nil_r.
Qed.

Lemma appends_method (n : node) : appends (method n).
Proof.
  destruct n; simpl;
    first [ apply appends_id | apply appends_handle_assignment
          | apply appends_call_checks | apply appends_delete_checks
          | apply appends_decorator_checks ].
Qed.

Lemma method_scope (n : node) (s : Scanner) :
  scope (method n s) = scope s.
Proof. destruct s as [st fs]. by rewrite appends_method. Qed.

Lemma method_spec (n : node) (fs : list Finding) :
  method n (mkScanner [] fs) = mkScanner [] (fs ++ mfindings n).
Proof. apply appends_method. Qed.

Lemma scanner_visit_unfold (n : node) (s : Scanner) :
  visit n s = scanner_generic_visit visit n (method n s).
Proof. destruct n; reflexivity. Qed.

(** The findings of the walk over a list of children, in order. *)
Lemma scanner_visit_list (l : list node) :
  Forall (λ c, ∀ fs, visit c (mkScanner [] fs)
                     = mkScanner [] (fs ++ tfindings c)) l →
  ∀ fs, visit_list visit l (mkScanner [] fs)
        = mkScanner [] (fs ++ (l ≫= tfindings)).
Proof.
  unfold visit_list. induction 1 as [|c l Hc _ IH]; intros fs; simpl.
  - by rewrite app_nil_r.
  - rewrite Hc, IH. by rewrite <- app_assoc.
Qed.

Lemma scanner_visit_step (n : node) :
  Forall (λ c, ∀ fs, visit c (mkScanner [] fs)
                     = mkScanner [] (fs ++ tfindings c)) (children n) →
  ∀ fs, visit n (mkScanner [] fs)
        = mkScanner [] (fs ++ mfindings n ++ below_ n).
Proof.
  intros IH fs. rewrite scanner_visit_unfold, method_spec.
  unfold scanner_generic_visit, below. destruct (is_def n); simpl.
  - by rewrite scope_visit_id, app_nil_r.
  - rewrite generic_visit_children, scanner_visit_list by exact IH.
    by rewrite <- app_assoc.
Qed.

(** The scanner runs with an empty stack and only appends findings. *)
Lemma scanner_visit_spec (n : node) (fs : list Finding) :
  visit n (mkScanner [] fs) = mkScanner [] (fs ++ tfindings n).
Proof.
  revert fs. induction n as [n IH] using node_children_ind. intros fs.
  rewrite scanner_visit_step by exact IH.
  unfold tree_findings. rewrite (scanner_visit_step n IH []). reflexivity.
Qed.

(** The tree pass, as a function of the tree. *)
Lemma tree_findings_unfold (n : node) :
  tfindings n = mfindings n ++ below_ n.
Proof.
  unfold tree_findings at 1. rewrite scanner_visit_step; [reflexivity|].
  apply Forall_forall. intros c _ fs. apply scanner_visit_spec.
Qed.

Lemma tree_findings_scanned (root n : node) :
  scanned root n → ∀ f, f ∈ tfindings n → f ∈ tfindings root.
Proof.
  induction 1 as [|p c Hp IH Hdef Hc]; intros f Hf; [done|].
  apply IH. rewrite tree_findings_unfold. apply elem_of_app. right.
  unfold below. rewrite Hdef. apply list_elem_of_bind. eauto.
Qed.

Lemma scanned_trans (root p n : node) :
  scanned root p → scanned p n → scanned root n.
Proof. intros Hp. induction 1; [done|]. eapply scanned_child; eauto. Qed.

(** A finding of the tree pass comes from the method of a scanned node. *)
Lemma elem_of_tree_findings (root : node) (f : Finding) :
  f ∈ tfindings root ↔ ∃ n, scanned root n ∧ f ∈ mfindings n.
Proof.
  split.
  - revert f. induction root as [root IH] using node_children_ind.
    intros f. rewrite tree_findings_unfold, elem_of_app.
    intros [Hf | Hf].
    + exists root. split; [constructor | done].
    + unfold below in Hf. destruct (is_def root) eqn:Hdef.
      { by apply elem_of_nil in Hf. }
      apply list_elem_of_bind in Hf as (c & Hf & Hc).
      rewrite Forall_forall in IH.
      destruct (IH c Hc f Hf) as (n & Hn & Hfn).
      exists n. split; [|done].
      eapply scanned_trans; [|exact Hn].
      eapply scanned_child; [constructor | done | done].
  - intros (n & Hn & Hf). eapply tree_findings_scanned; [exact Hn|].
    rewrite tree_findings_unfold. apply elem_of_app. by left.
Qed.
Lemma fold_findings {A} (f : Scanner → A → Scanner) (l : list A) :
  (∀ x, appends (λ s, f s x)) →
  ∀ st fs, fold_left f l (mkScanner st fs)
           = mkScanner st (fs ++ (l ≫= λ x, findings (f (mkScanner st []) x))).
Proof.
  intros Hf. induction l as [|x l IH]; intros st fs; simpl.
  - by rewrite app_nil_r.
  - rewrite (Hf x st fs), IH. by rewrite <- app_assoc.
Qed.

Lemma method_findings_assignment (n : node) (lineno : Z) :
  findings (_handle_assignment file_path lines resolver project_pkgs n lineno
                               (mkScanner [] []))
  = assignment_targets n ≫= target_findings_ lineno.
Proof.
  unfold _handle_assignment. simpl.
  rewrite fold_findings by (intros t; apply appends_handle). reflexivity.
Qed.

(** The findings of each visitor method, at module scope. *)
Lemma method_findings_cases (n : node) :
  mfindings n =
  match n with
  | Assign lineno _ _ | AnnAssign lineno _ _ _ | AugAssign lineno _ _ =>
      assignment_targets n ≫= target_findings_ lineno
  | Call lineno func args _ => call_findings_ lineno func args
  | Delete lineno targets => targets ≫= delete_findings_ lineno
  | FunctionDef lineno name _ _ decorator_list _ _ =>
      decorator_list ≫= decorator_findings_ lineno (Some name) None
  | ClassDef lineno name _ _ _ decorator_list _ =>
      decorator_list ≫= decorator_findings_ lineno None (Some name)
  | _ => []
  end.
Proof.
  unfold method_findings.
  destruct n; try reflexivity; unfold visit_method.
  - apply method_findings_assignment.
  - apply method_findings_assignment.
  - apply method_findings_assignment.
  - unfold delete_checks. rewrite fold_findings; [reflexivity|].
    intros t. unfold delete_target, _add_finding. clear.
    intros st fs; simpl.
    repeat case_match; simplify_eq/=; rewrite ?app_nil_r; reflexivity.
  - unfold decorator_checks. simpl. rewrite fold_findings; [reflexivity|].
    intros d. unfold decorator_check, _add_finding. clear.
    intros st fs; simpl.
    repeat case_match; simplify_eq/=; rewrite ?app_nil_r; reflexivity.
  - unfold decorator_checks. simpl. rewrite fold_findings; [reflexivity|].
    intros d. unfold decorator_check, _add_finding. clear.
    intros st fs; simpl.
    repeat case_match; simplify_eq/=; rewrite ?app_nil_r; reflexivity.
Qed.

End ScannerSpec.

(** ** The findings of each visitor method, case by case *)

Ltac cat_tac :=
  unfold scanner_category;
  repeat first [ apply list_elem_of_here | apply list_elem_of_further ].

Section Leaves.
Variable file_path : path.
Variable lines : list string.
Variable resolver : ImportResolver.
Variable project_pkgs : gset string.

Local Abbreviation mk := (make_finding file_path lines).
Local Abbreviation target_findings_ :=
  (target_findings file_path lines resolver project_pkgs).
Local Abbreviation call_findings_ :=
  (call_findings file_path lines resolver project_pkgs).
Local Abbreviation delete_findings_ := (delete_findings file_path lines).
Local Abbreviation decorator_findings_ :=
  (decorator_findings file_path lines resolver).
Local Abbreviation mfindings :=
  (method_findings file_path lines resolver project_pkgs).
Local Abbreviation tfindings :=
  (tree_findings file_path lines resolver project_pkgs).

(** What one assignment target yields: the blocks of the cascade, in the
    order the code tries them. *)
Lemma target_findings_cases (lineno : Z) (t : node) :
  (_is_sys_modules t = true ∧
   target_findings_ lineno t
   = [mk lineno CATEGORY_SYS_MODULES (Some "sys") true None None])
  ∨ ((∃ l l' a, t = Attribute l (Name l' "builtins") a) ∧
     target_findings_ lineno t
     = [mk lineno CATEGORY_BUILTINS (Some "builtins") true None None])
  ∨ (_is_os_environ t = true ∧
     target_findings_ lineno t
     = [mk lineno CATEGORY_GLOBAL_ENV (Some "os") true None None])
  ∨ (∃ base, base ∈ KNOWN_SINGLETON_BASES ∧
       target_findings_ lineno t
       = [mk lineno CATEGORY_SINGLETON_REBIND (Some base) true None None])
  ∨ (∃ base_alias base,
       target_base_alias t = Some base_alias ∧
       (is_alias_external base_alias resolver project_pkgs).2 = Some base ∧
       target_findings_ lineno t
       = mk lineno CATEGORY_ATTRIBUTE_REASSIGNMENT (Some base) true None None
         :: (if _near_import lineno (import_lines resolver)
             then [mk lineno CATEGORY_IMPORT_TIME (Some base) true None None]
             else []))
  ∨ (∃ l id mod_ base,
       t = Name l id ∧ alias_to_module resolver !! id = Some mod_ ∧
       base_module_name (Some mod_) = Some base ∧
       target_findings_ lineno t
       = [mk lineno CATEGORY_ATTRIBUTE_REASSIGNMENT (Some base) true None None])
  ∨ target_findings_ lineno t = [].
Proof.
  unfold target_findings, handle_target.
  destruct (target_sys_modules _ _ _ _ _ _ t _) as [s|] eqn:H1.
  { left. revert H1. unfold target_sys_modules, add, _add_finding.
    repeat case_match; intros; simplify_eq/=; done. }
  clear H1.
  destruct (target_builtins _ _ _ _ _ _ t _) as [s|] eqn:H2.
  { right; left. revert H2. unfold target_builtins, add, _add_finding.
    repeat case_match; intros; simplify_eq/=.
    match goal with H : String.eqb _ _ = true |- _ =>
      apply String.eqb_eq in H; subst end.
    split; [eauto | done]. }
  clear H2.
  destruct (target_os_environ _ _ _ _ _ _ t _) as [s|] eqn:H3.
  { do 2 right; left. revert H3. unfold target_os_environ, add, _add_finding.
    repeat case_match; intros; simplify_eq/=; done. }
  clear H3.
  destruct (target_singleton _ _ _ _ _ _ t _) as [s|] eqn:H4.
  { do 3 right; left. revert H4. unfold target_singleton, add, _add_finding.
    repeat case_match; intros; simplify_eq/=.
    match goal with H : _ && _ = true |- _ =>
      apply andb_prop in H as [?%bool_decide_eq_true _] end.
    eauto. }
  clear H4.
  destruct (target_attribute _ _ _ _ _ _ _ _ t _) as [s|] eqn:H5.
  { do 4 right; left. revert H5. unfold target_attribute, add, _add_finding.
    destruct (target_base_alias t) as [ba|] eqn:Hba; [|by destruct t].
    destruct (is_alias_external ba resolver project_pkgs) as [ext base] eqn:He.
    destruct t; try done. destruct (PyStr.truthy ba); [|done].
    destruct base as [base|]; [|done]. simpl.
    destruct (PyStr.truthy base); [|done].
    intros [= <-]. exists ba, base. rewrite He. simpl.
    split; [done|]. split; [done|].
    by destruct (_near_import lineno (import_lines resolver)). }
  clear H5.
  destruct (target_name _ _ _ _ _ _ _ t _) as [s|] eqn:H6.
  { do 5 right; left. revert H6. unfold target_name, add, _add_finding.
    destruct t; try done.
    destruct (alias_to_module resolver !! id) as [m|] eqn:Hm; [|done].
    destruct (base_module_name (Some m)) as [base|] eqn:Hb; [|done]. simpl.
    destruct (PyStr.truthy base); [|done].
    intros [= <-]. eexists _, _, m, base. done. }
  do 6 right. done.
Qed.

(** The calls: up to four findings, one per check of [visit_Call]. *)
Lemma call_findings_split (lineno : Z) (func : node) (args : list node) :
  call_findings_ lineno func args
  = findings (call_setattr file_path lines resolver project_pkgs lineno func
                args true None None (mkScanner [] []))
    ++ findings (call_builtins_setattr file_path lines lineno func
                   true None None (mkScanner [] []))
    ++ findings (call_patch file_path lines resolver lineno func
                   true None None (mkScanner [] []))
    ++ findings (call_os_environ file_path lines lineno func
                   true None None (mkScanner [] [])).
Proof.
  unfold call_findings, call_checks. simpl.
  rewrite (appends_call_setattr file_path lines resolver project_pkgs). simpl.
  rewrite (appends_call_builtins_setattr file_path lines).
  rewrite (appends_call_patch file_path lines resolver).
  rewrite (appends_call_os_environ file_path lines). simpl.
  by rewrite <- !app_assoc.
Qed.

Lemma call_os_environ_findings (lineno : Z) (func : node) :
  findings (call_os_environ file_path lines lineno func true None None
                            (mkScanner [] []))
  = if is_environ_call func
    then [mk lineno CATEGORY_GLOBAL_ENV (Some "os") true None None] else [].
Proof.
  unfold call_os_environ, is_environ_call, _add_finding.
  repeat case_match; simplify_eq/=; reflexivity.
Qed.

Lemma call_patch_findings (lineno : Z) (func : node) :
  findings (call_patch file_path lines resolver lineno func true None None
                       (mkScanner [] []))
  = if _is_patch_call func resolver
    then [mk lineno CATEGORY_TEST_PATCH_MISUSE (Some "unittest")
             true None None]
    else [].
Proof. unfold call_patch, _add_finding. simpl. by case_match. Qed.

Lemma call_findings_shape (lineno : Z) (func : node) (args : list node)
    (f : Finding) :
  f ∈ call_findings_ lineno func args →
  ∃ cat base, f = mk lineno cat base true None None ∧
    (cat = CATEGORY_SETATTR ∨ cat = CATEGORY_TEST_PATCH_MISUSE
     ∨ cat = CATEGORY_GLOBAL_ENV).
Proof.
  rewrite call_findings_split, call_patch_findings, call_os_environ_findings.
  rewrite !elem_of_app. intros [Hf | [Hf | [Hf | Hf]]].
  - revert Hf. unfold call_setattr, _add_finding.
    repeat case_match; simpl; intros Hf;
      try (by apply elem_of_nil in Hf);
      apply list_elem_of_singleton in Hf as ->; eauto.
  - revert Hf. unfold call_builtins_setattr, _add_finding.
    repeat case_match; simpl; intros Hf;
      try (by apply elem_of_nil in Hf);
      apply list_elem_of_singleton in Hf as ->; eauto.
  - destruct (_is_patch_call func resolver); [|by apply elem_of_nil in Hf].
    apply list_elem_of_singleton in Hf as ->. eauto 6.
  - destruct (is_environ_call func); [|by apply elem_of_nil in Hf].
    apply list_elem_of_singleton in Hf as ->. eauto 6.
Qed.

Lemma delete_findings_cases (lineno : Z) (t : node) :
  delete_findings_ lineno t
  = if _is_sys_modules t
    then [mk lineno CATEGORY_SYS_MODULES (Some "sys") true None None] else [].
Proof.
  unfold delete_findings, delete_target.
  destruct t; try reflexivity. by destruct (_is_sys_modules _).
Qed.

Lemma decorator_findings_cases (lineno : Z) (fn cl : option string)
    (dec : node) :
  decorator_findings_ lineno fn cl dec
  = if _is_patch_decorator dec resolver
    then [mk (lineno_of dec) CATEGORY_TEST_PATCH_MISUSE (Some "unittest")
             true fn cl]
    else [].
Proof.
  unfold decorator_findings, decorator_check, _add_finding.
  destruct (_is_patch_decorator dec resolver) eqn:Hd; [|reflexivity].
  by destruct dec.
Qed.

Lemma target_findings_shape (lineno : Z) (t : node) (f : Finding) :
  f ∈ target_findings_ lineno t →
  ∃ cat base, f = mk lineno cat base true None None ∧ scanner_category cat.
Proof.
  destruct (target_findings_cases lineno t)
    as [[_ ->]|[[_ ->]|[[_ ->]|[(b & _ & ->)|[(ba & b & _ & _ & ->)
       |[(l & id & m & b & _ & _ & _ & ->)| ->]]]]]];
    try destruct (_near_import lineno (import_lines resolver));
    intros Hf; set_unfold in Hf; destruct_or?; simplify_eq;
    try done; eexists _, _; (split; [reflexivity|]); cat_tac.
Qed.

Lemma method_findings_shape (n : node) (f : Finding) :
  f ∈ mfindings n →
  ∃ l cat base fn cl, f = mk l cat base true fn cl ∧ scanner_category cat.
Proof.
  rewrite method_findings_cases.
  assert (Htargets : ∀ l ts, f ∈ ts ≫= target_findings_ l →
    ∃ l cat base fn cl, f = mk l cat base true fn cl ∧ scanner_category cat).
  { intros l ts (t & Hf & _)%list_elem_of_bind.
    apply target_findings_shape in Hf as (cat & base & -> & Hc). eauto 8. }
  assert (Hdecs : ∀ l fn cl ds, f ∈ ds ≫= decorator_findings_ l fn cl →
    ∃ l cat base fn cl, f = mk l cat base true fn cl ∧ scanner_category cat).
  { intros l fn cl ds (d & Hf & _)%list_elem_of_bind.
    rewrite decorator_findings_cases in Hf.
    destruct (_is_patch_decorator d resolver); [|by apply elem_of_nil in Hf].
    apply list_elem_of_singleton in Hf as ->.
    eexists _, _, _, _, _. split; [reflexivity|].
    cat_tac. }
  destruct n; try (by intros ?%elem_of_nil); eauto.
  - intros (cat & base & -> & Hc)%call_findings_shape.
    eexists _, _, _, _, _. split; [reflexivity|].
    destruct Hc as [-> | [-> | ->]]; cat_tac.
  - intros (t & Hf & _)%list_elem_of_bind.
    rewrite delete_findings_cases in Hf.
    destruct (_is_sys_modules t); [|by apply elem_of_nil in Hf].
    apply list_elem_of_singleton in Hf as ->.
    eexists _, _, _, _, _. split; [reflexivity|].
    cat_tac.
Qed.

(** Every finding of the tree pass is tagged as module scope. *)
Lemma tree_findings_module_scope (root : node) :
  Forall (λ f, is_module_scope f = true) (tfindings root).
Proof.
  apply Forall_forall. intros f (n & _ & Hf)%elem_of_tree_findings.
  by apply method_findings_shape in Hf as (l & cat & base & fn & cl & -> & _).
Qed.
End Leaves.

(** ** The regex fallback only appends findings for keys not seen *)

Lemma fallback_fold (p : path) (tl : list string) (ctx : Z)
    (seen : gset (Z * string)) (hits : list (Z * string))
    (fs : list Finding) :
  fold_left (add_fallback p tl ctx seen) hits fs
  = fs ++ ((λ h, fallback_finding p tl ctx h.1 h.2)
             <$> filter (λ h, h ∉ seen) hits).
Proof.
  revert fs. induction hits as [|[l c] hits IH]; intros fs; simpl.
  - by rewrite app_nil_r.
  - rewrite IH, filter_cons. unfold add_fallback.
    destruct (decide ((l, c) ∉ seen)) as [Hn|Hn].
    + rewrite bool_decide_eq_false_2 by done. simpl.
      by rewrite <- app_assoc.
    + rewrite bool_decide_eq_true_2 by (by apply dec_stable). done.
Qed.

(** ** Properties of [scan_file] *)

(** C1.  Every Finding produced by scanning a file has
    [is_module_scope = True]: the tree pass hands function and class
    definitions to the scope tracker and never runs its own visitor
    methods below them, so they only run with an empty scope stack; the
    decorator findings set the flag explicitly; the regex fallback sets it
    unconditionally. *)
Theorem scan_file_findings_module_scope (src : SourceFile)
    (project_pkgs : gset string) (context_lines : Z) (strict : bool) :
  Forall (λ f, is_module_scope f = true)
         (returned_findings
            (scan_file src project_pkgs context_lines strict)).
Proof.
  unfold scan_file, returned_findings.
  destruct (parsed src) as [tree|]; [|destruct strict; simpl; constructor].
  destruct strict; simpl.
  - apply tree_findings_module_scope.
  - rewrite fallback_fold. apply Forall_app. split.
    + apply tree_findings_module_scope.
    + apply Forall_fmap, Forall_forall. intros h _. reflexivity.
Qed.

(** The tree pass and the output of a non-strict scan of a file that
    parses. *)
Lemma scan_file_parsed (src : SourceFile) (project_pkgs : gset string)
    (context_lines : Z) (tree : node) :
  parsed src = Some tree →
  let tf := tree_findings (src_path src) (text_lines src)
              (resolver_visit tree resolver_init) project_pkgs tree in
  scan_file src project_pkgs context_lines false
  = ([], Returned
           (tf ++ ((λ h, fallback_finding (src_path src) (text_lines src)
                           context_lines h.1 h.2)
                   <$> filter (λ h, h ∉ seen_keys tf)
                         (regex_fallback (text_lines src))))).
Proof.
  intros Hp. unfold scan_file. rewrite Hp. simpl. by rewrite fallback_fold.
Qed.

Lemma filter_none {A} (P : A → Prop) `{!∀ x, Decision (P x)} (l : list A) :
  Forall (λ x, ¬ P x) l → filter P l = [].
Proof.
  induction 1 as [|x l Hx _ IH]; [done|]. by rewrite filter_cons_False.
Qed.

Lemma with_key_app (k : Z * string) (l1 l2 : list Finding) :
  with_key k (l1 ++ l2) = with_key k l1 ++ with_key k l2.
Proof. apply filter_app. Qed.

(** C6, as the code has it.  When the tree pass has a finding at a key
    [(line, category)], the regex hit at that key is discarded: the
    findings of the output with that key are exactly those of the tree
    pass, in particular exactly one when the tree pass reported the key
    once. *)
Theorem regex_hit_discarded_when_tree_finding (src : SourceFile)
    (project_pkgs : gset string) (context_lines : Z) (tree : node) :
  parsed src = Some tree →
  let tf := tree_findings (src_path src) (text_lines src)
              (resolver_visit tree resolver_init) project_pkgs tree in
  ∃ out,
    scan_file src project_pkgs context_lines false = ([], Returned out) ∧
    (∀ k, k ∈ seen_keys tf → with_key k out = with_key k tf) ∧
    (∀ k f, with_key k tf = [f] → with_key k out = [f]).
Proof.
  intros Hp tf. eexists. split; [by apply scan_file_parsed|].
  fold tf.
  assert (Hseen : ∀ k, k ∈ seen_keys tf →
    with_key k (tf ++ ((λ h, fallback_finding (src_path src) (text_lines src)
                               context_lines h.1 h.2)
                       <$> filter (λ h, h ∉ seen_keys tf)
                             (regex_fallback (text_lines src))))
    = with_key k tf).
  { intros k Hk. rewrite with_key_app.
    rewrite <- (app_nil_r (with_key k tf)) at 2. f_equal.
    unfold with_key. apply filter_none. rewrite Forall_forall.
    intros f (h & -> & Hh)%list_elem_of_fmap Hkey.
    apply list_elem_of_filter in Hh as [Hh _]. apply Hh.
    destruct h as [l c]. unfold key in Hkey. simpl in Hkey. by subst k. }
  split; [exact Hseen|].
  intros k f Hf. rewrite Hseen; [done|].
  assert (Hin : f ∈ with_key k tf) by (rewrite Hf; apply list_elem_of_here).
  apply list_elem_of_filter in Hin as [<- Hin].
  unfold seen_keys. apply elem_of_list_to_set, list_elem_of_fmap.
  exists f. done.
Qed.

(** ** The scanning loop of [main] *)

Section Run.
Variable path_match : list string → string → bool.
Variable json_dump : json → string.
Variable csv_write : list (list cell) → string.

Local Abbreviation main_ := (main path_match json_dump csv_write).
Local Abbreviation files_ := (files_to_scan path_match).
Local Abbreviation findings_ := (run_findings path_match).

Lemma raised_iff (e : Env) (a : Args) (f : SourceFile) :
  raised (scan_of e a f) = true ↔ arg_strict a = true ∧ parsed f = None.
Proof.
  unfold raised, scan_of, scan_file.
  destruct (parsed f); destruct (arg_strict a); simpl;
    (split; [try done | intros [? ?]; done]).
Qed.

Lemma scan_loop_spec (e : Env) (a : Args) (files : list SourceFile)
    (st : ScanLoop) :
  let files' := filter (λ f, env_is_own_script e (src_path f) = false) files in
  fold_left (scan_step e (project_packages e a) a) files st
  = mkScanLoop
      (all_findings st ++ (files' ≫= λ f, returned_findings (scan_of e a f)))
      (parse_errors st + raised_count e a files')
      (loop_log st ++ (files' ≫= file_log e a)).
Proof.
  revert st. induction files as [|f files IH]; intros st; simpl.
  - destruct st. unfold raised_count. simpl.
    by rewrite !app_nil_r, Z.add_0_r.
  - rewrite IH. clear IH. unfold scan_step.
    destruct (env_is_own_script e (src_path f)) eqn:Hown.
    { rewrite filter_cons_False by (simpl; congruence). done. }
    rewrite filter_cons_True by done.
    unfold raised_count. rewrite !bind_cons.
    fold (scan_of e a f).
    destruct (scan_of e a f) as [l [fds|]] eqn:Hscan; simpl.
    + rewrite filter_cons_False by (unfold raised; rewrite Hscan; done).
      unfold file_log, returned_findings, raised. rewrite Hscan. simpl.
      by rewrite app_nil_r, <- !app_assoc.
    + rewrite filter_cons_True by (unfold raised; rewrite Hscan; done).
      unfold file_log, returned_findings, raised. rewrite Hscan. simpl.
      rewrite <- !app_assoc. f_equal. lia.
Qed.

(** What a scanning run returns. *)
Lemma main_spec (e : Env) (a : Args) :
  arg_self_test a = false →
  ∃ log,
    main_ e a
    = Returned
        (mkRunResult
           (if arg_strict a && negb (raised_count e a (files_ e a) =? 0)
            then 1 else 0)
           log
           (Some (arg_output_dir a +:+ "/" +:+ env_now_stamp e,
                  write_reports json_dump csv_write (env_blame e)
                    (env_now_iso e) (findings_ e a) (arg_with_git a))))
    ∧ ∀ r, r ∈ files_ e a ≫= file_log e a → r ∈ log.
Proof.
  intros Hst. unfold main. rewrite Hst.
  rewrite scan_loop_spec. simpl. rewrite Z.add_0_l.
  fold (files_to_scan path_match e a). fold (run_findings path_match e a).
  destruct (arg_strict a && negb (raised_count e a (files_ e a) =? 0));
    eexists; (split; [reflexivity|]);
    intros r Hr; repeat first [rewrite elem_of_cons | rewrite elem_of_app];
    tauto.
Qed.
End Run.

Section RunProperties.
Variable path_match : list string → string → bool.
Variable json_dump : json → string.
Variable csv_write : list (list cell) → string.

Local Abbreviation main_ := (main path_match json_dump csv_write).
Local Abbreviation files_ := (files_to_scan path_match).
Local Abbreviation findings_ := (run_findings path_match).

Lemma emitted_elem (verbose : bool) (log : list log_record) (r : log_record) :
  r ∈ emitted verbose log
  ↔ r ∈ log ∧ level_no (if verbose then DEBUG else INFO)
               <= level_no (record_level r).
Proof. unfold emitted. rewrite list_elem_of_filter. tauto. Qed.

Lemma raised_count_pos (e : Env) (a : Args) (files : list SourceFile)
    (bad : SourceFile) :
  bad ∈ files → raised (scan_of e a bad) = true →
  (raised_count e a files =? 0) = false.
Proof.
  intros Hin Hr. apply Z.eqb_neq. unfold raised_count.
  assert (Hb : bad ∈ filter (λ f, raised (scan_of e a f) = true) files)
    by (by apply list_elem_of_filter).
  destruct (filter _ files); [by apply elem_of_nil in Hb | simpl; lia].
Qed.

Lemma raised_count_non_strict (e : Env) (a : Args) (files : list SourceFile) :
  arg_strict a = false → raised_count e a files = 0.
Proof.
  intros Hs. unfold raised_count. rewrite filter_none; [done|].
  apply Forall_forall. intros f _ [Hstrict _]%raised_iff. congruence.
Qed.

(** C7, as the code has it.  When a file of the run fails to parse:
    [scan_file] records the failure with a DEBUG-level logging call, which
    the run's logger emits exactly when [--verbose] is set; without
    [--strict] it returns the empty list and the run exits with 0; with
    [--strict] it raises, the run logs an error for the file, still writes
    the reports with the findings of all files it scanned, and exits
    with 1. *)
Theorem parse_failure_handling (e : Env) (a : Args) (bad : SourceFile) :
  arg_self_test a = false →
  bad ∈ files_ e a →
  parsed bad = None →
  let failure :=
    LogRecord DEBUG ("Failed to parse " +:+ path_str (src_path bad)) in
  scan_of e a bad
  = ([failure], if arg_strict a then Raised else Returned [])
  ∧ ∃ log,
      main_ e a
      = Returned
          (mkRunResult (if arg_strict a then 1 else 0) log
             (Some (arg_output_dir a +:+ "/" +:+ env_now_stamp e,
                    write_reports json_dump csv_write (env_blame e)
                      (env_now_iso e) (findings_ e a) (arg_with_git a))))
      ∧ (failure ∈ emitted (arg_verbose a) log ↔ arg_verbose a = true)
      ∧ (arg_strict a = true →
         LogRecord ERROR ("Parse error in " +:+ path_str (src_path bad))
         ∈ emitted (arg_verbose a) log).
Proof.
  intros Hst Hin Hp failure.
  assert (Hscan : scan_of e a bad
                  = ([failure], if arg_strict a then Raised else Returned [])).
  { unfold scan_of, scan_file. rewrite Hp. by destruct (arg_strict a). }
  split; [exact Hscan|].
  destruct (main_spec path_match json_dump csv_write e a Hst)
    as (log & Hmain & Hlog).
  exists log. split; [|split].
  - rewrite Hmain. do 3 f_equal.
    destruct (arg_strict a) eqn:Hs; simpl.
    + rewrite (raised_count_pos e a _ bad Hin); [done|].
      apply raised_iff. done.
    + done.
  - rewrite emitted_elem. split.
    + intros [_ Hlvl]. destruct (arg_verbose a); [done|].
      simpl in Hlvl. lia.
    + intros ->. split; [|simpl; lia].
      apply Hlog, list_elem_of_bind. exists bad. split; [|done].
      unfold file_log. rewrite Hscan. simpl. apply list_elem_of_here.
  - intros Hs. rewrite emitted_elem. split; [|destruct (arg_verbose a); simpl; lia].
    apply Hlog, list_elem_of_bind. exists bad. split; [|done].
    unfold file_log, raised. rewrite Hscan, Hs. simpl.
    apply list_elem_of_further, list_elem_of_here.
Qed.

(** A run without [--strict] exits with 0 whatever the files. *)
Lemma non_strict_exit_code (e : Env) (a : Args) :
  arg_self_test a = false → arg_strict a = false →
  ∃ r, main_ e a = Returned r ∧ exit_code r = 0.
Proof.
  intros Hst Hs.
  destruct (main_spec path_match json_dump csv_write e a Hst)
    as (log & Hmain & _).
  eexists. split; [exact Hmain|]. by rewrite Hs.
Qed.

(** *** The reports do not depend on the clock *)

Lemma glob_skip_true (rel : list string) (patterns : list string) :
  glob_skip path_match rel patterns = true
  ↔ ∃ pat, pat ∈ patterns ∧ path_match rel pat = true.
Proof.
  induction patterns as [|pat rest IH]; simpl.
  - split; [done | by intros (? & ?%elem_of_nil & _)].
  - destruct (path_match rel pat) eqn:Hm.
    + split; [|done]. intros _. exists pat. split; [apply list_elem_of_here | done].
    + rewrite IH. split.
      * intros (p & Hp & Hmp). exists p. split; [by apply list_elem_of_further | done].
      * intros (p & [-> | Hp]%elem_of_cons & Hmp); [congruence | eauto].
Qed.

(** The order in which the exclusion globs are tried does not matter. *)
Lemma iter_python_files_order (listing : list SourceFile)
    (exclude_dirs : gset string) (pats1 pats2 : list string) :
  (∀ pat, pat ∈ pats1 ↔ pat ∈ pats2) →
  iter_python_files path_match listing exclude_dirs pats1
  = iter_python_files path_match listing exclude_dirs pats2.
Proof.
  intros Hsame. unfold iter_python_files. apply list_filter_iff. intros f.
  rewrite !glob_skip_true.
  split; intros Hn [Hd | (pat & Hp & Hm)]; apply Hn; auto;
    right; exists pat; (split; [by apply Hsame | done]).
Qed.

(** C9.  Two runs over the same tree with the same arguments and without
    blame enrichment write the same [report.json] and [report.csv] and
    exit with the same code, whatever the clock reads, whatever the blame
    lookup would answer and in whatever order each run iterates over the
    set of exclusion globs: the findings handed to the two writers, and
    their order, are a function of the directory listing, the file
    contents and the arguments. *)
Theorem reports_deterministic (e1 e2 : Env) (a : Args) :
  env_listing e1 = env_listing e2 →
  (∀ pat, pat ∈ env_set_order e1 (arg_exclude_globs a)
          ↔ pat ∈ arg_exclude_globs a) →
  (∀ pat, pat ∈ env_set_order e2 (arg_exclude_globs a)
          ↔ pat ∈ arg_exclude_globs a) →
  (∀ p, env_is_own_script e1 p = env_is_own_script e2 p) →
  env_default_pkgs e1 = env_default_pkgs e2 →
  arg_self_test a = false →
  arg_with_git a = false →
  ∃ r1 r2 d1 d2 R1 R2,
    main_ e1 a = Returned r1 ∧ main_ e2 a = Returned r2 ∧
    written r1 = Some (d1, R1) ∧ written r2 = Some (d2, R2) ∧
    report_json R1 = report_json R2 ∧
    report_csv R1 = report_csv R2 ∧
    exit_code r1 = exit_code r2.
Proof.
  intros Hlist Hglob1 Hglob2 Hown Hpkgs Hst Hgit.
  assert (Hglob : ∀ pat, pat ∈ env_set_order e1 (arg_exclude_globs a)
                         ↔ pat ∈ env_set_order e2 (arg_exclude_globs a))
    by (intros pat; by rewrite Hglob1, Hglob2).
  destruct (main_spec path_match json_dump csv_write e1 a Hst)
    as (log1 & Hmain1 & _).
  destruct (main_spec path_match json_dump csv_write e2 a Hst)
    as (log2 & Hmain2 & _).
  assert (Hfiles : files_ e1 a = files_ e2 a).
  { unfold files_to_scan. rewrite Hlist.
    rewrite (iter_python_files_order _ _ _ _ Hglob).
    apply list_filter_iff. intros f. by rewrite Hown. }
  assert (Hscan : ∀ f, scan_of e1 a f = scan_of e2 a f).
  { intros f. unfold scan_of, project_packages. by rewrite Hpkgs. }
  assert (Hfind : findings_ e1 a = findings_ e2 a).
  { unfold run_findings. rewrite Hfiles.
    apply list_bind_ext; [|done]. intros f. by rewrite Hscan. }
  assert (Hcount : raised_count e1 a (files_ e1 a)
                   = raised_count e2 a (files_ e2 a)).
  { unfold raised_count. rewrite Hfiles.
    rewrite (list_filter_iff (λ f, raised (scan_of e1 a f) = true)
                             (λ f, raised (scan_of e2 a f) = true));
      [reflexivity|].
    intros f. by rewrite Hscan. }
  eexists _, _, _, _, _, _.
  split; [exact Hmain1|]. split; [exact Hmain2|].
  split; [reflexivity|]. split; [reflexivity|].
  unfold write_reports. rewrite Hgit, Hfind, Hcount. simpl. done.
Qed.
End RunProperties.

Import Examples.

(** ** Runs of the examples *)

Ltac decide_by_compute :=
  apply (bool_decide_unpack _); vm_compute; exact I.

(** C6, as stated, fails: on a chained assignment to two entries of
    [sys.modules] the tree pass and the regex fallback both flag the key
    (line 2, sys_modules_assignment), and the output holds two findings
    with that key, not exactly one. *)
Lemma chained_assignment_two_findings_for_one_key :
  (2, CATEGORY_SYS_MODULES) ∈ seen_keys (tree_pass chained_sys_modules owned)
  ∧ (2, CATEGORY_SYS_MODULES) ∈ regex_fallback (text_lines chained_sys_modules)
  ∧ List.length
      (with_key (2, CATEGORY_SYS_MODULES)
         (returned_findings (scan_file chained_sys_modules owned 2 false)))
    = 2%nat
  ∧ ¬ ∃ f, with_key (2, CATEGORY_SYS_MODULES)
             (returned_findings (scan_file chained_sys_modules owned 2 false))
           = [f].
Proof.
  assert (Hlen : List.length
      (with_key (2, CATEGORY_SYS_MODULES)
         (returned_findings (scan_file chained_sys_modules owned 2 false)))
    = 2%nat) by (vm_compute; reflexivity).
  split; [|split; [|split]].
  - decide_by_compute.
  - decide_by_compute.
  - exact Hlen.
  - intros [f Hf]. rewrite Hf in Hlen. discriminate Hlen.
Qed.

Lemma regex_hit_discarded_witness :
  ∃ out,
    scan_file chained_sys_modules owned 2 false = ([], Returned out) ∧
    (∀ k, k ∈ seen_keys (tree_pass chained_sys_modules owned) →
          with_key k out = with_key k (tree_pass chained_sys_modules owned)) ∧
    (∀ k f, with_key k (tree_pass chained_sys_modules owned) = [f] →
            with_key k out = [f]).
Proof.
  exact (regex_hit_discarded_when_tree_finding chained_sys_modules owned 2 _
           eq_refl).
Defined.

(** C7, as stated, fails on the logging: in a default run (neither
    [--strict] nor [--verbose]) over a repository with an unparsable
    file, the run exits with 0 and the log it emits has no record of the
    parse failure. *)
Lemma default_run_emits_no_parse_failure_record :
  ∃ r,
    main no_match no_json no_csv morning default_args = Returned r
    ∧ files_to_scan no_match morning default_args = [unparsable; requests_api]
    ∧ exit_code r = 0
    ∧ emitted (arg_verbose default_args) (run_log r)
      = [ LogRecord INFO "Scanning repo: /repo";
          LogRecord INFO
            "Output directory: /repo/.repo_studios/monkey_patch/2026-01-01_0900";
          LogRecord INFO "Project packages: pkg, tests";
          LogRecord INFO "Done. Findings: 2" ]
    ∧ ¬ ∃ rec, rec ∈ emitted (arg_verbose default_args) (run_log r)
               ∧ record_msg rec
                 = "Failed to parse " +:+ path_str (src_path unparsable).
Proof.
  eexists. split; [vm_compute; reflexivity|].
  split; [vm_compute; reflexivity|]. split; [reflexivity|].
  split.
  - vm_compute. reflexivity.
  - intros (rec & Hrec & Hmsg). simpl run_log in Hrec.
    assert (Hrec' : rec ∈ [ LogRecord INFO "Scanning repo: /repo";
          LogRecord INFO
            "Output directory: /repo/.repo_studios/monkey_patch/2026-01-01_0900";
          LogRecord INFO "Project packages: pkg, tests";
          LogRecord INFO "Done. Findings: 2" ]).
    { revert Hrec. vm_compute. exact (λ H, H). }
    vm_compute in Hmsg.
    set_unfold in Hrec'. destruct_or?; subst rec; try done;
      vm_compute in Hmsg; discriminate Hmsg.
Qed.

Lemma files_of_strict_morning :
  files_to_scan no_match morning strict_args = [unparsable; requests_api].
Proof. vm_compute. reflexivity. Qed.

Lemma parse_failure_handling_witness :
  arg_self_test strict_args = false
  ∧ unparsable ∈ files_to_scan no_match morning strict_args
  ∧ parsed unparsable = None
  ∧ scan_of morning strict_args unparsable
    = ([LogRecord DEBUG
          ("Failed to parse " +:+ path_str (src_path unparsable))],
       if arg_strict strict_args then Raised else Returned [])
  ∧ ∃ log,
      main no_match no_json no_csv morning strict_args
      = Returned
          (mkRunResult (if arg_strict strict_args then 1 else 0) log
             (Some (arg_output_dir strict_args +:+ "/"
                    +:+ env_now_stamp morning,
                    write_reports no_json no_csv (env_blame morning)
                      (env_now_iso morning)
                      (run_findings no_match morning strict_args)
                      (arg_with_git strict_args))))
      ∧ (LogRecord DEBUG
           ("Failed to parse " +:+ path_str (src_path unparsable))
         ∈ emitted (arg_verbose strict_args) log
         ↔ arg_verbose strict_args = true)
      ∧ (arg_strict strict_args = true →
         LogRecord ERROR ("Parse error in " +:+ path_str (src_path unparsable))
         ∈ emitted (arg_verbose strict_args) log).
Proof.
  assert (Hin : unparsable ∈ files_to_scan no_match morning strict_args).
  { rewrite files_of_strict_morning. apply list_elem_of_here. }
  split; [reflexivity|]. split; [exact Hin|]. split; [reflexivity|].
  exact (parse_failure_handling no_match no_json no_csv morning strict_args
           unparsable eq_refl Hin eq_refl).
Defined.

Lemma reports_deterministic_witness :
  env_listing morning = env_listing evening
  ∧ (∀ pat, pat ∈ env_set_order morning (arg_exclude_globs default_args)
            ↔ pat ∈ arg_exclude_globs default_args)
  ∧ (∀ pat, pat ∈ env_set_order evening (arg_exclude_globs default_args)
            ↔ pat ∈ arg_exclude_globs default_args)
  ∧ (∀ p, env_is_own_script morning p = env_is_own_script evening p)
  ∧ env_default_pkgs morning = env_default_pkgs evening
  ∧ arg_self_test default_args = false
  ∧ arg_with_git default_args = false
  ∧ ∃ r1 r2 d1 d2 R1 R2,
      main no_match no_json no_csv morning default_args = Returned r1 ∧
      main no_match no_json no_csv evening default_args = Returned r2 ∧
      written r1 = Some (d1, R1) ∧ written r2 = Some (d2, R2) ∧
      report_json R1 = report_json R2 ∧
      report_csv R1 = report_csv R2 ∧
      exit_code r1 = exit_code r2.
Proof.
  assert (H1 : ∀ pat, pat ∈ env_set_order morning
                              (arg_exclude_globs default_args)
                      ↔ pat ∈ arg_exclude_globs default_args)
    by (intros pat; apply elem_of_remove_dups).
  assert (H2 : ∀ pat, pat ∈ env_set_order evening
                              (arg_exclude_globs default_args)
                      ↔ pat ∈ arg_exclude_globs default_args).
  { intros pat.
    change (pat ∈ reverse (remove_dups (arg_exclude_globs default_args))
            ↔ pat ∈ arg_exclude_globs default_args).
    rewrite elem_of_reverse. apply elem_of_remove_dups. }
  split; [reflexivity|]. split; [exact H1|]. split; [exact H2|].
  repeat (split; [reflexivity|]).
  exact (reports_deterministic no_match no_json no_csv morning evening
           default_args eq_refl H1 H2 (λ p, eq_refl) eq_refl
           eq_refl eq_refl).
Defined.

(** ** Assignments and calls below a definition are not scanned *)

(** C2 at its failing input.  [sys.modules[names[0]] = mod] inside a
    function: the tree pass does not look below the [def] and the regex
    of the fallback stops at the first closing bracket, so the scan
    reports nothing.  With [--strict] even the plain
    [sys.modules["foo"] = mod] inside a function is missed.  The same
    assignment at module scope is reported. *)
Lemma nested_sys_modules_assignment_missed :
  scan_file nested_sys_modules owned 2 false = ([], Returned [])
  ∧ scan_file nested_sys_modules_literal owned 2 true = ([], Returned [])
  ∧ (category <$> returned_findings (scan_file module_sys_modules owned 2 false))
    = [CATEGORY_SYS_MODULES].
Proof. repeat split; vm_compute; reflexivity. Qed.

(** C3 at its failing input.  [os.environ.update({...})] inside a
    function: the tree pass does not look below the [def] and no regex
    of the fallback covers [update], so the scan reports nothing.  The
    same call at module scope is reported. *)
Lemma nested_environ_update_missed :
  scan_file nested_environ_update owned 2 false = ([], Returned [])
  ∧ (category <$> returned_findings
                    (scan_file module_environ_update owned 2 false))
    = [CATEGORY_GLOBAL_ENV].
Proof. repeat split; vm_compute; reflexivity. Qed.

(** ** What the tree pass reports at module scope *)

Section ModuleScope.
Variable file_path : path.
Variable lines : list string.
Variable resolver : ImportResolver.
Variable project_pkgs : gset string.

Local Abbreviation mk := (make_finding file_path lines).
Local Abbreviation target_findings_ :=
  (target_findings file_path lines resolver project_pkgs).
Local Abbreviation call_findings_ :=
  (call_findings file_path lines resolver project_pkgs).
Local Abbreviation mfindings :=
  (method_findings file_path lines resolver project_pkgs).
Local Abbreviation tfindings :=
  (tree_findings file_path lines resolver project_pkgs).

Lemma assignment_targets_lineno (n t : node) :
  t ∈ assignment_targets n →
  mfindings n = assignment_targets n ≫= target_findings_ (lineno_of n).
Proof.
  intros Ht. rewrite method_findings_cases.
  destruct n; try (by apply elem_of_nil in Ht); reflexivity.
Qed.

(** The findings of a scanned assignment target are findings of the tree. *)
Lemma scanned_target_findings (root n t : node) (f : Finding) :
  scanned root n → t ∈ assignment_targets n →
  f ∈ target_findings_ (lineno_of n) t → f ∈ tfindings root.
Proof.
  intros Hn Ht Hf. apply elem_of_tree_findings. exists n. split; [done|].
  rewrite (assignment_targets_lineno n t Ht). apply list_elem_of_bind. eauto.
Qed.

Lemma target_sys_modules_findings (lineno : Z) (t : node) :
  _is_sys_modules t = true →
  target_findings_ lineno t
  = [mk lineno CATEGORY_SYS_MODULES (Some "sys") true None None].
Proof.
  intros Ht. unfold target_findings, handle_target, target_sys_modules.
  destruct t; try discriminate. by rewrite Ht.
Qed.

Lemma sys_modules_not_os_environ (t : node) :
  _is_os_environ t = true → _is_sys_modules t = false.
Proof.
  unfold _is_os_environ, _is_sys_modules.
  repeat case_match; try done.
  intros [->%String.eqb_eq _]%andb_prop. reflexivity.
Qed.

Lemma target_os_environ_findings (lineno : Z) (t : node) :
  _is_os_environ t = true →
  target_findings_ lineno t
  = [mk lineno CATEGORY_GLOBAL_ENV (Some "os") true None None].
Proof.
  intros Ht. unfold target_findings, handle_target, target_sys_modules,
    target_builtins, target_os_environ.
  rewrite (sys_modules_not_os_environ t Ht).
  destruct t; try discriminate. by rewrite Ht.
Qed.

(** An assignment to [sys.modules[...]] the scanner reaches is reported. *)
Lemma scanned_sys_modules_assignment_reported (root n t : node) :
  scanned root n → t ∈ assignment_targets n → _is_sys_modules t = true →
  ∃ f, f ∈ tfindings root ∧ category f = CATEGORY_SYS_MODULES
       ∧ line f = lineno_of n.
Proof.
  intros Hn Ht Hsys. eexists. split.
  - eapply scanned_target_findings; [exact Hn | exact Ht |].
    rewrite target_sys_modules_findings by done. apply list_elem_of_here.
  - done.
Qed.

(** An assignment to [os.environ[...]] the scanner reaches is reported. *)
Lemma scanned_os_environ_assignment_reported (root n t : node) :
  scanned root n → t ∈ assignment_targets n → _is_os_environ t = true →
  ∃ f, f ∈ tfindings root ∧ category f = CATEGORY_GLOBAL_ENV
       ∧ line f = lineno_of n.
Proof.
  intros Hn Ht Hos. eexists. split.
  - eapply scanned_target_findings; [exact Hn | exact Ht |].
    rewrite target_os_environ_findings by done. apply list_elem_of_here.
  - done.
Qed.

(** A call of [os.environ.update] or [os.environ.setdefault] the scanner
    reaches is reported. *)
Lemma scanned_environ_call_reported (root : node) (lineno : Z) (func : node)
    (args keywords : list node) :
  scanned root (Call lineno func args keywords) →
  is_environ_call func = true →
  ∃ f, f ∈ tfindings root ∧ category f = CATEGORY_GLOBAL_ENV
       ∧ line f = lineno.
Proof.
  intros Hn Hcall. eexists. split.
  - apply elem_of_tree_findings. eexists. split; [exact Hn|].
    rewrite method_findings_cases, call_findings_split.
    rewrite call_os_environ_findings, Hcall.
    rewrite !elem_of_app. do 3 right. apply list_elem_of_here.
  - done.
Qed.

(** *** The import-time side effect *)

(** An attribute target that resolves: near an import the finding comes
    with its import-time twin. *)
Lemma attribute_target_import_time (lineno : Z) (t : node) (f : Finding) :
  f ∈ target_findings_ lineno t →
  category f = CATEGORY_ATTRIBUTE_REASSIGNMENT →
  _near_import lineno (import_lines resolver) = true →
  (∃ g, g ∈ target_findings_ lineno t ∧ category g = CATEGORY_IMPORT_TIME
        ∧ line g = line f ∧ import_base g = import_base f
        ∧ is_module_scope g = true)
  ∨ (∃ l id, t = Name l id).
Proof.
  intros Hf Hcat Hnear.
  destruct (target_findings_cases file_path lines resolver project_pkgs
              lineno t)
    as [[_ Heq]|[[_ Heq]|[[_ Heq]|[(b & _ & Heq)|[(ba & b & _ & _ & Heq)
       |[(l & id & m & b & -> & _)| Heq]]]]]];
    try (rewrite Heq in Hf; set_unfold in Hf; destruct_or?; subst f;
         discriminate Hcat).
  - left. rewrite Heq, Hnear in *.
    apply elem_of_cons in Hf as [-> | Hf].
    + eexists. split; [apply list_elem_of_further, list_elem_of_here|]. done.
    + apply list_elem_of_singleton in Hf as ->. discriminate Hcat.
  - right. eauto.
Qed.

(** A rebinding of a bare name never yields an import-time finding. *)
Lemma name_target_no_import_time (lineno l : Z) (id : string) (g : Finding) :
  g ∈ target_findings_ lineno (Name l id) →
  category g = CATEGORY_ATTRIBUTE_REASSIGNMENT.
Proof.
  unfold target_findings, handle_target, target_name, add, _add_finding.
  simpl. destruct (alias_to_module resolver !! id) as [m|]; simpl.
  - destruct (PyStr.truthy m); simpl.
    + destruct (PyStr.truthy (PyStr.first_component m)); simpl.
      * by intros ->%list_elem_of_singleton.
      * by intros ?%elem_of_nil.
    + by intros ?%elem_of_nil.
  - by intros ?%elem_of_nil.
Qed.

(** Findings of calls, deletions and decorators are no attribute
    reassignments. *)
Lemma attribute_finding_from_target (n : node) (f : Finding) :
  f ∈ mfindings n → category f = CATEGORY_ATTRIBUTE_REASSIGNMENT →
  ∃ t, t ∈ assignment_targets n ∧ f ∈ target_findings_ (lineno_of n) t.
Proof.
  rewrite method_findings_cases. intros Hf Hcat.
  destruct n; try (by apply elem_of_nil in Hf);
    try (apply list_elem_of_bind in Hf as (t & Hf & Ht); by eauto).
  - apply call_findings_shape in Hf as (cat & base & -> & [-> | [-> | ->]]);
      discriminate Hcat.
  - apply list_elem_of_bind in Hf as (t & Hf & Ht).
    rewrite delete_findings_cases in Hf.
    destruct (_is_sys_modules t); [|by apply elem_of_nil in Hf].
    apply list_elem_of_singleton in Hf as ->. discriminate Hcat.
  - apply list_elem_of_bind in Hf as (t & Hf & Ht).
    rewrite decorator_findings_cases in Hf.
    destruct (_is_patch_decorator t resolver); [|by apply elem_of_nil in Hf].
    apply list_elem_of_singleton in Hf as ->. discriminate Hcat.
  - apply list_elem_of_bind in Hf as (t & Hf & Ht).
    rewrite decorator_findings_cases in Hf.
    destruct (_is_patch_decorator t resolver); [|by apply elem_of_nil in Hf].
    apply list_elem_of_singleton in Hf as ->. discriminate Hcat.
Qed.

Lemma target_findings_line (lineno : Z) (t : node) (f : Finding) :
  f ∈ target_findings_ lineno t → line f = lineno.
Proof. by intros (cat & base & -> & _)%target_findings_shape. Qed.

(** The tree pass: an attribute-reassignment finding near an import has
    an import-time twin in the same tree, unless it stems from the
    rebinding of a bare name. *)
Lemma tree_import_time (root : node) (f : Finding) :
  f ∈ tfindings root →
  category f = CATEGORY_ATTRIBUTE_REASSIGNMENT →
  _near_import (line f) (import_lines resolver) = true →
  (∃ g, g ∈ tfindings root ∧ category g = CATEGORY_IMPORT_TIME
        ∧ line g = line f ∧ import_base g = import_base f
        ∧ is_module_scope g = true)
  ∨ (∃ n l id, scanned root n ∧ Name l id ∈ assignment_targets n
               ∧ f ∈ target_findings_ (lineno_of n) (Name l id)).
Proof.
  intros (n & Hn & Hf)%elem_of_tree_findings Hcat Hnear.
  destruct (attribute_finding_from_target n f Hf Hcat) as (t & Ht & Hft).
  rewrite (target_findings_line _ _ _ Hft) in Hnear.
  destruct (attribute_target_import_time _ t f Hft Hcat Hnear)
    as [(g & Hg & Hgcat & Hgl & Hgb & Hgm) | (l & id & ->)].
  - left. exists g. split; [|done].
    eapply scanned_target_findings; eauto.
  - right. eauto 8.
Qed.
End ModuleScope.

(** ** Import-time side effects *)

(** C4, as stated, fails for the rebinding of a bare imported name:
    [thing = None] on the line after [from somepkg import thing], at
    module scope, is reported as attribute_reassignment_on_import, and no
    import_time_side_effect finding comes with it. *)
Lemma bare_rebinding_without_import_time :
  brief <$> tree_pass bare_rebinding owned
  = [(2, CATEGORY_ATTRIBUTE_REASSIGNMENT, Some "somepkg", true)]
  ∧ _near_import 2 (import_lines (resolver_of (tree_of bare_rebinding)))
    = true
  ∧ ¬ ∃ g, g ∈ tree_pass bare_rebinding owned
           ∧ category g = CATEGORY_IMPORT_TIME.
Proof.
  assert (Hb : brief <$> tree_pass bare_rebinding owned
               = [(2, CATEGORY_ATTRIBUTE_REASSIGNMENT, Some "somepkg", true)])
    by (vm_compute; reflexivity).
  split; [exact Hb|]. split; [vm_compute; reflexivity|].
  intros (g & Hg & Hcat).
  apply (list_elem_of_fmap_2 brief) in Hg. rewrite Hb in Hg.
  apply list_elem_of_singleton in Hg. unfold brief in Hg.
  injection Hg as _ Hc _ _. rewrite Hcat in Hc. discriminate Hc.
Qed.

(** An attribute-reassignment finding of an assignment target stems from
    an attribute target or from a bare name. *)
Lemma attribute_finding_target_kind file_path lines resolver project_pkgs
    (lineno : Z) (t : node) (f : Finding) :
  f ∈ target_findings file_path lines resolver project_pkgs lineno t →
  category f = CATEGORY_ATTRIBUTE_REASSIGNMENT →
  (∃ l v a, t = Attribute l v a) ∨ (∃ l id, t = Name l id).
Proof.
  intros Hf Hcat.
  destruct (target_findings_cases file_path lines resolver project_pkgs
              lineno t)
    as [[_ Heq]|[[_ Heq]|[[_ Heq]|[(b & _ & Heq)|[(ba & b & Hba & _ & _)
       |[(l & id & m & b & -> & _)| Heq]]]]]];
    try (rewrite Heq in Hf; set_unfold in Hf; destruct_or?; subst f;
         discriminate Hcat).
  - left. destruct t; try discriminate Hba. eauto.
  - right. eauto.
Qed.

(** C4, as the code has it, target by target.  Take an assignment the
    tree pass visits and one of its targets that is not a bare name.  If
    the target yields an attribute_reassignment_on_import finding whose
    line is within 5 lines of an import statement of the file, the same
    target also yields an import_time_side_effect finding, which the tree
    pass reports, at the same line with the same import_base and tagged
    module scope.  Every attribute_reassignment_on_import finding of the
    tree pass stems from a target of a visited assignment, an attribute
    target or a bare name; a bare name never yields an
    import_time_side_effect.  For [import requests] followed two lines
    later by [requests.api = object()], the scan yields exactly one
    finding of each category, both with import_base [requests] and
    tagged module scope. *)
Theorem import_time_side_effect_pairing :
  (∀ (src : SourceFile) (project_pkgs : gset string) (tree n t : node)
     (f : Finding),
     parsed src = Some tree →
     scanned tree n → t ∈ assignment_targets n →
     (∀ l id, t ≠ Name l id) →
     f ∈ target_findings (src_path src) (text_lines src) (resolver_of tree)
           project_pkgs (lineno_of n) t →
     category f = CATEGORY_ATTRIBUTE_REASSIGNMENT →
     _near_import (line f) (import_lines (resolver_of tree)) = true →
     ∃ g, g ∈ target_findings (src_path src) (text_lines src)
                (resolver_of tree) project_pkgs (lineno_of n) t
          ∧ g ∈ tree_pass src project_pkgs
          ∧ category g = CATEGORY_IMPORT_TIME
          ∧ line g = line f ∧ import_base g = import_base f
          ∧ is_module_scope g = true)
  ∧ (∀ (src : SourceFile) (project_pkgs : gset string) (tree : node)
       (f : Finding),
       parsed src = Some tree →
       f ∈ tree_pass src project_pkgs →
       category f = CATEGORY_ATTRIBUTE_REASSIGNMENT →
       ∃ n t, scanned tree n ∧ t ∈ assignment_targets n
              ∧ f ∈ target_findings (src_path src) (text_lines src)
                      (resolver_of tree) project_pkgs (lineno_of n) t
              ∧ ((∃ l v a, t = Attribute l v a) ∨ (∃ l id, t = Name l id)))
  ∧ (∀ file_path lines resolver project_pkgs lineno l id (g : Finding),
       g ∈ target_findings file_path lines resolver project_pkgs lineno
             (Name l id) →
       category g ≠ CATEGORY_IMPORT_TIME)
  ∧ brief <$> returned_findings (scan_file requests_api owned 2 false)
    = [ (3, CATEGORY_ATTRIBUTE_REASSIGNMENT, Some "requests", true);
        (3, CATEGORY_IMPORT_TIME, Some "requests", true) ].
Proof.
  split; [|split; [|split]].
  - intros src pkgs tree n t f Hp Hn Ht Hname Hf Hcat Hnear.
    rewrite (target_findings_line _ _ _ _ _ _ _ Hf) in Hnear.
    destruct (attribute_target_import_time _ _ _ _ _ t f Hf Hcat Hnear)
      as [(g & Hg & Hrest) | (l & id & ->)]; [|by destruct (Hname l id)].
    exists g. split; [done|]. split; [|done].
    unfold tree_pass. rewrite Hp.
    by apply (scanned_target_findings _ _ _ _ tree n t g).
  - intros src pkgs tree f Hp Hf Hcat.
    unfold tree_pass in Hf. rewrite Hp in Hf.
    apply elem_of_tree_findings in Hf as (n & Hn & Hf).
    destruct (attribute_finding_from_target _ _ _ _ n f Hf Hcat)
      as (t & Ht & Hft).
    exists n, t. do 3 (split; [done|]).
    by apply (attribute_finding_target_kind _ _ _ _ _ _ _ Hft).
  - intros fp lines resolver pkgs lineno l id g Hg Hcat.
    apply name_target_no_import_time in Hg. rewrite Hcat in Hg.
    discriminate Hg.
  - vm_compute. reflexivity.
Qed.

Lemma requests_api_pass :
  brief <$> tree_pass requests_api owned
  = [ (3, CATEGORY_ATTRIBUTE_REASSIGNMENT, Some "requests", true);
      (3, CATEGORY_IMPORT_TIME, Some "requests", true) ].
Proof. vm_compute. reflexivity. Qed.

(** The attribute-reassignment finding of the [requests.api] example. *)
Lemma requests_api_finding_in_pass :
  make_finding (src_path requests_api) (text_lines requests_api) 3
    CATEGORY_ATTRIBUTE_REASSIGNMENT (Some "requests") true None None
  ∈ tree_pass requests_api owned.
Proof. vm_compute. apply list_elem_of_here. Qed.

Lemma import_time_side_effect_pairing_witness :
  let t := Attribute 3 (Name 3 "requests") "api" in
  let n := Assign 3 [t] (Call 3 (Name 3 "object") [] []) in
  let f := make_finding (src_path requests_api) (text_lines requests_api) 3
             CATEGORY_ATTRIBUTE_REASSIGNMENT (Some "requests") true None None
  in
  parsed requests_api = Some (tree_of requests_api)
  ∧ scanned (tree_of requests_api) n
  ∧ t ∈ assignment_targets n
  ∧ (∀ l id, t ≠ Name l id)
  ∧ f ∈ target_findings (src_path requests_api) (text_lines requests_api)
          (resolver_of (tree_of requests_api)) owned (lineno_of n) t
  ∧ category f = CATEGORY_ATTRIBUTE_REASSIGNMENT
  ∧ _near_import (line f) (import_lines (resolver_of (tree_of requests_api)))
    = true
  ∧ ∃ g, g ∈ target_findings (src_path requests_api)
               (text_lines requests_api)
               (resolver_of (tree_of requests_api)) owned (lineno_of n) t
         ∧ g ∈ tree_pass requests_api owned
         ∧ category g = CATEGORY_IMPORT_TIME
         ∧ line g = line f ∧ import_base g = import_base f
         ∧ is_module_scope g = true.
Proof.
  intros t n f.
  assert (Hn : scanned (tree_of requests_api) n).
  { apply (scanned_child _ (tree_of requests_api)).
    - apply scanned_root.
    - reflexivity.
    - simpl. apply list_elem_of_further, list_elem_of_here. }
  assert (Ht : t ∈ assignment_targets n) by apply list_elem_of_here.
  assert (Hname : ∀ l id, t ≠ Name l id) by (intros l id H; discriminate H).
  assert (Hf : f ∈ target_findings (src_path requests_api)
                     (text_lines requests_api)
                     (resolver_of (tree_of requests_api)) owned
                     (lineno_of n) t)
    by (vm_compute; apply list_elem_of_here).
  assert (Hnear : _near_import (line f)
                    (import_lines (resolver_of (tree_of requests_api)))
                  = true) by (vm_compute; reflexivity).
  split; [reflexivity|]. split; [exact Hn|]. split; [exact Ht|].
  split; [exact Hname|]. split; [exact Hf|]. split; [reflexivity|].
  split; [exact Hnear|].
  exact (proj1 import_time_side_effect_pairing requests_api owned
           (tree_of requests_api) n t f eq_refl Hn Ht Hname Hf eq_refl
           Hnear).
Defined.

(** ** Dotted imports *)

Lemma resolver_visit_unfold (n : node) (r : ImportResolver) :
  resolver_visit n r =
  match n with
  | Import lineno names =>
      generic_visit resolver_visit n (visit_Import lineno names r)
  | ImportFrom lineno module names =>
      generic_visit resolver_visit n (visit_ImportFrom lineno module names r)
  | _ => generic_visit resolver_visit n r
  end.
Proof. destruct n; reflexivity. Qed.

Lemma inside_trans (root p n : node) :
  inside root p → inside p n → inside root n.
Proof. intros Hp. induction 1; [done|]. eapply inside_child; eauto. Qed.

(** A tree without import statements leaves the resolver as it is. *)
Lemma resolver_visit_no_import (n : node) :
  (∀ m, inside n m → is_import m = false) →
  ∀ r, resolver_visit n r = r.
Proof.
  induction n as [n IH] using node_children_ind. intros Hno r.
  assert (Hn : is_import n = false) by (apply Hno; constructor).
  rewrite resolver_visit_unfold.
  assert (Hgen : generic_visit resolver_visit n r = r).
  { rewrite generic_visit_children.
    apply (visit_list_preserves resolver_visit (λ s, s = r)); [|done].
    rewrite Forall_forall in IH. apply Forall_forall.
    intros c Hc s ->. apply IH; [done|].
    intros m Hm. apply Hno. eapply inside_trans; [|exact Hm].
    eapply inside_child; [constructor | done]. }
  destruct n; try done.
Qed.

Lemma alias_table_of_dotted_import (p : string) (lineno : Z)
    (r : ImportResolver) :
  alias_to_module (visit_Import lineno [Alias p None] r)
  = <[PyStr.last_component p := p]> (alias_to_module r).
Proof. reflexivity. Qed.

(** C10, as stated, fails when the last component of the dotted path is
    also its first: [import a.b.a] gives the bound name [a] an entry, and
    the following [a.attr = 1] is reported as
    attribute_reassignment_on_import. *)
Lemma dotted_import_same_component_resolves :
  alias_to_module (resolver_of (tree_of dotted_import_same)) !! "a"
  = Some "a.b.a"
  ∧ brief <$> tree_pass dotted_import_same owned
    = [ (2, CATEGORY_ATTRIBUTE_REASSIGNMENT, Some "a", true);
        (2, CATEGORY_IMPORT_TIME, Some "a", true) ].
Proof. split; vm_compute; reflexivity. Qed.

Lemma inside_empty_module (m : node) : inside (Module []) m → m = Module [].
Proof.
  induction 1 as [|p c _ IH Hc]; [reflexivity|].
  subst p. by apply elem_of_nil in Hc.
Qed.

(** ** The risk classifier *)

Module ClassifyFacts.
Import MonkeyPatchClassify.

(** C5.  [classify] maps every finding to exactly one of HIGH, MODERATE
    and SAFE: HIGH iff the category is sys_modules_assignment or
    import_time_side_effect outside tests, or global_env_mutation outside
    tests at module scope; MODERATE iff it is
    attribute_reassignment_on_import outside tests or global_env_mutation
    inside tests; SAFE in every other case, in particular for
    attribute_reassignment_on_import inside tests and for
    test_patch_misuse whatever the flags. *)
Theorem classify_rule_table (f : Finding) :
  let high :=
    ((category f = "sys_modules_assignment"
      ∨ category f = "import_time_side_effect") ∧ is_test f = false)
    ∨ (category f = "global_env_mutation" ∧ is_test f = false
       ∧ is_module_scope f = true) in
  let moderate :=
    (category f = "attribute_reassignment_on_import" ∧ is_test f = false)
    ∨ (category f = "global_env_mutation" ∧ is_test f = true) in
  (classify f = "HIGH" ↔ high)
  ∧ (classify f = "MODERATE" ↔ moderate)
  ∧ (classify f = "SAFE" ↔ ¬ high ∧ ¬ moderate)
  ∧ (classify f = "HIGH" ∨ classify f = "MODERATE" ∨ classify f = "SAFE")
  ∧ (∀ file line ms base,
       classify (mkFinding file line "attribute_reassignment_on_import"
                           true ms base) = "SAFE")
  ∧ (∀ file line test ms base,
       classify (mkFinding file line "test_patch_misuse" test ms base)
       = "SAFE").
Proof.
  intros high moderate. subst high moderate.
  assert (Hcases :
    ∀ cat test ms,
      let c := classify (mkFinding (file f) (line f) cat test ms
                                   (import_base f)) in
      let high :=
        ((cat = "sys_modules_assignment" ∨ cat = "import_time_side_effect")
         ∧ test = false)
        ∨ (cat = "global_env_mutation" ∧ test = false ∧ ms = true) in
      let moderate :=
        (cat = "attribute_reassignment_on_import" ∧ test = false)
        ∨ (cat = "global_env_mutation" ∧ test = true) in
      (c = "HIGH" ↔ high) ∧ (c = "MODERATE" ↔ moderate)
      ∧ (c = "SAFE" ↔ ¬ high ∧ ¬ moderate)
      ∧ (c = "HIGH" ∨ c = "MODERATE" ∨ c = "SAFE")).
  { intros cat test ms. unfold classify. simpl.
    destruct (String.eqb_spec cat "sys_modules_assignment") as [->|H1];
    [|destruct (String.eqb_spec cat "import_time_side_effect") as [->|H2];
      [|destruct (String.eqb_spec cat "global_env_mutation") as [->|H3];
        [|destruct (String.eqb_spec cat "attribute_reassignment_on_import")
            as [->|H4]]]];
    destruct test, ms; simpl;
    repeat split; intros;
    repeat first [ progress destruct_and? | progress destruct_or?
                 | match goal with |- ¬ _ => intros ? end ];
    try discriminate; try congruence; try tauto; auto 10. }
  destruct f as [fl ln cat test ms base]. simpl in *.
  destruct (Hcases cat test ms) as (Hh & Hm & Hs & Hall).
  split; [exact Hh|]. split; [exact Hm|]. split; [exact Hs|].
  split; [exact Hall|]. split; intros; reflexivity.
Qed.

End ClassifyFacts.

Import Fixtures.

(** ** The self test *)




Section SelfTest.
Variable path_match : list string → string → bool.










End SelfTest.


(** The self test on that walk: exit code 2, and the missing categories
    in the log. *)
Lemma self_test_with_a_fixture_missing :
  run_self_test Examples.no_match [a_modscope_assign] true
  = Returned
      ([LogRecord DEBUG
          ("[SELF-TEST] Missing categories: " +:+
           "['builtins_mutation', 'global_env_mutation', " +:+
           "'setattr_on_import_or_class', 'singleton_rebind', " +:+
           "'sys_modules_assignment', 'test_patch_misuse']")], 2).
Proof. vm_compute. reflexivity. Qed.

(** ** What the scan does not depend on *)

Lemma is_alias_external_base (a : string) (r : ImportResolver)
    (p1 p2 : gset string) :
  (is_alias_external a r p1).2 = (is_alias_external a r p2).2.
Proof. unfold is_alias_external. repeat case_match; reflexivity. Qed.

Lemma fold_left_ext {A B} (f g : A → B → A) (l : list B) (a : A) :
  (∀ a b, f a b = g a b) → fold_left f l a = fold_left g l a.
Proof.
  intros H. revert a. induction l as [|b l IH]; intros a; [done|].
  simpl. by rewrite H, IH.
Qed.

Lemma visit_list_ext {S} (v1 v2 : node → S → S) (l : list node) :
  Forall (λ c, ∀ s, v1 c s = v2 c s) l →
  ∀ s, visit_list v1 l s = visit_list v2 l s.
Proof.
  induction 1 as [|c l Hc _ IH]; intros s; [done|].
  unfold visit_list in *. simpl. by rewrite Hc, IH.
Qed.

Section ProjectPackages.
Variable file_path : path.
Variable lines : list string.
Variable resolver : ImportResolver.
Variables p1 p2 : gset string.

Lemma target_attribute_pkgs lineno ms fn cl t s :
  target_attribute file_path lines resolver p1 lineno ms fn cl t s
  = target_attribute file_path lines resolver p2 lineno ms fn cl t s.
Proof.
  unfold target_attribute. destruct t; try reflexivity.
  destruct (target_base_alias _) as [a|]; [|reflexivity].
  destruct (PyStr.truthy a); [|reflexivity].
  pose proof (is_alias_external_base a resolver p1 p2) as H.
  destruct (is_alias_external a resolver p1) as [e1 b1].
  destruct (is_alias_external a resolver p2) as [e2 b2].
  simpl in H. by subst.
Qed.

Lemma handle_target_pkgs lineno ms fn cl s t :
  handle_target file_path lines resolver p1 lineno ms fn cl s t
  = handle_target file_path lines resolver p2 lineno ms fn cl s t.
Proof. unfold handle_target. by rewrite target_attribute_pkgs. Qed.

Lemma call_setattr_pkgs lineno func args ms fn cl s :
  call_setattr file_path lines resolver p1 lineno func args ms fn cl s
  = call_setattr file_path lines resolver p2 lineno func args ms fn cl s.
Proof.
  unfold call_setattr. destruct func; try reflexivity.
  destruct args as [|target args]; [reflexivity|].
  destruct (String.eqb _ _); [|reflexivity].
  destruct (truthy_opt _); [|reflexivity].
  match goal with |- context [is_alias_external ?a _ p1] =>
    pose proof (is_alias_external_base a resolver p1 p2) as H;
    destruct (is_alias_external a resolver p1) as [e1 b1];
    destruct (is_alias_external a resolver p2) as [e2 b2]
  end.
  simpl in H. by subst.
Qed.

Lemma visit_method_pkgs (n : node) (s : Scanner) :
  visit_method file_path lines resolver p1 n s
  = visit_method file_path lines resolver p2 n s.
Proof.
  destruct n; try reflexivity; simpl.
  - unfold call_checks. destruct (scope_current _) as [[ms fn] cl].
    by rewrite call_setattr_pkgs.
  - unfold _handle_assignment. destruct (scope_current _) as [[ms fn] cl].
    apply fold_left_ext. intros. apply handle_target_pkgs.
  - unfold _handle_assignment. destruct (scope_current _) as [[ms fn] cl].
    apply fold_left_ext. intros. apply handle_target_pkgs.
  - unfold _handle_assignment. destruct (scope_current _) as [[ms fn] cl].
    apply fold_left_ext. intros. apply handle_target_pkgs.
Qed.

Lemma scanner_visit_pkgs (n : node) :
  ∀ s, scanner_visit file_path lines resolver p1 n s
       = scanner_visit file_path lines resolver p2 n s.
Proof.
  induction n as [n IH] using node_children_ind. intros s.
  rewrite !scanner_visit_unfold, visit_method_pkgs.
  unfold scanner_generic_visit. destruct (is_def n); [reflexivity|].
  rewrite !generic_visit_children. by apply visit_list_ext.
Qed.

Lemma tree_findings_pkgs (tree : node) :
  tree_findings file_path lines resolver p1 tree
  = tree_findings file_path lines resolver p2 tree.
Proof. unfold tree_findings. by rewrite scanner_visit_pkgs. Qed.
End ProjectPackages.

Lemma scan_file_pkgs (src : SourceFile) (p1 p2 : gset string) (ctx : Z)
    (strict : bool) :
  scan_file src p1 ctx strict = scan_file src p2 ctx strict.
Proof.
  unfold scan_file. destruct (parsed src) as [tree|]; [|reflexivity].
  by rewrite (tree_findings_pkgs _ _ _ p1 p2).
Qed.

(** X1.  The set of project packages has no influence on what is
    reported.  [is_alias_external] computes the flag "external" from it,
    and both callers drop the flag: [scan_file] returns the same log and
    the same findings for any two sets, and a run of [main] ends with the
    same exit code and writes the same reports whatever is passed as
    [--project-packages]. *)
Theorem project_packages_do_not_affect_findings :
  (∀ (src : SourceFile) (pkgs1 pkgs2 : gset string) (context_lines : Z)
     (strict : bool),
     scan_file src pkgs1 context_lines strict
     = scan_file src pkgs2 context_lines strict)
  ∧ (∀ path_match json_dump csv_write (e : Env) (a : Args)
       (pkgs : option (list string)),
       run_effect (main path_match json_dump csv_write e
                     (with_project_packages a pkgs))
       = run_effect (main path_match json_dump csv_write e a)).
Proof.
  split; [apply scan_file_pkgs|].
  intros pm jd cw e a pkgs.
  destruct (arg_self_test a) eqn:Hst.
  { unfold main. simpl. rewrite Hst. reflexivity. }
  destruct (main_spec pm jd cw e a Hst) as (log & -> & _).
  destruct (main_spec pm jd cw e (with_project_packages a pkgs) Hst)
    as (log' & -> & _).
  assert (Hscan : ∀ f, scan_of e (with_project_packages a pkgs) f
                       = scan_of e a f).
  { intros f. unfold scan_of. simpl. apply scan_file_pkgs. }
  assert (Hfiles : files_to_scan pm e (with_project_packages a pkgs)
                   = files_to_scan pm e a) by reflexivity.
  assert (Hfind : run_findings pm e (with_project_packages a pkgs)
                  = run_findings pm e a).
  { unfold run_findings. rewrite Hfiles. apply list_bind_ext; [|done].
    intros f. by rewrite Hscan. }
  assert (Hcount : ∀ files, raised_count e (with_project_packages a pkgs) files
                            = raised_count e a files).
  { intros files. unfold raised_count.
    rewrite (list_filter_iff
               (λ f, raised (scan_of e (with_project_packages a pkgs) f) = true)
               (λ f, raised (scan_of e a f) = true)); [done|].
    intros f. by rewrite Hscan. }
  rewrite Hfiles, Hfind, Hcount. reflexivity.
Qed.

(** ** The shape of the findings *)

Section FindingShape.
Variable file_path : path.
Variable lines : list string.
Variable resolver : ImportResolver.
Variable project_pkgs : gset string.

Local Abbreviation mk := (make_finding file_path lines).
Local Abbreviation plain := (plain_finding file_path lines).
Local Abbreviation mfindings :=
  (method_findings file_path lines resolver project_pkgs).
Local Abbreviation tfindings :=
  (tree_findings file_path lines resolver project_pkgs).

Ltac table_tac :=
  unfold base_of_category; simpl;
  first [ by left
        | by right; left
        | by right; right; left
        | by right; right; right; left
        | by right; right; right; right; right; right ].

Ltac plain_tac :=
  eexists _, _; split; [reflexivity|]; table_tac.

(** What a block of the target cascade adds when it fires. *)
Lemma target_sys_modules_plain lineno t s' :
  target_sys_modules file_path lines lineno true None None t (mkScanner [] [])
  = Some s' → Forall (plain lineno) (findings s').
Proof.
  unfold target_sys_modules. intros H. repeat case_match; simplify_eq/=.
  repeat constructor. plain_tac.
Qed.

Lemma target_builtins_plain lineno t s' :
  target_builtins file_path lines lineno true None None t (mkScanner [] [])
  = Some s' → Forall (plain lineno) (findings s').
Proof.
  unfold target_builtins. intros H. repeat case_match; simplify_eq/=.
  repeat constructor. plain_tac.
Qed.

Lemma target_os_environ_plain lineno t s' :
  target_os_environ file_path lines lineno true None None t (mkScanner [] [])
  = Some s' → Forall (plain lineno) (findings s').
Proof.
  unfold target_os_environ. intros H. repeat case_match; simplify_eq/=.
  repeat constructor. plain_tac.
Qed.

Lemma target_singleton_plain lineno t s' :
  target_singleton file_path lines lineno true None None t (mkScanner [] [])
  = Some s' → Forall (plain lineno) (findings s').
Proof.
  unfold target_singleton. intros H. repeat case_match; simplify_eq/=.
  repeat constructor. eexists _, _. split; [reflexivity|].
  do 4 right. left. split; [done|]. eexists. split; [done|].
  match goal with H : _ && _ = true |- _ =>
    apply andb_true_iff in H as [H _]; by apply bool_decide_eq_true in H end.
Qed.

Lemma target_attribute_plain lineno t s' :
  target_attribute file_path lines resolver project_pkgs lineno true None None
                   t (mkScanner [] [])
  = Some s' → Forall (plain lineno) (findings s').
Proof.
  unfold target_attribute. intros H. repeat case_match; simplify_eq/=;
    repeat constructor; eexists _, _; (split; [reflexivity|]);
    do 5 right; left; (split; [|done]); auto.
Qed.

Lemma target_name_plain lineno t s' :
  target_name file_path lines resolver lineno true None None
              t (mkScanner [] [])
  = Some s' → Forall (plain lineno) (findings s').
Proof.
  unfold target_name. intros H. repeat case_match; simplify_eq/=;
    repeat constructor; eexists _, _; (split; [reflexivity|]);
    do 5 right; left; (split; [|done]); auto.
Qed.

Lemma target_findings_plain (lineno : Z) (t : node) :
  Forall (plain lineno)
    (target_findings file_path lines resolver project_pkgs lineno t).
Proof.
  unfold target_findings, handle_target.
  destruct (target_sys_modules _ _ _ _ _ _ _ _) eqn:E1;
    [by eapply target_sys_modules_plain|].
  destruct (target_builtins _ _ _ _ _ _ _ _) eqn:E2;
    [by eapply target_builtins_plain|].
  destruct (target_os_environ _ _ _ _ _ _ _ _) eqn:E3;
    [by eapply target_os_environ_plain|].
  destruct (target_singleton _ _ _ _ _ _ _ _) eqn:E4;
    [by eapply target_singleton_plain|].
  destruct (target_attribute _ _ _ _ _ _ _ _ _ _) eqn:E5;
    [by eapply target_attribute_plain|].
  destruct (target_name _ _ _ _ _ _ _ _ _) eqn:E6;
    [by eapply target_name_plain|].
  constructor.
Qed.

Lemma call_findings_plain (lineno : Z) (func : node) (args : list node) :
  Forall (plain lineno)
    (call_findings file_path lines resolver project_pkgs lineno func args).
Proof.
  rewrite call_findings_split, call_patch_findings, call_os_environ_findings.
  repeat apply Forall_app_2.
  - unfold call_setattr. repeat case_match; simplify_eq/=;
      repeat constructor; plain_tac.
  - unfold call_builtins_setattr. repeat case_match; simplify_eq/=;
      repeat constructor; plain_tac.
  - case_match; repeat constructor. plain_tac.
  - case_match; repeat constructor. plain_tac.
Qed.

Lemma delete_findings_plain (lineno : Z) (t : node) :
  Forall (plain lineno) (delete_findings file_path lines lineno t).
Proof.
  rewrite delete_findings_cases. case_match; repeat constructor. plain_tac.
Qed.

(** The findings of one visitor method: plain ones at the line of the
    statement or call, or decorator findings, which carry the name of the
    decorated definition. *)
Lemma method_findings_table (n : node) :
  Forall (λ f, plain (lineno_of n) f
               ∨ ∃ dec fn cl,
                   f = mk (lineno_of dec) CATEGORY_TEST_PATCH_MISUSE
                          (Some "unittest") true fn cl
                   ∧ _is_patch_decorator dec resolver = true
                   ∧ ((∃ l name a b ds r t,
                         n = FunctionDef l name a b ds r t ∧ dec ∈ ds
                         ∧ fn = Some name ∧ cl = None)
                      ∨ (∃ l name bs ks b ds t,
                           n = ClassDef l name bs ks b ds t ∧ dec ∈ ds
                           ∧ fn = None ∧ cl = Some name)))
         (mfindings n).
Proof.
  rewrite method_findings_cases. apply Forall_forall. intros f Hf.
  destruct n; try (by apply elem_of_nil in Hf); simpl.
  - left. revert f Hf. apply Forall_forall, call_findings_plain.
  - left. apply list_elem_of_bind in Hf as (t & Hf & _).
    revert f Hf. apply Forall_forall, target_findings_plain.
  - left. apply list_elem_of_bind in Hf as (t & Hf & _).
    revert f Hf. apply Forall_forall, target_findings_plain.
  - left. apply list_elem_of_bind in Hf as (t & Hf & _).
    revert f Hf. apply Forall_forall, target_findings_plain.
  - left. apply list_elem_of_bind in Hf as (t & Hf & _).
    revert f Hf. apply Forall_forall, delete_findings_plain.
  - right. apply list_elem_of_bind in Hf as (dec & Hf & Hdec).
    rewrite decorator_findings_cases in Hf.
    destruct (_is_patch_decorator dec resolver) eqn:Hp;
      [|by apply elem_of_nil in Hf].
    apply list_elem_of_singleton in Hf as ->.
    exists dec, (Some name), None. split; [done|]. split; [done|].
    left. by eexists _, _, _, _, _, _, _.
  - right. apply list_elem_of_bind in Hf as (dec & Hf & Hdec).
    rewrite decorator_findings_cases in Hf.
    destruct (_is_patch_decorator dec resolver) eqn:Hp;
      [|by apply elem_of_nil in Hf].
    apply list_elem_of_singleton in Hf as ->.
    exists dec, None, (Some name). split; [done|]. split; [done|].
    right. by eexists _, _, _, _, _, _, _.
Qed.

(** Every finding of the tree pass comes from a visitor method run on a
    scanned node. *)
Lemma tree_findings_table (root : node) (f : Finding) :
  f ∈ tfindings root →
  ∃ n, scanned root n ∧
    (plain (lineno_of n) f
     ∨ ∃ dec fn cl,
         f = mk (lineno_of dec) CATEGORY_TEST_PATCH_MISUSE
                (Some "unittest") true fn cl
         ∧ _is_patch_decorator dec resolver = true
         ∧ ((∃ l name a b ds r t,
               n = FunctionDef l name a b ds r t ∧ dec ∈ ds
               ∧ fn = Some name ∧ cl = None)
            ∨ (∃ l name bs ks b ds t,
                 n = ClassDef l name bs ks b ds t ∧ dec ∈ ds
                 ∧ fn = None ∧ cl = Some name))).
Proof.
  intros (n & Hn & Hf)%elem_of_tree_findings. exists n. split; [done|].
  revert f Hf. apply Forall_forall, method_findings_table.
Qed.
End FindingShape.

(** ** The regex fallback *)

Lemma first_match_category (s c : string) :
  first_match fallback_patterns s = Some c → fallback_category c.
Proof.
  unfold fallback_patterns, fallback_category. simpl. intros H.
  repeat case_match; simplify_eq;
    repeat first [ apply list_elem_of_here | apply list_elem_of_further ].
Qed.

Lemma regex_fallback_from_elem (i : Z) (lines : list string) (k : Z)
    (c : string) :
  (k, c) ∈ regex_fallback_from i lines
  ↔ ∃ l, i ≤ k ∧ lines !! Z.to_nat (k - i) = Some l
         ∧ first_match fallback_patterns (PyStr.strip l) = Some c.
Proof.
  revert i. induction lines as [|l0 lines IH]; intros i;
    cbn [regex_fallback_from].
  - split; [by intros ?%elem_of_nil|]. by intros (l & _ & ? & _).
  - assert (Hrest : (k, c) ∈ regex_fallback_from (i + 1) lines
                    ↔ ∃ l, i < k ∧ (l0 :: lines) !! Z.to_nat (k - i) = Some l
                           ∧ first_match fallback_patterns (PyStr.strip l)
                             = Some c).
    { rewrite IH. split; intros (l & Hk & Hl & Hm); exists l.
      - split; [lia|]. split; [|done].
        replace (Z.to_nat (k - i)) with (S (Z.to_nat (k - (i + 1)))) by lia.
        done.
      - split; [lia|]. split; [|done].
        replace (Z.to_nat (k - i)) with (S (Z.to_nat (k - (i + 1)))) in Hl
          by lia.
        done. }
    destruct (first_match fallback_patterns (PyStr.strip l0)) as [c0|] eqn:E.
    + rewrite elem_of_cons, Hrest. split.
      * intros [[= -> ->]|(l & Hk & Hl & Hm)].
        -- exists l0. split; [lia|]. by rewrite Z.sub_diag.
        -- exists l. split; [lia|]. done.
      * intros (l & Hk & Hl & Hm).
        destruct (decide (k = i)) as [->|Hne].
        -- rewrite Z.sub_diag in Hl. simpl in Hl. simplify_eq. by left.
        -- right. exists l. split; [lia|]. done.
    + rewrite Hrest. split.
      * intros (l & Hk & Hl & Hm). exists l. split; [lia|]. done.
      * intros (l & Hk & Hl & Hm).
        destruct (decide (k = i)) as [->|Hne].
        -- rewrite Z.sub_diag in Hl. simpl in Hl. simplify_eq.
        -- exists l. split; [lia|]. done.
Qed.

Lemma regex_fallback_from_sorted (i : Z) (lines : list string) :
  StronglySorted (λ x y : Z * string, x.1 < y.1) (regex_fallback_from i lines).
Proof.
  revert i. induction lines as [|l0 lines IH]; intros i;
    cbn [regex_fallback_from]; [constructor|].
  destruct (first_match _ _) as [c0|]; [|apply IH].
  constructor; [apply IH|].
  apply Forall_forall. intros [k c] Hk.
  apply regex_fallback_from_elem in Hk as (l & Hk & _). simpl. lia.
Qed.

Lemma sorted_keys_NoDup (hits : list (Z * string)) :
  StronglySorted (λ x y : Z * string, x.1 < y.1) hits → NoDup hits.
Proof.
  induction 1 as [|h hits _ IH Hall]; constructor; [|done].
  intros Hin. rewrite Forall_forall in Hall. specialize (Hall h Hin). lia.
Qed.

(** X2.  The hits of the regex fallback.  Line [k] is reported with
    category [c] exactly when it exists and [c] belongs to the first of
    the four patterns, in the order sys.modules, builtins, os.environ,
    setattr, that is found in the stripped line.  The hits come in
    strictly increasing line order, so a line is reported at most once,
    and only the four categories of the patterns occur. *)
Theorem regex_fallback_hits (lines : list string) :
  (∀ (k : Z) (c : string),
     (k, c) ∈ regex_fallback lines
     ↔ ∃ l, 1 ≤ k ∧ lines !! Z.to_nat (k - 1) = Some l
            ∧ first_match fallback_patterns (PyStr.strip l) = Some c)
  ∧ StronglySorted (λ x y : Z * string, x.1 < y.1) (regex_fallback lines)
  ∧ Forall (λ h, fallback_category h.2) (regex_fallback lines).
Proof.
  split; [|split].
  - intros k c. apply regex_fallback_from_elem.
  - apply regex_fallback_from_sorted.
  - apply Forall_forall. intros [k c] Hk.
    apply regex_fallback_from_elem in Hk as (l & _ & _ & Hm).
    by eapply first_match_category.
Qed.

(** ** The findings of [scan_file] *)

Lemma returned_findings_split (src : SourceFile) (pkgs : gset string)
    (c : Z) (strict : bool) :
  returned_findings (scan_file src pkgs c strict)
  = tree_pass src pkgs ++ (if strict then [] else fallback_pass src pkgs c).
Proof.
  unfold returned_findings, scan_file, fallback_pass, tree_pass.
  destruct (parsed src) as [tree|]; [|by destruct strict].
  destruct strict; simpl; [by rewrite app_nil_r|]. by rewrite fallback_fold.
Qed.

Lemma tree_pass_table (src : SourceFile) (pkgs : gset string) (f : Finding) :
  f ∈ tree_pass src pkgs →
  ∃ l cat base fn cl,
    f = make_finding (src_path src) (text_lines src) l cat base true fn cl
    ∧ base_of_category cat base
    ∧ ((fn = None ∧ cl = None)
       ∨ (cat = CATEGORY_TEST_PATCH_MISUSE ∧ (fn = None ∨ cl = None))).
Proof.
  unfold tree_pass. destruct (parsed src) as [tree|];
    [|by intros ?%elem_of_nil].
  intros (n & _ & [(cat & base & -> & Hb)|(dec & fn & cl & -> & _ & Hd)])
    %tree_findings_table.
  - eexists _, cat, base, None, None. auto.
  - eexists _, _, _, fn, cl. split; [done|]. split.
    + do 3 right. by left.
    + right. split; [done|].
      destruct Hd as [(?&?&?&?&?&?&?&_&_&_&->)|(?&?&?&?&?&?&?&_&_&->&_)];
        auto.
Qed.

Lemma fallback_pass_table (src : SourceFile) (pkgs : gset string) (c : Z)
    (f : Finding) :
  f ∈ fallback_pass src pkgs c →
  ∃ l cat,
    f = fallback_finding (src_path src) (text_lines src) c l cat
    ∧ fallback_category cat
    ∧ (l, cat) ∈ regex_fallback (text_lines src)
    ∧ (l, cat) ∉ seen_keys (tree_pass src pkgs).
Proof.
  unfold fallback_pass. destruct (parsed src) as [tree|] eqn:Hp;
    [|by intros ?%elem_of_nil].
  intros ([l cat] & -> & [Hseen Hin]%list_elem_of_filter)%list_elem_of_fmap.
  exists l, cat. split; [done|]. split; [|done].
  apply regex_fallback_from_elem in Hin as (l0 & _ & _ & Hm).
  by eapply first_match_category.
Qed.

Lemma fallback_category_scanner (cat : string) :
  fallback_category cat → scanner_category cat.
Proof.
  unfold fallback_category. intros H.
  repeat (apply elem_of_cons in H as [->|H]; [cat_tac|]).
  by apply elem_of_nil in H.
Qed.

Lemma base_of_category_scanner (cat : string) (base : option string) :
  base_of_category cat base → scanner_category cat.
Proof.
  unfold base_of_category, scanner_category.
  intros [[-> _]|[[-> _]|[[-> _]|[[-> _]|[[-> _]|[[[-> | ->] _]| ->]]]]]];
    cat_tac.
Qed.

Lemma returned_finding_intent (src : SourceFile) (pkgs : gset string)
    (c : Z) (strict : bool) (f : Finding) :
  f ∈ returned_findings (scan_file src pkgs c strict) →
  intent f = classify_intent (category f) (import_base f) (is_test f)
  ∧ (base_of_category (category f) (import_base f)
     ∨ (fallback_category (category f) ∧ import_base f = None)).
Proof.
  rewrite returned_findings_split, elem_of_app. intros [Hf|Hf].
  - apply tree_pass_table in Hf as (l & cat & base & fn & cl & -> & Hb & _).
    auto.
  - destruct strict; [by apply elem_of_nil in Hf|].
    apply fallback_pass_table in Hf as (l & cat & -> & Hc & _). auto.
Qed.

(** X3.  Every finding of [scan_file], from the tree pass or from the
    regex fallback, is determined by its line, category and import base as
    far as these fields go: the file is the scanned path relative to the
    root, [is_test] says whether a component of that path is [tests], the
    code is the right-stripped source line (empty when the line number is
    out of range), the comment is the one found above that line, the
    intent is [classify_intent] of the finding's own category, import base
    and test flag, and the three git fields are unset. *)
Theorem finding_fields_derived_from_line_and_category (src : SourceFile)
    (project_pkgs : gset string) (context_lines : Z) (strict : bool) :
  Forall (λ f,
            file f = finding_file (src_path src)
            ∧ is_test f = is_path_in_tests (src_path src)
            ∧ code f = code_line (text_lines src) (line f)
            ∧ nearby_comment f = get_nearby_comment (text_lines src) (line f)
            ∧ intent f
              = classify_intent (category f) (import_base f) (is_test f)
            ∧ git_author f = None ∧ git_commit f = None
            ∧ git_commit_date f = None)
         (returned_findings
            (scan_file src project_pkgs context_lines strict)).
Proof.
  rewrite returned_findings_split. apply Forall_app_2.
  - apply Forall_forall.
    intros f (l & cat & base & fn & cl & -> & _)%tree_pass_table.
    by repeat split.
  - destruct strict; [constructor|]. apply Forall_forall.
    intros f (l & cat & -> & _)%fallback_pass_table. by repeat split.
Qed.

(** X4.  Category and import base go together, pass by pass.  What
    [scan_file] returns is the findings of the tree pass followed, without
    [--strict], by those of the regex fallback.  A finding of the tree
    pass records "sys" with sys_modules_assignment, "builtins" with
    builtins_mutation, "os" with global_env_mutation, "unittest" with
    test_patch_misuse, "logging" or "warnings" with singleton_rebind, and a
    non-empty base with attribute_reassignment_on_import and
    import_time_side_effect; only a setattr finding may lack one.  A
    finding of the regex fallback has one of the four categories of the
    patterns and no import base.  The category "other" is never
    reported. *)
Theorem finding_category_and_import_base (src : SourceFile)
    (project_pkgs : gset string) (context_lines : Z) (strict : bool) :
  returned_findings (scan_file src project_pkgs context_lines strict)
  = tree_pass src project_pkgs
    ++ (if strict then [] else fallback_pass src project_pkgs context_lines)
  ∧ Forall (λ f, base_of_category (category f) (import_base f))
           (tree_pass src project_pkgs)
  ∧ Forall (λ f, fallback_category (category f) ∧ import_base f = None)
           (fallback_pass src project_pkgs context_lines)
  ∧ Forall (λ f, scanner_category (category f)
                 ∧ category f ≠ CATEGORY_OTHER)
           (returned_findings
              (scan_file src project_pkgs context_lines strict)).
Proof.
  assert (Hother : ∀ cat, scanner_category cat → cat ≠ CATEGORY_OTHER).
  { unfold scanner_category. intros cat Hc ->.
    repeat (apply elem_of_cons in Hc as [Hc|Hc]; [discriminate Hc|]).
    by apply elem_of_nil in Hc. }
  split; [apply returned_findings_split|]. split; [|split].
  - apply Forall_forall.
    by intros f (l & cat & base & fn & cl & -> & Hb & _)%tree_pass_table.
  - apply Forall_forall.
    by intros f (l & cat & -> & Hc & _)%fallback_pass_table.
  - rewrite returned_findings_split. apply Forall_app_2.
    + apply Forall_forall.
      intros f (l & cat & base & fn & cl & -> & Hb & _)%tree_pass_table.
      simpl. pose proof (base_of_category_scanner _ _ Hb). auto.
    + destruct strict; [constructor|]. apply Forall_forall.
      intros f (l & cat & -> & Hc & _)%fallback_pass_table. simpl.
      pose proof (fallback_category_scanner _ Hc). auto.
Qed.

(** X5.  The intent of a finding, category by category.  A
    global_env_mutation finding is always labelled "unspecified monkey
    patch", with or without the import base "os"; an
    attribute_reassignment_on_import or singleton_rebind finding is always
    "override third-party behavior", whether or not the module belongs to
    the project; a test_patch_misuse finding is "non-scoped test patch"
    only in a file under [tests]. *)
Theorem finding_intent_by_category (src : SourceFile)
    (project_pkgs : gset string) (context_lines : Z) (strict : bool) :
  Forall (λ f,
            (category f = CATEGORY_SYS_MODULES
             → intent f = INTENT_MODULE_INJECTION)
            ∧ (category f = CATEGORY_BUILTINS
               → intent f = INTENT_GLOBAL_RUNTIME_CHANGE)
            ∧ (category f = CATEGORY_IMPORT_TIME
               → intent f = INTENT_IMPORT_TIME_OVERRIDE)
            ∧ (category f = CATEGORY_GLOBAL_ENV
               → intent f = INTENT_UNSPECIFIED)
            ∧ (category f = CATEGORY_TEST_PATCH_MISUSE
               → intent f = if is_test f then INTENT_NON_SCOPED_TEST_PATCH
                            else INTENT_UNSPECIFIED)
            ∧ (category f = CATEGORY_ATTRIBUTE_REASSIGNMENT
               ∨ category f = CATEGORY_SINGLETON_REBIND
               → intent f = INTENT_OVERRIDE_THIRD_PARTY)
            ∧ (category f = CATEGORY_SETATTR
               → intent f = if truthy_opt (import_base f)
                            then INTENT_OVERRIDE_THIRD_PARTY
                            else INTENT_UNSPECIFIED))
         (returned_findings
            (scan_file src project_pkgs context_lines strict)).
Proof.
  apply Forall_forall. intros f Hf.
  destruct (returned_finding_intent _ _ _ _ _ Hf) as [Hint Hb]. clear Hf.
  rewrite Hint. clear Hint.
  destruct f as [fl ln cd cat it base tst ms fn cl cm cx ga gc gd].
  simpl in *.
  repeat split; intros Hcat.
  - by subst cat.
  - by subst cat.
  - by subst cat.
  - subst cat. unfold classify_intent. simpl. by rewrite andb_false_r.
  - subst cat. unfold classify_intent. simpl. by rewrite andb_false_r.
  - destruct Hb as [Hb|[Hc ->]].
    + unfold base_of_category in Hb.
      destruct Hcat as [-> | ->];
        destruct Hb as [[? _]|[[? _]|[[? _]|[[? _]|[[? Hb]|[[[?|?] Hb]| ?]]]]]];
        try discriminate.
      * unfold classify_intent. simpl. by rewrite Hb.
      * destruct Hb as (b & -> & Hk). unfold classify_intent. simpl.
        unfold KNOWN_SINGLETON_BASES in Hk.
        apply elem_of_union in Hk as [->%elem_of_singleton
                                     | ->%elem_of_singleton]; reflexivity.
    + unfold fallback_category in Hc.
      destruct Hcat as [-> | ->];
        repeat (apply elem_of_cons in Hc as [Hc|Hc]; [discriminate Hc|]);
        by apply elem_of_nil in Hc.
  - subst cat. unfold classify_intent. simpl. by destruct (truthy_opt base), tst.
Qed.

(** ** Tree pass and fallback pass side by side *)

(** X6.  The option [--context-lines] reaches the fallback findings only.
    The scanner object stores the width it is given and [_add_finding]
    takes the context window with [DEFAULT_CONTEXT_LINES], so a finding of
    the tree pass always shows two lines around its own; a finding of the
    regex fallback shows the requested width.  A strict scan, which has no
    fallback, is therefore the same for every width, and two default
    scans agree on line, category, import base and scope flag of their
    findings. *)
Theorem context_lines_reach_only_fallback_findings (src : SourceFile)
    (project_pkgs : gset string) :
  Forall (λ f, context f
               = Some (get_context (text_lines src) (line f)
                                   DEFAULT_CONTEXT_LINES))
         (tree_pass src project_pkgs)
  ∧ (∀ c, Forall (λ f, context f
                       = Some (get_context (text_lines src) (line f) c))
                 (fallback_pass src project_pkgs c))
  ∧ (∀ c1 c2, scan_file src project_pkgs c1 true
              = scan_file src project_pkgs c2 true)
  ∧ (∀ c1 c2,
       brief <$> returned_findings (scan_file src project_pkgs c1 false)
       = brief <$> returned_findings (scan_file src project_pkgs c2 false)).
Proof.
  split; [|split; [|split]].
  - apply Forall_forall.
    by intros f (l & cat & base & fn & cl & -> & _)%tree_pass_table.
  - intros c. apply Forall_forall.
    by intros f (l & cat & -> & _)%fallback_pass_table.
  - intros c1 c2. unfold scan_file. by destruct (parsed src).
  - intros c1 c2. rewrite !returned_findings_split, !fmap_app. f_equal.
    unfold fallback_pass. destruct (parsed src); [|done].
    rewrite <- !list_fmap_compose. by apply list_fmap_ext.
Qed.

(** X7.  The fields [function] and [class_name] never describe an
    enclosing scope.  In the findings of [scan_file] at most one of them
    is set, and only on a test_patch_misuse finding with import base
    "unittest": the finding for a patch decorator, which carries the name
    of the decorated function or class itself. *)
Theorem scope_fields_only_on_decorator_findings (src : SourceFile)
    (project_pkgs : gset string) (context_lines : Z) (strict : bool) :
  Forall (λ f,
            (function f = None ∧ class_name f = None)
            ∨ (category f = CATEGORY_TEST_PATCH_MISUSE
               ∧ import_base f = Some "unittest"
               ∧ (function f = None ∨ class_name f = None)))
         (returned_findings
            (scan_file src project_pkgs context_lines strict)).
Proof.
  rewrite returned_findings_split. apply Forall_app_2.
  - apply Forall_forall.
    intros f (l & cat & base & fn & cl & -> & Hb & Hs)%tree_pass_table.
    simpl. destruct Hs as [[-> ->]|[-> Hs]]; [by left|]. right.
    split; [done|]. split; [|done].
    unfold base_of_category in Hb.
    destruct Hb as [[? _]|[[? _]|[[? _]|[[_ Hb]|[[? _]|[[[?|?] _]| ?]]]]]];
      try discriminate.
    done.
  - destruct strict; [constructor|]. apply Forall_forall.
    intros f (l & cat & -> & _)%fallback_pass_table. by left.
Qed.

(** X8.  A default scan extends the strict scan of the same file: its
    findings are those of the strict scan, in the same order, followed by
    the findings of the regex fallback.  Each of the latter has no import
    base, function or class name, stands for a regex hit, and has a key
    (line, category) that no finding of the strict scan has.  A file that
    does not parse yields no finding at all, whatever its text. *)
Theorem default_scan_extends_strict_scan (src : SourceFile)
    (project_pkgs : gset string) (context_lines : Z) :
  let strict_findings :=
    returned_findings (scan_file src project_pkgs context_lines true) in
  returned_findings (scan_file src project_pkgs context_lines false)
  = strict_findings ++ fallback_pass src project_pkgs context_lines
  ∧ Forall (λ g, import_base g = None ∧ function g = None
                 ∧ class_name g = None
                 ∧ key g ∈ regex_fallback (text_lines src)
                 ∧ key g ∉ seen_keys strict_findings)
           (fallback_pass src project_pkgs context_lines)
  ∧ (parsed src = None
     → returned_findings (scan_file src project_pkgs context_lines false)
       = []).
Proof.
  intros strict_findings. unfold strict_findings.
  rewrite !returned_findings_split, app_nil_r.
  split; [done|]. split.
  - apply Forall_forall.
    by intros g (l & cat & -> & _ & Hin & Hseen)%fallback_pass_table.
  - intros Hp. unfold tree_pass, fallback_pass. by rewrite Hp.
Qed.

Lemma default_scan_extends_strict_scan_witness :
  parsed unparsable = None
  ∧ returned_findings (scan_file unparsable owned 2 false) = [].
Proof.
  split; [reflexivity|].
  exact (proj2 (proj2 (default_scan_extends_strict_scan unparsable owned 2))
           eq_refl).
Defined.

Lemma with_key_fallback (p : path) (tl : list string) (c : Z)
    (hits : list (Z * string)) (k : Z * string) :
  NoDup hits → k ∈ hits →
  with_key k ((λ h, fallback_finding p tl c h.1 h.2) <$> hits)
  = [fallback_finding p tl c k.1 k.2].
Proof.
  intros Hnd Hk. induction hits as [|h hits IH]; [by apply elem_of_nil in Hk|].
  apply NoDup_cons in Hnd as [Hh Hnd]. unfold with_key in *.
  rewrite fmap_cons.
  destruct (decide (h = k)) as [->|Hne].
  - rewrite filter_cons_True by (by destruct k).
    f_equal. apply filter_none, Forall_fmap, Forall_forall.
    intros [l cat] Hin Heq. unfold key in Heq. simpl in Heq. by subst k.
  - rewrite filter_cons_False.
    + apply IH; [done|]. by apply elem_of_cons in Hk as [->|Hk].
    + unfold key. simpl. destruct h, k. simpl. congruence.
Qed.

(** X9.  A key flagged by the regex fallback alone is reported exactly
    once.  When a line and category are a regex hit on a file that parses
    and the tree pass has no finding with that key, the default scan
    returns exactly one finding with the key, the minimal finding built
    for the hit. *)
Theorem regex_only_key_reported_once (src : SourceFile)
    (project_pkgs : gset string) (context_lines : Z) (tree : node)
    (k : Z * string) :
  parsed src = Some tree →
  k ∈ regex_fallback (text_lines src) →
  k ∉ seen_keys (tree_pass src project_pkgs) →
  with_key k (returned_findings
                (scan_file src project_pkgs context_lines false))
  = [fallback_finding (src_path src) (text_lines src) context_lines k.1 k.2].
Proof.
  intros Hp Hk Hseen. rewrite returned_findings_split, with_key_app.
  assert (Htree : with_key k (tree_pass src project_pkgs) = []).
  { unfold with_key. apply filter_none, Forall_forall. intros f Hf Hkey.
    apply Hseen. unfold seen_keys. apply elem_of_list_to_set.
    apply list_elem_of_fmap. exists f. by rewrite <- Hkey. }
  rewrite Htree. simpl. unfold fallback_pass. rewrite Hp.
  apply with_key_fallback.
  - apply NoDup_filter, sorted_keys_NoDup, regex_fallback_from_sorted.
  - by apply list_elem_of_filter.
Qed.

Lemma regex_only_key_reported_once_witness :
  parsed nested_sys_modules_literal
  = Some (tree_of nested_sys_modules_literal)
  ∧ (3, CATEGORY_SYS_MODULES)
    ∈ regex_fallback (text_lines nested_sys_modules_literal)
  ∧ ((3, CATEGORY_SYS_MODULES)
     ∉ seen_keys (tree_pass nested_sys_modules_literal owned))
  ∧ with_key (3, CATEGORY_SYS_MODULES)
      (returned_findings (scan_file nested_sys_modules_literal owned 2 false))
    = [fallback_finding (src_path nested_sys_modules_literal)
         (text_lines nested_sys_modules_literal) 2 3 CATEGORY_SYS_MODULES].
Proof.
  assert (H1 : (3, CATEGORY_SYS_MODULES)
               ∈ regex_fallback (text_lines nested_sys_modules_literal))
    by decide_by_compute.
  assert (H2 : (3, CATEGORY_SYS_MODULES)
               ∉ seen_keys (tree_pass nested_sys_modules_literal owned))
    by decide_by_compute.
  split; [reflexivity|]. split; [exact H1|]. split; [exact H2|].
  exact (regex_only_key_reported_once nested_sys_modules_literal owned 2 _
           (3, CATEGORY_SYS_MODULES) eq_refl H1 H2).
Defined.

(** ** What the visitor methods report *)

Section VisitorMethods.
Variable file_path : path.
Variable lines : list string.
Variable resolver : ImportResolver.
Variable project_pkgs : gset string.

Local Abbreviation mk := (make_finding file_path lines).
Local Abbreviation target_findings_ :=
  (target_findings file_path lines resolver project_pkgs).
Local Abbreviation call_findings_ :=
  (call_findings file_path lines resolver project_pkgs).
Local Abbreviation mfindings :=
  (method_findings file_path lines resolver project_pkgs).
Local Abbreviation tfindings :=
  (tree_findings file_path lines resolver project_pkgs).

Lemma target_builtins_findings (lineno l l' : Z) (a : string) :
  target_findings_ lineno (Attribute l (Name l' "builtins") a)
  = [mk lineno CATEGORY_BUILTINS (Some "builtins") true None None].
Proof. reflexivity. Qed.

(** X10.  The scanner does not look into a definition.  The findings of
    the tree pass on a function or class definition are the findings for
    its patch decorators and nothing else, whatever the body, the
    arguments, the base classes or the decorator arguments contain; on an
    [async def] there are none at all, since the scanner has no
    [visit_AsyncFunctionDef] and its decorators are never examined. *)
Theorem definitions_are_not_entered (l : Z) (name : string) (args : node)
    (body decs : list node) (ret : option node) (tps bases kws : list node) :
  tfindings (FunctionDef l name args body decs ret tps)
  = decs ≫= (λ dec,
       if _is_patch_decorator dec resolver
       then [mk (lineno_of dec) CATEGORY_TEST_PATCH_MISUSE (Some "unittest")
                true (Some name) None]
       else [])
  ∧ tfindings (ClassDef l name bases kws body decs tps)
    = decs ≫= (λ dec,
         if _is_patch_decorator dec resolver
         then [mk (lineno_of dec) CATEGORY_TEST_PATCH_MISUSE (Some "unittest")
                  true None (Some name)]
         else [])
  ∧ tfindings (AsyncFunctionDef l name args body decs ret tps) = [].
Proof.
  rewrite !tree_findings_unfold, !method_findings_cases. unfold below. simpl.
  rewrite !app_nil_r. split; [|split]; [| |done].
  - apply list_bind_ext; [|done]. intros dec.
    apply decorator_findings_cases.
  - apply list_bind_ext; [|done]. intros dec.
    apply decorator_findings_cases.
Qed.

(** X11.  One assignment target yields at most two findings, all at the
    line of the statement.  The blocks of [_handle_assignment] end in
    [continue], so the first rule that fires is the only one: a target
    [sys.modules[...]], [os.environ[...]] or [builtins.X] yields exactly
    its own finding even when the module is imported in the file.  Two
    findings occur only as the pair attribute_reassignment_on_import,
    import_time_side_effect with one import base, near an import. *)
Theorem assignment_target_first_rule_wins (lineno : Z) (t : node) :
  let fs := target_findings_ lineno t in
  (List.length fs ≤ 2)%nat
  ∧ Forall (λ f, line f = lineno) fs
  ∧ (_is_sys_modules t = true
     → fs = [mk lineno CATEGORY_SYS_MODULES (Some "sys") true None None])
  ∧ (_is_os_environ t = true
     → fs = [mk lineno CATEGORY_GLOBAL_ENV (Some "os") true None None])
  ∧ (∀ l l' a, t = Attribute l (Name l' "builtins") a
     → fs = [mk lineno CATEGORY_BUILTINS (Some "builtins") true None None])
  ∧ (List.length fs = 2%nat
     → _near_import lineno (import_lines resolver) = true
       ∧ ∃ base,
           fs = [ mk lineno CATEGORY_ATTRIBUTE_REASSIGNMENT (Some base)
                     true None None;
                  mk lineno CATEGORY_IMPORT_TIME (Some base) true None None ]).
Proof.
  intros fs. unfold fs. clear fs.
  split; [|split; [|split; [|split; [|split]]]].
  - destruct (target_findings_cases file_path lines resolver project_pkgs
                lineno t)
      as [[_ ->]|[[_ ->]|[[_ ->]|[(b & _ & ->)|[(a & b & _ & _ & ->)
          |[(l & id & m & b & _ & _ & _ & ->)| ->]]]]]]; simpl; try lia.
    destruct (_near_import _ _); simpl; lia.
  - apply Forall_forall. intros f Hf. by eapply target_findings_line.
  - apply target_sys_modules_findings.
  - apply target_os_environ_findings.
  - intros l l' a ->. apply target_builtins_findings.
  - destruct (target_findings_cases file_path lines resolver project_pkgs
                lineno t)
      as [[_ ->]|[[_ ->]|[[_ ->]|[(b & _ & ->)|[(a & b & _ & _ & ->)
          |[(l & id & m & b & _ & _ & _ & ->)| ->]]]]]]; simpl;
      try discriminate.
    destruct (_near_import _ _); simpl; [|discriminate].
    intros _. split; [done|]. by exists b.
Qed.

(** X12.  The findings of a [del] statement: one sys_modules_assignment
    finding, at the line of the statement, for each target of the form
    [sys.modules[...]], in order, and nothing for any other target;
    deleting an entry of [os.environ] is not reported. *)
Theorem del_statement_findings (lineno : Z) (targets : list node) :
  mfindings (Delete lineno targets)
  = (λ _, mk lineno CATEGORY_SYS_MODULES (Some "sys") true None None)
    <$> filter (λ t, _is_sys_modules t = true) targets.
Proof.
  rewrite method_findings_cases.
  induction targets as [|t ts IH]; [done|].
  rewrite bind_cons, IH, delete_findings_cases.
  destruct (_is_sys_modules t) eqn:E.
  - by rewrite filter_cons_True.
  - rewrite filter_cons_False; [done|]. by rewrite E.
Qed.

Lemma is_patch_name_redundant (mapped : string) :
  PyStr.endswith mapped ".patch" || String.eqb mapped "unittest.mock.patch"
  = PyStr.endswith mapped ".patch".
Proof.
  destruct (String.eqb mapped "unittest.mock.patch") eqn:E.
  - apply String.eqb_eq in E as ->. reflexivity.
  - apply orb_false_r.
Qed.
End VisitorMethods.

Lemma assignment_target_first_rule_wins_witness :
  let t := sys_modules_at 2 in
  let src := chained_sys_modules in
  _is_sys_modules t = true
  ∧ target_findings (src_path src) (text_lines src) (resolver_of (tree_of src))
      owned 2 t
    = [make_finding (src_path src) (text_lines src) 2 CATEGORY_SYS_MODULES
         (Some "sys") true None None].
Proof.
  intros t src. split; [reflexivity|].
  exact (proj1 (proj2 (proj2
           (assignment_target_first_rule_wins (src_path src) (text_lines src)
              (resolver_of (tree_of src)) owned 2 t))) eq_refl).
Defined.

(** X13.  What counts as a patch.  A name is taken for
    [unittest.mock.patch] when the import table maps it to a dotted path
    ending in [.patch], and, when the table has no entry or an empty one
    for it, when the name itself is [patch].  The second test of the
    code, equality with [unittest.mock.patch], changes nothing.  So a bare
    [import patch] makes the name [patch] no patch, while a name [patch]
    imported nowhere is one. *)
Theorem patch_name_rule (name : string) (resolver : ImportResolver) :
  _is_patch_name name resolver
  = match alias_to_module resolver !! name with
    | Some (String c mapped) => PyStr.endswith (String c mapped) ".patch"
    | _ => String.eqb name "patch"
    end.
Proof.
  unfold _is_patch_name. destruct (alias_to_module resolver !! name) as [m|];
    [|done].
  destruct m as [|c m]; [done|]. apply is_patch_name_redundant.
Qed.

(** ** Module-level statements in the output of [scan_file] *)

Lemma tree_pass_returned (src : SourceFile) (pkgs : gset string) (c : Z)
    (strict : bool) (f : Finding) :
  f ∈ tree_pass src pkgs → f ∈ returned_findings (scan_file src pkgs c strict).
Proof. rewrite returned_findings_split, elem_of_app. by left. Qed.

Lemma method_finding_returned (src : SourceFile) (pkgs : gset string) (c : Z)
    (strict : bool) (tree n : node) (f : Finding) :
  parsed src = Some tree → scanned tree n →
  f ∈ method_findings (src_path src) (text_lines src) (resolver_of tree) pkgs n
  → f ∈ returned_findings (scan_file src pkgs c strict).
Proof.
  intros Hp Hn Hf. apply tree_pass_returned. unfold tree_pass. rewrite Hp.
  apply elem_of_tree_findings. by exists n.
Qed.

(** X14.  Assignments the scanner reaches are reported by their syntax
    alone.  For a statement [n] the scanner visits (one not inside a
    function or class definition) with a target of the form
    [sys.modules[...]], [os.environ[...]] or [builtins.X], in a plain,
    annotated or augmented assignment, what [scan_file] returns, whenever
    it returns, holds, in strict and in default mode, the finding of that
    category at the line of the statement, whether or not the module is
    imported in the file. *)
Theorem module_level_global_assignments_reported (src : SourceFile)
    (project_pkgs : gset string) (context_lines : Z) (strict : bool)
    (tree n t : node) (log : list log_record) (out : list Finding) :
  parsed src = Some tree →
  scanned tree n →
  t ∈ assignment_targets n →
  scan_file src project_pkgs context_lines strict = (log, Returned out) →
  let mk cat base :=
    make_finding (src_path src) (text_lines src) (lineno_of n) cat (Some base)
                 true None None in
  (_is_sys_modules t = true → mk CATEGORY_SYS_MODULES "sys" ∈ out)
  ∧ (_is_os_environ t = true → mk CATEGORY_GLOBAL_ENV "os" ∈ out)
  ∧ ((∃ l l' a, t = Attribute l (Name l' "builtins") a)
     → mk CATEGORY_BUILTINS "builtins" ∈ out).
Proof.
  intros Hp Hn Ht Hscan mk.
  assert (Hout : out = returned_findings
                         (scan_file src project_pkgs context_lines strict))
    by (by rewrite Hscan).
  assert (Hin : ∀ f, f ∈ target_findings (src_path src) (text_lines src)
                           (resolver_of tree) project_pkgs (lineno_of n) t
                     → f ∈ out).
  { intros f Hf. rewrite Hout.
    apply (method_finding_returned _ _ _ _ tree n); [done..|].
    rewrite (assignment_targets_lineno _ _ _ _ n t Ht).
    apply list_elem_of_bind. eauto. }
  split; [|split].
  - intros H. apply Hin. rewrite target_sys_modules_findings by done.
    apply list_elem_of_here.
  - intros H. apply Hin. rewrite target_os_environ_findings by done.
    apply list_elem_of_here.
  - intros (l & l' & a & ->). apply Hin. apply list_elem_of_here.
Qed.

Lemma module_level_global_assignments_reported_witness :
  let n := Assign 3 [Attribute 3 (Name 3 "builtins") "open"]
             (Other [Other [Other []; Other []]; Fixtures.const]) in
  let t := Attribute 3 (Name 3 "builtins") "open" in
  let f := make_finding (src_path Fixtures.d_builtins)
             (text_lines Fixtures.d_builtins) (lineno_of n) CATEGORY_BUILTINS
             (Some "builtins") true None None in
  parsed Fixtures.d_builtins = Some (tree_of Fixtures.d_builtins)
  ∧ scanned (tree_of Fixtures.d_builtins) n
  ∧ t ∈ assignment_targets n
  ∧ scan_file Fixtures.d_builtins ∅ 2 true = ([], Returned [f])
  ∧ (∃ l l' a, t = Attribute l (Name l' "builtins") a)
  ∧ f ∈ [f].
Proof.
  intros n t f.
  assert (Hscan : scan_file Fixtures.d_builtins ∅ 2 true
                  = ([], Returned [f])) by (vm_compute; reflexivity).
  assert (Hn : scanned (tree_of Fixtures.d_builtins) n).
  { apply (scanned_child _ (tree_of Fixtures.d_builtins)).
    - apply scanned_root.
    - reflexivity.
    - simpl. apply list_elem_of_further, list_elem_of_here. }
  assert (Ht : t ∈ assignment_targets n) by apply list_elem_of_here.
  assert (Hb : ∃ l l' a, t = Attribute l (Name l' "builtins") a)
    by (by exists 3, 3, "open").
  split; [reflexivity|]. split; [exact Hn|]. split; [exact Ht|].
  split; [exact Hscan|]. split; [exact Hb|].
  exact (proj2 (proj2
           (module_level_global_assignments_reported Fixtures.d_builtins ∅ 2
              true _ n t [] [f] eq_refl Hn Ht Hscan)) Hb).
Defined.

(** X15.  Calls the scanner reaches are reported rule by rule.  The four
    tests of [visit_Call] are independent [if]s.  For a call the scanner
    visits, what [scan_file] returns, whenever it returns, holds a
    global_env_mutation finding
    for [os.environ.update(...)] and [os.environ.setdefault(...)], a
    setattr_on_import_or_class finding for every [setattr(...)] with at
    least one positional argument, whatever the first argument is, and
    for every [builtins.setattr(...)], and a test_patch_misuse finding for
    every call of what counts as a patch; all at the line of the call. *)
Theorem module_level_calls_reported (src : SourceFile)
    (project_pkgs : gset string) (context_lines : Z) (strict : bool)
    (tree : node) (lineno : Z) (func : node) (args keywords : list node)
    (log : list log_record) (out : list Finding) :
  parsed src = Some tree →
  scanned tree (Call lineno func args keywords) →
  scan_file src project_pkgs context_lines strict = (log, Returned out) →
  let mk cat base :=
    make_finding (src_path src) (text_lines src) lineno cat base
                 true None None in
  (is_environ_call func = true → mk CATEGORY_GLOBAL_ENV (Some "os") ∈ out)
  ∧ ((∃ l, func = Name l "setattr") → args ≠ []
     → ∃ base, mk CATEGORY_SETATTR base ∈ out)
  ∧ ((∃ l v a, func = Attribute l v a)
     → dotted_name_from_attribute func = Some "builtins.setattr"
     → mk CATEGORY_SETATTR (Some "builtins") ∈ out)
  ∧ (_is_patch_call func (resolver_of tree) = true
     → mk CATEGORY_TEST_PATCH_MISUSE (Some "unittest") ∈ out).
Proof.
  intros Hp Hn Hscan mk.
  assert (Hout : out = returned_findings
                         (scan_file src project_pkgs context_lines strict))
    by (by rewrite Hscan).
  assert (Hin : ∀ f, f ∈ call_findings (src_path src) (text_lines src)
                           (resolver_of tree) project_pkgs lineno func args
                     → f ∈ out).
  { intros f Hf. rewrite Hout.
    apply (method_finding_returned _ _ _ _ tree
             (Call lineno func args keywords)); [done..|].
    by rewrite method_findings_cases. }
  split; [|split; [|split]].
  - intros H. apply Hin. rewrite call_findings_split.
    rewrite call_os_environ_findings, H, !elem_of_app. do 3 right.
    apply list_elem_of_here.
  - intros [l ->] Hargs. destruct args as [|target rest]; [done|].
    assert (∃ base,
      findings (call_setattr (src_path src) (text_lines src)
                  (resolver_of tree) project_pkgs lineno (Name l "setattr")
                  (target :: rest) true None None (mkScanner [] []))
      = [mk CATEGORY_SETATTR base]) as [base Hbase].
    { unfold call_setattr. simpl.
      destruct (if truthy_opt _ then _ else _) as [external base].
      by exists base. }
    exists base. apply Hin. rewrite call_findings_split, Hbase, !elem_of_app.
    left. apply list_elem_of_here.
  - intros (l & v & a & ->) Hd. apply Hin.
    rewrite call_findings_split, !elem_of_app. right. left.
    unfold call_builtins_setattr. rewrite Hd. apply list_elem_of_here.
  - intros H. apply Hin. rewrite call_findings_split.
    rewrite call_patch_findings, H, !elem_of_app. right. right. left.
    apply list_elem_of_here.
Qed.

Lemma module_level_calls_reported_witness :
  let func :=
    Attribute 4 (Attribute 4 (Name 4 "os") "environ") "update" in
  let args := [Other [Fixtures.const; Fixtures.const]] in
  let out := returned_findings (scan_file Fixtures.f_env_mut ∅ 2 true) in
  parsed Fixtures.f_env_mut = Some (tree_of Fixtures.f_env_mut)
  ∧ scanned (tree_of Fixtures.f_env_mut) (Call 4 func args [])
  ∧ scan_file Fixtures.f_env_mut ∅ 2 true = ([], Returned out)
  ∧ is_environ_call func = true
  ∧ make_finding (src_path Fixtures.f_env_mut) (text_lines Fixtures.f_env_mut)
      4 CATEGORY_GLOBAL_ENV (Some "os") true None None
    ∈ out.
Proof.
  intros func args out.
  assert (Hscan : scan_file Fixtures.f_env_mut ∅ 2 true = ([], Returned out))
    by (vm_compute; reflexivity).
  assert (Hn : scanned (tree_of Fixtures.f_env_mut) (Call 4 func args [])).
  { apply (scanned_child _ (Fixtures.expr_stmt (Call 4 func args []))).
    - apply (scanned_child _ (tree_of Fixtures.f_env_mut)).
      + apply scanned_root.
      + reflexivity.
      + simpl. do 2 apply list_elem_of_further. apply list_elem_of_here.
    - reflexivity.
    - apply list_elem_of_here. }
  split; [reflexivity|]. split; [exact Hn|]. split; [exact Hscan|].
  split; [reflexivity|].
  exact (proj1 (module_level_calls_reported Fixtures.f_env_mut ∅ 2 true
                  _ 4 func args [] [] out eq_refl Hn Hscan) eq_refl).
Defined.

(** ** The import resolver *)

Lemma inside_inv (root n : node) :
  inside root n → n = root ∨ ∃ c, c ∈ children root ∧ inside c n.
Proof.
  induction 1 as [|p c Hp IH Hc]; [by left|]. right.
  destruct IH as [->|(c0 & Hc0 & Hin)].
  - exists c. split; [done|]. constructor.
  - exists c0. split; [done|]. by eapply inside_child.
Qed.

Lemma import_alias_fold (names : list alias) (r : ImportResolver) :
  import_lines (fold_left import_alias names r) = import_lines r
  ∧ ∀ a m, alias_to_module (fold_left import_alias names r) !! a = Some m →
      (∃ al, al ∈ names
             ∧ a = PyStr.or_else (alias_asname al)
                     (PyStr.last_component (alias_name al))
             ∧ m = alias_name al)
      ∨ alias_to_module r !! a = Some m.
Proof.
  revert r. induction names as [|al names IH]; intros r; simpl.
  - split; [done|]. auto.
  - destruct (IH (import_alias r al)) as [Hl Ha]. split; [by rewrite Hl|].
    intros a m [(al' & Hin & ? & ?)|Hm]%Ha.
    + left. exists al'. split; [by apply list_elem_of_further|]. done.
    + unfold import_alias in Hm. simpl in Hm.
      apply lookup_insert_Some in Hm as [[<- <-]|[_ Hm]]; [|by right].
      left. exists al. split; [apply list_elem_of_here|]. done.
Qed.

Lemma import_from_alias_fold (module : string) (names : list alias)
    (r : ImportResolver) :
  import_lines (fold_left (import_from_alias module) names r) = import_lines r
  ∧ ∀ a m,
      alias_to_module (fold_left (import_from_alias module) names r) !! a
      = Some m →
      (∃ al, al ∈ names
             ∧ a = PyStr.or_else (alias_asname al) (alias_name al)
             ∧ m = (if PyStr.truthy module
                    then module +:+ "." +:+ alias_name al
                    else alias_name al))
      ∨ alias_to_module r !! a = Some m.
Proof.
  revert r. induction names as [|al names IH]; intros r; simpl.
  - split; [done|]. auto.
  - destruct (IH (import_from_alias module r al)) as [Hl Ha].
    split; [by rewrite Hl|].
    intros a m [(al' & Hin & ? & ?)|Hm]%Ha.
    + left. exists al'. split; [by apply list_elem_of_further|]. done.
    + unfold import_from_alias in Hm. simpl in Hm.
      apply lookup_insert_Some in Hm as [[<- <-]|[_ Hm]]; [|by right].
      left. exists al. split; [apply list_elem_of_here|]. done.
Qed.

Section ResolverInvariant.
Variable root : node.

(** Every entry of the tables is accounted for by an import in [root]. *)
Local Abbreviation accounted := (λ r : ImportResolver,
  (∀ li, li ∈ import_lines r →
         ∃ n, inside root n ∧ is_import n = true ∧ lineno_of n = li)
  ∧ (∀ a m, alias_to_module r !! a = Some m →
            ∃ n, inside root n ∧ binds n a m)).

Lemma resolver_visit_accounted (c : node) :
  inside root c → ∀ r, accounted r → accounted (resolver_visit c r).
Proof.
  induction c as [c IH] using node_children_ind. intros Hc r Hr.
  assert (Hgen : ∀ r, accounted r →
                      accounted (generic_visit resolver_visit c r)).
  { intros r' Hr'. rewrite generic_visit_children.
    apply (visit_list_preserves resolver_visit accounted); [|done].
    rewrite Forall_forall in IH. apply Forall_forall.
    intros c' Hc' s Hs. apply IH; [done| |done].
    by eapply inside_child. }
  rewrite resolver_visit_unfold.
  destruct c; try (by apply Hgen); apply Hgen; clear Hgen IH.
  - destruct (import_alias_fold names
                (mkResolver (alias_to_module r) (alias_is_from_object r)
                            ({[lineno]} ∪ import_lines r))) as [Hl Ha].
    destruct Hr as [Hr1 Hr2]. unfold visit_Import. split.
    + intros li. rewrite Hl. simpl.
      intros [->%elem_of_singleton|Hli]%elem_of_union; [|by apply Hr1].
      by exists (Import lineno names).
    + intros a m [Hb|Hm]%Ha; [|by apply Hr2].
      by exists (Import lineno names).
  - destruct (import_from_alias_fold (PyStr.or_else module EmptyString) names
                (mkResolver (alias_to_module r) (alias_is_from_object r)
                            ({[lineno]} ∪ import_lines r))) as [Hl Ha].
    destruct Hr as [Hr1 Hr2]. unfold visit_ImportFrom. split.
    + intros li. rewrite Hl. simpl.
      intros [->%elem_of_singleton|Hli]%elem_of_union; [|by apply Hr1].
      by exists (ImportFrom lineno module names).
    + intros a m [Hb|Hm]%Ha; [|by apply Hr2].
      by exists (ImportFrom lineno module names).
Qed.
End ResolverInvariant.

Lemma import_lines_mono (c : node) :
  ∀ r, import_lines r ⊆ import_lines (resolver_visit c r).
Proof.
  induction c as [c IH] using node_children_ind. intros r.
  assert (Hgen : ∀ r', import_lines r ⊆ import_lines r' →
            import_lines r ⊆ import_lines (generic_visit resolver_visit c r')).
  { intros r' Hr'. rewrite generic_visit_children.
    apply (visit_list_preserves resolver_visit
             (λ s, import_lines r ⊆ import_lines s)); [|done].
    eapply Forall_impl; [exact IH|]. simpl. intros c' Hc' s Hs.
    etrans; [exact Hs|]. apply Hc'. }
  rewrite resolver_visit_unfold.
  destruct c; try (by apply Hgen); apply Hgen; clear Hgen IH.
  - unfold visit_Import.
    rewrite (proj1 (import_alias_fold names _)). simpl. set_solver.
  - unfold visit_ImportFrom.
    rewrite (proj1 (import_from_alias_fold _ names _)). simpl. set_solver.
Qed.

Lemma visit_list_import_line (li : Z) (l : list node) (c : node) :
  c ∈ l → (∀ r, li ∈ import_lines (resolver_visit c r)) →
  ∀ r, li ∈ import_lines (visit_list resolver_visit l r).
Proof.
  intros Hc Hli. induction l as [|c' l IH]; [by apply elem_of_nil in Hc|].
  intros r. unfold visit_list in *. simpl.
  apply elem_of_cons in Hc as [<-|Hc].
  - clear IH. generalize (Hli r). generalize (resolver_visit c r).
    induction l as [|c'' l IH]; intros r' Hr'; [done|]. simpl.
    apply IH. by apply import_lines_mono.
  - by apply IH.
Qed.

Lemma import_line_recorded (root : node) :
  ∀ n, inside root n → is_import n = true →
       ∀ r, lineno_of n ∈ import_lines (resolver_visit root r).
Proof.
  induction root as [root IH] using node_children_ind.
  intros n [->|(c & Hc & Hin)]%inside_inv Himp r.
  - rewrite resolver_visit_unfold. destruct root; try discriminate; simpl.
    + unfold visit_Import. rewrite (proj1 (import_alias_fold names _)).
      simpl. set_solver.
    + unfold visit_ImportFrom.
      rewrite (proj1 (import_from_alias_fold _ names _)). simpl. set_solver.
  - rewrite Forall_forall in IH.
    assert (Hgen : ∀ r', lineno_of n
              ∈ import_lines (generic_visit resolver_visit root r')).
    { intros r'. rewrite generic_visit_children.
      apply (visit_list_import_line _ _ c Hc). intros r''. by apply IH. }
    rewrite resolver_visit_unfold. destruct root; apply Hgen.
Qed.

Lemma alias_table_accounted (root : node) (a m : string) :
  alias_to_module (resolver_of root) !! a = Some m →
  ∃ n, inside root n ∧ binds n a m.
Proof.
  assert (Hacc := resolver_visit_accounted root root (inside_root root)
                    resolver_init).
  simpl in Hacc. destruct Hacc as [_ H2]; [|by apply H2].
  split; [by intros li ?%elem_of_empty|]. intros a' m' Hm.
  by rewrite lookup_empty in Hm.
Qed.

(** X16.  The tables of the import resolver and the import statements of
    the file.  A line is in [import_lines] exactly when an [import] or
    [from ... import] statement stands on it, anywhere in the tree: at
    module level, in a function body, in a class body, under an [if] or a
    [try].  Every entry of [alias_to_module] is the binding of one alias
    of such a statement: the [as] name or, failing that, the last
    component of the dotted path for [import], the imported name for
    [from ... import], mapped to the full dotted path. *)
Theorem resolver_tables_come_from_imports (root : node) :
  (∀ li, li ∈ import_lines (resolver_of root)
         ↔ ∃ n, inside root n ∧ is_import n = true ∧ lineno_of n = li)
  ∧ (∀ a m, alias_to_module (resolver_of root) !! a = Some m
            → ∃ n, inside root n ∧ binds n a m).
Proof.
  assert (Hacc := resolver_visit_accounted root root (inside_root root)
                    resolver_init).
  simpl in Hacc. destruct Hacc as [H1 H2].
  { split; [by intros li ?%elem_of_empty|]. intros a m Hm.
    by rewrite lookup_empty in Hm. }
  split; [|exact H2].
  intros li. split; [apply H1|].
  intros (n & Hn & Himp & <-). by apply import_line_recorded.
Qed.

Lemma resolver_tables_come_from_imports_witness :
  alias_to_module (resolver_of (tree_of requests_api)) !! "requests"
  = Some "requests"
  ∧ ∃ n, inside (tree_of requests_api) n ∧ binds n "requests" "requests".
Proof.
  assert (H : alias_to_module (resolver_of (tree_of requests_api))
              !! "requests" = Some "requests") by (vm_compute; reflexivity).
  split; [exact H|].
  exact (proj2 (resolver_tables_come_from_imports (tree_of requests_api))
           "requests" "requests" H).
Defined.

Lemma is_alias_external_Some (a : string) (r : ImportResolver)
    (pkgs : gset string) (base : string) :
  (is_alias_external a r pkgs).2 = Some base →
  ∃ m, alias_to_module r !! a = Some m ∧ base = PyStr.first_component m.
Proof.
  unfold is_alias_external, base_module_name.
  destruct (alias_to_module r !! a) as [m|]; [|discriminate].
  destruct (PyStr.truthy m); simpl; [|discriminate].
  intros [= <-]. by exists m.
Qed.

Lemma attribute_finding_alias (file_path : path) (lines : list string)
    (r : ImportResolver) (pkgs : gset string) (n : node) (f : Finding) :
  f ∈ method_findings file_path lines r pkgs n →
  category f = CATEGORY_ATTRIBUTE_REASSIGNMENT
  ∨ category f = CATEGORY_IMPORT_TIME →
  ∃ a m, alias_to_module r !! a = Some m
         ∧ import_base f = Some (PyStr.first_component m).
Proof.
  intros Hf Hcat.
  assert (Htarget : ∀ lineno t,
    f ∈ target_findings file_path lines r pkgs lineno t →
    ∃ a m, alias_to_module r !! a = Some m
           ∧ import_base f = Some (PyStr.first_component m)).
  { intros lineno t Ht.
    destruct (target_findings_cases file_path lines r pkgs lineno t)
      as [[_ H]|[[_ H]|[[_ H]|[(b & _ & H)|[(a & b & _ & Hb & H)
          |[(l & id & m & b & _ & Hm & Hb & H)|H]]]]]];
      rewrite H in Ht; clear H.
    - apply list_elem_of_singleton in Ht as ->.
      by destruct Hcat as [Hcat|Hcat].
    - apply list_elem_of_singleton in Ht as ->.
      by destruct Hcat as [Hcat|Hcat].
    - apply list_elem_of_singleton in Ht as ->.
      by destruct Hcat as [Hcat|Hcat].
    - apply list_elem_of_singleton in Ht as ->.
      by destruct Hcat as [Hcat|Hcat].
    - apply is_alias_external_Some in Hb as (m & Hm & ->).
      exists a, m. split; [done|].
      apply elem_of_cons in Ht as [->|Ht]; [done|].
      destruct (_near_import _ _); [|by apply elem_of_nil in Ht].
      by apply list_elem_of_singleton in Ht as ->.
    - apply list_elem_of_singleton in Ht as ->. exists id, m.
      split; [done|]. simpl. rewrite <- Hb. unfold base_module_name in *.
      by destruct (PyStr.truthy m).
    - by apply elem_of_nil in Ht. }
  rewrite method_findings_cases in Hf.
  destruct n; try (by apply elem_of_nil in Hf).
  - apply call_findings_shape in Hf as (cat & base & -> & Hc). simpl in Hcat.
    destruct Hcat as [->| ->], Hc as [?|[?|?]]; discriminate.
  - apply list_elem_of_bind in Hf as (t & Hf & _). by eapply Htarget.
  - apply list_elem_of_bind in Hf as (t & Hf & _). by eapply Htarget.
  - apply list_elem_of_bind in Hf as (t & Hf & _). by eapply Htarget.
  - apply list_elem_of_bind in Hf as (t & Hf & _).
    rewrite delete_findings_cases in Hf.
    destruct (_is_sys_modules t); [|by apply elem_of_nil in Hf].
    apply list_elem_of_singleton in Hf as ->.
    by destruct Hcat as [Hcat|Hcat].
  - apply list_elem_of_bind in Hf as (t & Hf & _).
    rewrite decorator_findings_cases in Hf.
    destruct (_is_patch_decorator t r); [|by apply elem_of_nil in Hf].
    apply list_elem_of_singleton in Hf as ->.
    by destruct Hcat as [Hcat|Hcat].
  - apply list_elem_of_bind in Hf as (t & Hf & _).
    rewrite decorator_findings_cases in Hf.
    destruct (_is_patch_decorator t r); [|by apply elem_of_nil in Hf].
    apply list_elem_of_singleton in Hf as ->.
    by destruct Hcat as [Hcat|Hcat].
Qed.

Lemma binds_is_import (n : node) (a m : string) :
  binds n a m → is_import n = true.
Proof. by destruct n. Qed.

(** X17.  An attribute_reassignment_on_import or import_time_side_effect
    finding always goes back to an import statement of the same file: its
    import base is the first component of the module path some [import]
    or [from ... import] statement in the file, at any depth, binds.  A
    file without import statements has no finding of these two
    categories. *)
Theorem attribute_findings_resolve_through_imports (src : SourceFile)
    (project_pkgs : gset string) (context_lines : Z) (strict : bool)
    (tree : node) (f : Finding) :
  parsed src = Some tree →
  f ∈ returned_findings (scan_file src project_pkgs context_lines strict) →
  category f = CATEGORY_ATTRIBUTE_REASSIGNMENT
  ∨ category f = CATEGORY_IMPORT_TIME →
  ∃ n a m, inside tree n ∧ is_import n = true ∧ binds n a m
           ∧ import_base f = Some (PyStr.first_component m).
Proof.
  intros Hp Hf Hcat. rewrite returned_findings_split in Hf.
  apply elem_of_app in Hf as [Hf|Hf].
  - unfold tree_pass in Hf. rewrite Hp in Hf.
    apply elem_of_tree_findings in Hf as (n0 & _ & Hf).
    destruct (attribute_finding_alias _ _ _ _ _ _ Hf Hcat)
      as (a & m & Hm & Hbase).
    destruct (alias_table_accounted tree a m Hm) as (n & Hn & Hb).
    exists n, a, m. split; [done|]. split; [|done].
    by eapply binds_is_import.
  - destruct strict; [by apply elem_of_nil in Hf|].
    apply fallback_pass_table in Hf as (l & cat & -> & Hc & _).
    simpl in Hcat. unfold fallback_category in Hc.
    destruct Hcat as [-> | ->];
      repeat (apply elem_of_cons in Hc as [Hc|Hc]; [discriminate Hc|]);
      by apply elem_of_nil in Hc.
Qed.

Lemma attribute_findings_resolve_through_imports_witness :
  let f := make_finding (src_path requests_api) (text_lines requests_api) 3
             CATEGORY_ATTRIBUTE_REASSIGNMENT (Some "requests") true None None
  in
  parsed requests_api = Some (tree_of requests_api)
  ∧ f ∈ returned_findings (scan_file requests_api owned 2 true)
  ∧ (category f = CATEGORY_ATTRIBUTE_REASSIGNMENT
     ∨ category f = CATEGORY_IMPORT_TIME)
  ∧ ∃ n a m, inside (tree_of requests_api) n ∧ is_import n = true
             ∧ binds n a m
             ∧ import_base f = Some (PyStr.first_component m).
Proof.
  intros f.
  assert (Hf : f ∈ returned_findings (scan_file requests_api owned 2 true)).
  { apply tree_pass_returned, requests_api_finding_in_pass. }
  split; [reflexivity|]. split; [exact Hf|]. split; [by left|].
  exact (attribute_findings_resolve_through_imports requests_api owned 2 true
           _ f eq_refl Hf (or_introl eq_refl)).
Defined.

(** ** Dotted names *)

Lemma dotted_loop_chain (n : node) :
  ∀ parts, dotted_loop n parts = (λ ns, ns ++ rev parts) <$> chain_names n.
Proof.
  induction n; intros parts; try reflexivity.
  - simpl. by rewrite rev_app_distr.
  - simpl. rewrite IHn. destruct (chain_names n) as [ns|]; [|done]. simpl.
    by rewrite rev_app_distr, <- app_assoc.
Qed.

(** One step of [+:+] on a non-empty left operand. *)
Ltac app_step :=
  repeat match goal with
  | |- context [String.append (String ?c ?s) ?t] =>
      change (String.append (String c s) t)
        with (String c (String.append s t))
  | |- context [String.append EmptyString ?t] =>
      change (String.append EmptyString t) with t
  end.

Lemma string_app_nil_r (s : string) : s +:+ EmptyString = s.
Proof. induction s; [done|]. app_step. by f_equal. Qed.

Lemma string_app_assoc (a b c : string) : (a +:+ b) +:+ c = a +:+ b +:+ c.
Proof. induction a; [done|]. app_step. by f_equal. Qed.

Lemma split_no_dot (id s : string) :
  PyStr.has_dot id = false →
  PyStr.split "." (id +:+ String "." s) = id :: PyStr.split "." s.
Proof.
  induction id as [|c id IH]; [done|]. simpl.
  intros [Hc Hid]%orb_false_iff. app_step. simpl. rewrite Hc.
  by rewrite IH.
Qed.

Lemma split_no_dot_only (id : string) :
  PyStr.has_dot id = false → PyStr.split "." id = [id].
Proof.
  induction id as [|c id IH]; [done|]. simpl.
  intros [Hc Hid]%orb_false_iff. rewrite Hc. by rewrite IH.
Qed.

Lemma has_dot_app_dot (id s : string) :
  PyStr.has_dot (id +:+ String "." s) = true.
Proof.
  induction id as [|c id IH]; [done|]. app_step. simpl.
  rewrite IH. apply orb_true_r.
Qed.

Lemma first_component_join (id : string) (rest : list string) :
  PyStr.has_dot id = false →
  PyStr.first_component (PyStr.join "." (id :: rest)) = id.
Proof.
  intros Hid. unfold PyStr.first_component, PyStr.join.
  destruct rest as [|x rest]; simpl.
  - by rewrite split_no_dot_only.
  - app_step. by rewrite split_no_dot.
Qed.

Lemma chain_names_nonempty (n : node) (ns : list string) :
  chain_names n = Some ns → ns ≠ [].
Proof.
  destruct n; try discriminate; simpl.
  - by intros [= <-].
  - destruct (chain_names n); [|discriminate]. simpl. intros [= <-].
    by destruct l.
Qed.

(** X18.  Dotted names and the base of an attribute target.  The loop
    of [dotted_name_from_attribute], which collects the attribute names
    from the outside in and reverses them, returns the names of the chain
    joined with dots, root first, and [None] when the chain does not
    start at a plain name.  For an attribute target the alias looked up
    in the import table is the root name of the chain, whatever the depth
    of the chain ([pkg.x] or [pkg.sub.x]); a chain rooted at a call or a
    subscript has no base alias, so such a target is never reported as an
    attribute reassignment. *)
Theorem attribute_chain_base_is_root_name :
  (∀ n, dotted_name_from_attribute n = PyStr.join "." <$> chain_names n)
  ∧ (∀ l v a id rest,
       chain_names (Attribute l v a) = Some (id :: rest) →
       PyStr.has_dot id = false →
       target_base_alias (Attribute l v a) = Some id)
  ∧ (∀ l v a,
       chain_names (Attribute l v a) = None →
       target_base_alias (Attribute l v a) = None).
Proof.
  assert (Hdotted : ∀ n, dotted_name_from_attribute n
                         = PyStr.join "." <$> chain_names n).
  { intros n. unfold dotted_name_from_attribute. rewrite dotted_loop_chain.
    destruct (chain_names n) as [ns|]; [|done]. simpl.
    by rewrite app_nil_r. }
  split; [exact Hdotted|]. split.
  - intros l v a id rest Hc Hid. unfold target_base_alias.
    rewrite Hdotted, Hc. simpl.
    assert (Hrest : rest ≠ []).
    { simpl in Hc. destruct (chain_names v) as [ns|] eqn:Hv; [|done].
      apply chain_names_nonempty in Hv. simpl in Hc. injection Hc as Hc.
      destruct ns as [|x ns]; [done|]. simpl in Hc. injection Hc as _ <-.
      by destruct ns. }
    assert (Hv : ∀ l' id', v = Name l' id' → id' = id).
    { intros l' id' ->. simpl in Hc. by injection Hc as <- _. }
    destruct rest as [|x rest]; [done|].
    set (d := id +:+ "." +:+ PyStr.join "." (x :: rest)).
    assert (Hd1 : PyStr.first_component d = id)
      by apply (first_component_join id (x :: rest) Hid).
    assert (Hd2 : PyStr.has_dot d = true)
      by apply (has_dot_app_dot id (PyStr.join "." (x :: rest))).
    assert (Hd3 : PyStr.truthy d = true) by (unfold d; by destruct id).
    rewrite Hd1, Hd2, Hd3. simpl.
    destruct v; try done. by rewrite (Hv _ _ eq_refl).
  - intros l v a Hc. unfold target_base_alias. rewrite Hdotted, Hc.
    destruct v; try done.
Qed.

Lemma attribute_chain_base_is_root_name_witness :
  let v := Attribute 3 (Name 3 "requests") "adapters" in
  chain_names (Attribute 3 v "DEFAULT_POOLSIZE")
  = Some ["requests"; "adapters"; "DEFAULT_POOLSIZE"]
  ∧ PyStr.has_dot "requests" = false
  ∧ target_base_alias (Attribute 3 v "DEFAULT_POOLSIZE") = Some "requests".
Proof.
  intros v. split; [reflexivity|]. split; [reflexivity|].
  exact (proj1 (proj2 attribute_chain_base_is_root_name)
           3 v "DEFAULT_POOLSIZE" "requests" ["adapters"; "DEFAULT_POOLSIZE"]
           eq_refl eq_refl).
Defined.

(** ** Context window and nearby comment *)

(** X19.  The context of a finding does not show line numbers of the
    file.  [get_context] numbers the lines of the window from 1, so when
    the window does not reach the first line ([n < lineno]), lines put in
    front of the file, which move the flagged line down, leave the
    context text as it is. *)
Theorem context_labels_are_relative (pre lines : list string)
    (lineno n : Z) :
  0 ≤ n → n < lineno →
  get_context (pre ++ lines) (lineno + Z.of_nat (List.length pre)) n
  = get_context lines lineno n.
Proof.
  intros Hn Hl. unfold get_context. f_equal. f_equal.
  unfold PyStr.slice, PyStr.norm_index. rewrite length_app.
  set (p := List.length pre). set (len := List.length lines).
  rewrite (Z.max_r 1 (lineno - n)) by lia.
  rewrite (Z.max_r 1 (lineno + Z.of_nat p - n)) by lia.
  assert (H1 : (lineno + Z.of_nat p - n - 1 <? 0) = false) by lia.
  assert (H2 : (lineno - n - 1 <? 0) = false) by lia.
  assert (H3 : (Z.min (Z.of_nat (p + len)) (lineno + Z.of_nat p + n) <? 0)
               = false) by (apply Z.ltb_ge; lia).
  assert (H4 : (Z.min (Z.of_nat len) (lineno + n) <? 0) = false)
    by (apply Z.ltb_ge; lia).
  rewrite H1, H2, H3, H4.
  replace (Z.to_nat (Z.min (lineno + Z.of_nat p - n - 1) (Z.of_nat (p + len))))
    with (p + Z.to_nat (Z.min (lineno - n - 1) (Z.of_nat len)))%nat by lia.
  replace (Z.to_nat (Z.min (Z.min (Z.of_nat (p + len))
                                  (lineno + Z.of_nat p + n))
                           (Z.of_nat (p + len))))
    with (p + Z.to_nat (Z.min (Z.min (Z.of_nat len) (lineno + n))
                              (Z.of_nat len)))%nat by lia.
  subst p. rewrite drop_app_add. f_equal. lia.
Qed.

Lemma context_labels_are_relative_witness :
  0 ≤ 1 ∧ 1 < 2
  ∧ get_context (["import os"; "import sys"] ++ ["a = 1"; "b = 2"; "c = 3"])
                (2 + Z.of_nat (List.length ["import os"; "import sys"])) 1
    = get_context ["a = 1"; "b = 2"; "c = 3"] 2 1.
Proof.
  assert (H1 : 0 ≤ 1) by lia. assert (H2 : 1 < 2) by lia.
  split; [exact H1|]. split; [exact H2|].
  exact (context_labels_are_relative ["import os"; "import sys"]
           ["a = 1"; "b = 2"; "c = 3"] 2 1 H1 H2).
Defined.

Lemma rev_app_acc (s acc : string) :
  String.rev_app s acc = String.rev_app s EmptyString +:+ acc.
Proof.
  revert acc. induction s as [|c s IH]; intros acc; [done|]. simpl.
  rewrite (IH (String c acc)), (IH (String c EmptyString)).
  by rewrite string_app_assoc.
Qed.

Lemma string_rev_cons (c : ascii) (s : string) :
  String.rev (String c s) = String.rev s +:+ String c EmptyString.
Proof. unfold String.rev. simpl. apply rev_app_acc. Qed.

Lemma string_rev_app (a b : string) :
  String.rev (a +:+ b) = String.rev b +:+ String.rev a.
Proof.
  induction a as [|c a IH]; [by rewrite string_app_nil_r|]. app_step.
  by rewrite !string_rev_cons, IH, string_app_assoc.
Qed.

Lemma string_rev_involutive (s : string) : String.rev (String.rev s) = s.
Proof.
  induction s as [|c s IH]; [done|].
  by rewrite string_rev_cons, string_rev_app, IH.
Qed.

(** [lstrip] removes a prefix. *)
Lemma lstrip_decomp (x : string) : ∃ w, x = w +:+ PyStr.lstrip x.
Proof.
  induction x as [|c x [w Hw]]; [by exists EmptyString|]. simpl.
  destruct (PyStr.is_space c); [|by exists EmptyString].
  exists (String c w). app_step. by f_equal.
Qed.

(** [rstrip] removes a suffix. *)
Lemma rstrip_decomp (s : string) : ∃ w, s = PyStr.rstrip s +:+ w.
Proof.
  destruct (lstrip_decomp (String.rev s)) as [w Hw].
  exists (String.rev w). unfold PyStr.rstrip.
  by rewrite <- string_rev_app, <- Hw, string_rev_involutive.
Qed.

Lemma lstrip_app (p w : string) :
  PyStr.lstrip p ≠ EmptyString → PyStr.lstrip (p +:+ w) = PyStr.lstrip p +:+ w.
Proof.
  induction p as [|c p IH]; [done|]. app_step. simpl.
  destruct (PyStr.is_space c); [exact IH|]. intros _. by app_step.
Qed.

(** A comment line or nothing. *)
Local Abbreviation hash_first := (λ s : string,
  match s with EmptyString => True | String c _ => c = "#"%char end).

Lemma strip_hash_first (s : string) :
  hash_first (PyStr.lstrip s) → hash_first (PyStr.strip s).
Proof.
  unfold PyStr.strip. destruct (rstrip_decomp s) as [w Hw].
  destruct (PyStr.lstrip (PyStr.rstrip s)) as [|c t] eqn:E; [done|].
  rewrite Hw at 1. rewrite lstrip_app by (by rewrite E). by rewrite E.
Qed.

Lemma lstrip_join_hash_first (l : list string) :
  Forall hash_first l →
  hash_first (PyStr.lstrip (PyStr.join PyStr.newline l)).
Proof.
  induction 1 as [|x l Hx Hl IH]; [done|].
  unfold PyStr.join in *. destruct l as [|y l].
  - simpl. destruct x as [|c x]; [done|]. simpl in Hx. subst c. done.
  - change (String.concat PyStr.newline (x :: y :: l))
      with (x +:+ PyStr.newline +:+ String.concat PyStr.newline (y :: l)).
    destruct x as [|c x]; [exact IH|]. simpl in Hx. subst c. done.
Qed.

Lemma collect_comments_hash_first (window_rev : list string) :
  Forall hash_first (collect_comments window_rev).
Proof.
  induction window_rev as [|l rest IH]; [constructor|]. simpl.
  destruct (PyStr.startswith (PyStr.strip l) "#") eqn:E.
  - constructor; [|done]. unfold PyStr.startswith in E.
    destruct (PyStr.strip l) as [|c s]; [done|].
    apply String.prefix_correct in E. simpl in E. by injection E as -> _.
  - destruct (String.eqb (PyStr.strip l) EmptyString) eqn:E2; [|constructor].
    constructor; [|done]. by apply String.eqb_eq in E2 as ->.
Qed.

Lemma slice_to_zero {A} (l : list A) (a : Z) : PyStr.slice l a 0 = [].
Proof.
  unfold PyStr.slice.
  assert (H : PyStr.norm_index l 0 = 0%nat)
    by (unfold PyStr.norm_index; simpl; lia).
  by rewrite H.
Qed.

(** X20.  The comment reported with a finding.  [get_nearby_comment]
    finds nothing for a finding on the first line or without a valid line
    number; it finds nothing when the line just above the finding holds
    code, whatever stands further up; and what it returns always begins
    with [#]. *)
Theorem nearby_comment_is_a_comment_block (lines : list string) (lineno : Z) :
  (lineno ≤ 1 → get_nearby_comment lines lineno = None)
  ∧ (∀ l, 2 ≤ lineno →
          lines !! Z.to_nat (lineno - 2) = Some l →
          PyStr.strip l ≠ EmptyString →
          PyStr.startswith (PyStr.strip l) "#" = false →
          get_nearby_comment lines lineno = None)
  ∧ (∀ t, get_nearby_comment lines lineno = Some t →
          PyStr.startswith t "#" = true).
Proof.
  split; [|split].
  - intros Hl. unfold get_nearby_comment.
    rewrite (Z.max_l 0 (lineno - 1)) by lia. by rewrite slice_to_zero.
  - intros l Hl Hlook Hne Hhash. unfold get_nearby_comment.
    rewrite (Z.max_r 0 (lineno - 1)) by lia.
    assert (Hw : ∃ w, PyStr.slice lines (Z.max 0 (lineno - 2 - 5)) (lineno - 1)
                      = w ++ [l]).
    { unfold PyStr.slice, PyStr.norm_index.
      assert (Hlen : (Z.to_nat (lineno - 2) < List.length lines)%nat)
        by (by eapply lookup_lt_Some).
      assert (H1 : (Z.max 0 (lineno - 2 - 5) <? 0) = false)
        by (apply Z.ltb_ge; lia).
      assert (H2 : (lineno - 1 <? 0) = false) by (apply Z.ltb_ge; lia).
      rewrite H1, H2.
      set (a := Z.to_nat (Z.min (Z.max 0 (lineno - 2 - 5))
                                (Z.of_nat (List.length lines)))).
      set (b := Z.to_nat (Z.min (lineno - 1) (Z.of_nat (List.length lines)))).
      assert (Hb : (b - a = S (Z.to_nat (lineno - 2) - a))%nat)
        by (subst a b; lia).
      rewrite Hb. exists (take (Z.to_nat (lineno - 2) - a) (drop a lines)).
      apply take_S_r. rewrite lookup_drop.
      replace (a + (Z.to_nat (lineno - 2) - a))%nat
        with (Z.to_nat (lineno - 2)) by (subst a; lia).
      done. }
    destruct Hw as [w ->]. rewrite rev_app_distr. simpl.
    rewrite Hhash. apply String.eqb_neq in Hne. by rewrite Hne.
  - intros t. unfold get_nearby_comment.
    set (text := PyStr.strip _).
    assert (Ht : hash_first text).
    { apply strip_hash_first, lstrip_join_hash_first.
      apply Forall_rev, collect_comments_hash_first. }
    destruct text as [|c text]; [done|]. simpl. intros [= <-].
    simpl in Ht. subst c. unfold PyStr.startswith. by destruct text.
Qed.

Lemma nearby_comment_is_a_comment_block_witness :
  let lines := ["# keep the pool small"; "import requests";
                "requests.adapters.DEFAULT_POOLSIZE = 1"] in
  2 ≤ 3
  ∧ lines !! Z.to_nat (3 - 2) = Some "import requests"
  ∧ PyStr.strip "import requests" ≠ EmptyString
  ∧ PyStr.startswith (PyStr.strip "import requests") "#" = false
  ∧ get_nearby_comment lines 3 = None
  ∧ get_nearby_comment lines 2 = Some "# keep the pool small"
  ∧ PyStr.startswith "# keep the pool small" "#" = true.
Proof.
  intros lines.
  assert (H1 : 2 ≤ 3) by lia.
  assert (H2 : lines !! Z.to_nat (3 - 2) = Some "import requests")
    by reflexivity.
  assert (H3 : PyStr.strip "import requests" ≠ EmptyString) by (vm_compute; congruence).
  assert (H4 : PyStr.startswith (PyStr.strip "import requests") "#" = false)
    by reflexivity.
  assert (H5 : get_nearby_comment lines 2 = Some "# keep the pool small")
    by reflexivity.
  split; [exact H1|]. split; [exact H2|]. split; [exact H3|].
  split; [exact H4|]. split; [|split; [exact H5|]].
  - exact (proj1 (proj2 (nearby_comment_is_a_comment_block lines 3))
             "import requests" H1 H2 H3 H4).
  - exact (proj2 (proj2 (nearby_comment_is_a_comment_block lines 2))
             "# keep the pool small" H5).
Defined.

(** ** The reports *)

Lemma count_keys_fold (keys : list string) (d : gmap string Z) (k : string) :
  fold_left (λ d k, <[k := default 0 (d !! k) + 1]> d) keys d !! k
  = if decide (filter (λ x, x = k) keys = [])
    then d !! k
    else Some (default 0 (d !! k)
               + Z.of_nat (List.length (filter (λ x, x = k) keys))).
Proof.
  revert d. induction keys as [|x keys IH]; intros d; [done|].
  cbn [fold_left]. rewrite IH. clear IH.
  destruct (decide (x = k)) as [->|Hne].
  - rewrite filter_cons_True by done. rewrite lookup_insert_eq.
    destruct (decide (filter (λ x, x = k) keys = [])) as [->|Hrest].
    + simpl. f_equal.
    + rewrite decide_False by done. simpl. f_equal. lia.
  - rewrite filter_cons_False by done. rewrite lookup_insert_ne by done.
    done.
Qed.

(** X21.  The counters of the summary count occurrences.  The
    dictionary built with [d[k] = d.get(k, 0) + 1] has an entry for a key
    exactly when the key occurs, and the entry is the number of
    occurrences.  Hence a pair (category, count) is listed under "Totals
    by Category" exactly when the count is positive and equals the number
    of findings of that category. *)
Theorem summary_counters_count_occurrences :
  (∀ (keys : list string) (k : string),
     count_keys keys !! k
     = if decide (k ∈ keys)
       then Some (Z.of_nat (List.length (filter (λ x, x = k) keys)))
       else None)
  ∧ (∀ (findings : list Finding) (c : string) (n : Z),
       (c, n) ∈ sorted_items (count_keys (category <$> findings))
       ↔ 0 < n
         ∧ n = Z.of_nat (List.length
                           (filter (λ f, category f = c) findings))).
Proof.
  assert (Hcount : ∀ (keys : list string) (k : string),
     count_keys keys !! k
     = if decide (k ∈ keys)
       then Some (Z.of_nat (List.length (filter (λ x, x = k) keys)))
       else None).
  { intros keys k. unfold count_keys. rewrite count_keys_fold, lookup_empty.
    destruct (decide (k ∈ keys)) as [Hin|Hout].
    - rewrite decide_False; [done|]. intros Hnil.
      assert (k ∈ filter (λ x, x = k) keys) by (by apply list_elem_of_filter).
      rewrite Hnil in H. by apply elem_of_nil in H.
    - rewrite decide_True; [done|]. apply filter_none, Forall_forall.
      by intros x Hx ->. }
  split; [exact Hcount|].
  intros findings c n. unfold sorted_items.
  rewrite merge_sort_Permutation, elem_of_map_to_list, Hcount.
  assert (Hlen : List.length (filter (λ x, x = c) (category <$> findings))
                 = List.length (filter (λ f, category f = c) findings)).
  { induction findings as [|f fs IH]; [done|]. rewrite fmap_cons.
    destruct (decide (category f = c)).
    - rewrite !filter_cons_True by done. simpl. by rewrite IH.
    - by rewrite !filter_cons_False by done. }
  rewrite Hlen.
  destruct (decide (c ∈ category <$> findings)) as [Hin|Hout].
  - split.
    + intros [= <-]. split; [|done].
      apply list_elem_of_fmap in Hin as (f & -> & Hf).
      assert (f ∈ filter (λ g, category g = category f) findings)
        by (by apply list_elem_of_filter).
      destruct (filter _ findings); [by apply elem_of_nil in H|]. simpl. lia.
    + by intros [_ ->].
  - split; [done|]. intros [Hpos ->].
    rewrite filter_none in Hpos; [simpl in Hpos; lia|].
    apply Forall_forall. intros f Hf Hc. apply Hout.
    apply list_elem_of_fmap. by exists f.
Qed.

Lemma omap_fmap_ext {A B C} (h : A → B) (g : B → option C)
    (g' : A → option C) (l : list A) :
  (∀ x, g (h x) = g' x) → omap g (h <$> l) = omap g' l.
Proof.
  intros H. induction l as [|x l IH]; [done|]. csimpl. rewrite H.
  destruct (g' x); by rewrite IH.
Qed.

Lemma csv_row_with_blame (blame : blame_oracle) (f : Finding) :
  csv_row (with_blame blame f) = csv_row f.
Proof. unfold with_blame. by destruct (blame _ _) as [[? ?] ?]. Qed.

Lemma summary_md_with_blame (blame : blame_oracle) (now : string)
    (fs : list Finding) :
  summary_md now (with_blame blame <$> fs) = summary_md now fs.
Proof.
  assert (Hcat : category <$> (with_blame blame <$> fs) = category <$> fs).
  { rewrite <- list_fmap_compose. apply list_fmap_ext. intros _ f _. simpl.
    unfold with_blame. by destruct (blame _ _) as [[? ?] ?]. }
  assert (Hfile : file <$> (with_blame blame <$> fs) = file <$> fs).
  { rewrite <- list_fmap_compose. apply list_fmap_ext. intros _ f _. simpl.
    unfold with_blame. by destruct (blame _ _) as [[? ?] ?]. }
  unfold summary_md. rewrite Hcat, Hfile.
  rewrite (omap_fmap_ext (with_blame blame) _
             (λ f, match import_base f with
                   | Some b => if PyStr.truthy b then Some b else None
                   | None => None
                   end)); [done|].
  intros f. unfold with_blame. by destruct (blame _ _) as [[? ?] ?].
Qed.

(** X22.  The option [--with-git] shows in [report.json] only.  The
    answers of [git blame] are written into the three git fields of the
    findings, which neither [report.csv] nor [SUMMARY.md] prints, so
    these two files are the same with and without the option, whatever
    [git blame] answers. *)
Theorem with_git_changes_only_the_json_report
    (json_dump : json → string) (csv_write : list (list cell) → string)
    (blame : blame_oracle) (now_iso : string) (findings : list Finding)
    (with_git : bool) :
  let w := write_reports json_dump csv_write blame now_iso findings with_git
  in
  let w0 := write_reports json_dump csv_write blame now_iso findings false in
  report_csv w = report_csv w0
  ∧ report_summary w = report_summary w0
  ∧ report_json w
    = json_dump (JList (asdict <$> (if with_git
                                    then with_blame blame <$> findings
                                    else findings))).
Proof.
  unfold write_reports. destruct with_git; simpl; [|done].
  split; [|split; [|done]].
  - f_equal. f_equal. rewrite <- list_fmap_compose. apply list_fmap_ext.
    intros _ f _. apply csv_row_with_blame.
  - apply summary_md_with_blame.
Qed.

(** ** From the scanner's report to the risk summary *)

(** X24.  The classifier reads back what the scanner wrote.  On the
    array of objects [write_reports] dumps, one [asdict] of a finding
    each, [load_findings] raises nothing and falls back on no default: it
    returns, in order, file, line, category, test flag, scope flag and
    import base of each finding, the other nine fields being ignored, and
    each record has the field types the dataclass declares. *)
Theorem classifier_reads_what_the_scanner_wrote
    (int_of_str : string → option Z) (str_of_value : json → string)
    (findings : list Finding) :
  RiskSummary.load_findings int_of_str str_of_value (asdict <$> findings)
  = Returned (RiskSummary.loaded_of <$> findings)
  ∧ Forall (λ f, RiskSummary.as_finding (RiskSummary.loaded_of f)
                 = Some (RiskSummary.classifier_view f))
           findings.
Proof.
  split.
  - induction findings as [|f fs IH]; [done|].
    rewrite !fmap_cons. cbn [RiskSummary.load_findings]. rewrite IH.
    reflexivity.
  - apply Forall_forall. intros f _.
    unfold RiskSummary.as_finding, RiskSummary.loaded_of,
      RiskSummary.classifier_view. simpl.
    by destruct (import_base f).
Qed.

(** X25.  The risk level of a finding of the scanner.  Since every
    finding of [scan_file] has the module-scope flag set, the level the
    classifier gives it depends on its category and on the test flag
    alone: outside tests sys_modules_assignment, import_time_side_effect
    and global_env_mutation are HIGH and
    attribute_reassignment_on_import is MODERATE; under [tests]
    global_env_mutation is MODERATE and nothing is HIGH; builtins_mutation,
    setattr_on_import_or_class, singleton_rebind and test_patch_misuse are
    SAFE everywhere. *)
Theorem risk_level_of_scanner_findings (src : SourceFile)
    (project_pkgs : gset string) (context_lines : Z) (strict : bool) :
  Forall (λ f,
     MonkeyPatchClassify.classify (RiskSummary.classifier_view f)
     = if is_test f
       then (if String.eqb (category f) CATEGORY_GLOBAL_ENV
             then "MODERATE" else "SAFE")
       else if String.eqb (category f) CATEGORY_SYS_MODULES
               || String.eqb (category f) CATEGORY_IMPORT_TIME
               || String.eqb (category f) CATEGORY_GLOBAL_ENV
            then "HIGH"
            else if String.eqb (category f) CATEGORY_ATTRIBUTE_REASSIGNMENT
                 then "MODERATE" else "SAFE")
    (returned_findings (scan_file src project_pkgs context_lines strict)).
Proof.
  assert (Hms : Forall (λ f, is_module_scope f = true
                             ∧ scanner_category (category f))
                  (returned_findings
                     (scan_file src project_pkgs context_lines strict))).
  { rewrite returned_findings_split. apply Forall_app_2.
    - apply Forall_forall.
      intros f (l & cat & base & fn & cl & -> & Hb & _)%tree_pass_table.
      split; [done|]. by eapply base_of_category_scanner.
    - destruct strict; [constructor|]. apply Forall_forall.
      intros f (l & cat & -> & Hc & _)%fallback_pass_table.
      split; [done|]. by apply fallback_category_scanner. }
  eapply Forall_impl; [exact Hms|]. simpl. intros f [Hm Hc].
  unfold MonkeyPatchClassify.classify, RiskSummary.classifier_view. simpl.
  rewrite Hm. unfold scanner_category in Hc.
  repeat (apply elem_of_cons in Hc as [->|Hc]; [by destruct (is_test f)|]).
  by apply elem_of_nil in Hc.
Qed.

(** ** The latest scan directory *)

Lemma scan_dirs_candidates (entries : list RiskSummary.DirEntry) :
  Forall (λ p, RiskSummary.entry_name p ≠ EmptyString) entries →
  RiskSummary.scan_dirs entries = Returned (candidates entries).
Proof.
  unfold candidates.
  induction 1 as [|p entries Hp _ IH]; [done|].
  cbn [RiskSummary.scan_dirs]. rewrite IH. clear IH.
  unfold RiskSummary.is_scan_dir.
  destruct p as [name dir]. simpl in *.
  destruct dir, name as [|c name]; try done.
  destruct (PyStr.is_digit c) eqn:E.
  - rewrite filter_cons_True; [done|]. unfold is_candidate. simpl.
    by rewrite E.
  - rewrite filter_cons_False; [done|]. unfold is_candidate. simpl.
    by rewrite E.
Qed.

Lemma elem_of_perm {A} (x : A) (l k : list A) : l ≡ₚ k → x ∈ l → x ∈ k.
Proof. intros H. by rewrite H. Qed.

Lemma last_elem_of {A} (l : list A) (d : A) : l ≠ [] → List.last l d ∈ l.
Proof.
  induction l as [|x l IH]; [done|]. intros _.
  destruct l as [|y l]; [apply list_elem_of_here|].
  apply list_elem_of_further. by apply IH.
Qed.

Lemma last_greatest {A} (R : relation A) `{!Reflexive R} (l : list A) (d : A) :
  StronglySorted R l → ∀ x, x ∈ l → R x (List.last l d).
Proof.
  induction 1 as [|y l Hs IH Hall]; intros x Hx; [by apply elem_of_nil in Hx|].
  destruct l as [|z l].
  - apply list_elem_of_singleton in Hx as ->. reflexivity.
  - apply elem_of_cons in Hx as [->|Hx].
    + rewrite Forall_forall in Hall. apply Hall.
      apply (last_elem_of (z :: l)). done.
    + by apply IH.
Qed.

(** X26.  The classifier picks the greatest scan directory.  Among the
    entries of the scan root, those that are directories with a name
    beginning with a digit are the candidates.  Without a candidate
    [latest_scan_dir] raises; otherwise it returns the candidate whose
    name is greatest in string order, which for the directory names the
    scanner chooses, timestamps of the form year-month-day_hourminute, is
    the most recent one.  The order in which the file system lists the
    entries does not matter. *)
Theorem latest_scan_dir_is_greatest_candidate
    (entries : list RiskSummary.DirEntry) :
  Forall (λ p, RiskSummary.entry_name p ≠ EmptyString) entries →
  (candidates entries = [] → RiskSummary.latest_scan_dir entries = Raised)
  ∧ (candidates entries ≠ [] →
     ∃ d, RiskSummary.latest_scan_dir entries = Returned d
          ∧ d ∈ candidates entries
          ∧ ∀ d', d' ∈ candidates entries → String.le d' d)
  ∧ (∀ entries', entries' ≡ₚ entries →
       RiskSummary.latest_scan_dir entries'
       = RiskSummary.latest_scan_dir entries).
Proof.
  intros Hne.
  assert (Hlatest : ∀ es, Forall (λ p, RiskSummary.entry_name p ≠ EmptyString) es →
    candidates es ≠ [] →
    ∃ d, RiskSummary.latest_scan_dir es = Returned d
         ∧ d ∈ candidates es
         ∧ ∀ d', d' ∈ candidates es → String.le d' d).
  { intros es Hes Hc. unfold RiskSummary.latest_scan_dir.
    rewrite scan_dirs_candidates by done.
    destruct (candidates es) as [|d ds] eqn:E; [done|].
    eexists. split; [reflexivity|].
    assert (Hperm : merge_sort String.le (d :: ds) ≡ₚ d :: ds)
      by apply merge_sort_Permutation.
    split.
    - apply (elem_of_perm _ _ _ Hperm). apply last_elem_of. intros Hnil.
      rewrite Hnil in Hperm. by apply Permutation_nil_cons in Hperm.
    - intros d' Hd'. apply (last_greatest String.le).
      + apply (StronglySorted_merge_sort String.le).
      + symmetry in Hperm. by apply (elem_of_perm _ _ _ Hperm). }
  assert (Hnone : ∀ es, Forall (λ p, RiskSummary.entry_name p ≠ EmptyString) es →
    candidates es = [] → RiskSummary.latest_scan_dir es = Raised).
  { intros es Hes Hc. unfold RiskSummary.latest_scan_dir.
    by rewrite scan_dirs_candidates, Hc. }
  split; [by apply Hnone|]. split; [by apply Hlatest|].
  intros entries' Hperm.
  assert (Hne' : Forall (λ p, RiskSummary.entry_name p ≠ EmptyString) entries')
    by (by rewrite Hperm).
  assert (Hcand : candidates entries' ≡ₚ candidates entries).
  { unfold candidates. by rewrite Hperm. }
  destruct (candidates entries) as [|d ds] eqn:E.
  - apply Permutation_nil_r in Hcand.
    rewrite (Hnone entries' Hne' Hcand). symmetry. by apply Hnone.
  - destruct (Hlatest entries Hne) as (d1 & -> & Hin1 & Hmax1);
      [by rewrite E|].
    destruct (Hlatest entries' Hne') as (d2 & -> & Hin2 & Hmax2).
    { intros Hnil. rewrite Hnil in Hcand.
      by apply Permutation_nil_cons in Hcand. }
    f_equal. apply (anti_symm String.le).
    + apply Hmax1. rewrite E. by apply (elem_of_perm _ _ _ Hcand).
    + apply Hmax2. symmetry in Hcand. apply (elem_of_perm _ _ _ Hcand).
      by rewrite <- E.
Qed.

Lemma latest_scan_dir_is_greatest_candidate_witness :
  let entries :=
    [ RiskSummary.mkDirEntry "2026-01-01_0900" true;
      RiskSummary.mkDirEntry "trend_latest.md" false;
      RiskSummary.mkDirEntry "2026-01-01_2100" true;
      RiskSummary.mkDirEntry "2025-12-31_2359" true ] in
  Forall (λ p, RiskSummary.entry_name p ≠ EmptyString) entries
  ∧ candidates entries ≠ []
  ∧ RiskSummary.latest_scan_dir entries = Returned "2026-01-01_2100"
  ∧ ∃ d, RiskSummary.latest_scan_dir entries = Returned d
         ∧ d ∈ candidates entries
         ∧ ∀ d', d' ∈ candidates entries → String.le d' d.
Proof.
  intros entries.
  assert (H1 : Forall (λ p, RiskSummary.entry_name p ≠ EmptyString) entries)
    by (repeat constructor; discriminate).
  assert (H2 : candidates entries ≠ []) by (vm_compute; discriminate).
  split; [exact H1|]. split; [exact H2|]. split; [reflexivity|].
  exact (proj1 (proj2 (latest_scan_dir_is_greatest_candidate entries H1)) H2).
Defined.

(** ** Counting and ranking in [aggregate] *)

Lemma counts_get_count_into (acc : list (string * Z)) (x k : string) :
  RiskSummary.counts_get (RiskSummary.count_into acc x) k 0
  = RiskSummary.counts_get acc k 0 + (if decide (k = x) then 1 else 0).
Proof.
  induction acc as [|[k' m] acc IH]; simpl.
  - destruct (decide (k = x)) as [->|Hne].
    + by rewrite String.eqb_refl.
    + apply String.eqb_neq in Hne. rewrite String.eqb_sym in Hne.
      by rewrite Hne.
  - destruct (String.eqb k' x) eqn:E1; simpl.
    + apply String.eqb_eq in E1 as ->.
      destruct (String.eqb x k) eqn:E2.
      * apply String.eqb_eq in E2 as ->. by rewrite decide_True.
      * apply String.eqb_neq in E2. rewrite decide_False by done. lia.
    + destruct (String.eqb k' k) eqn:E2; [|exact IH].
      apply String.eqb_eq in E2 as ->. apply String.eqb_neq in E1.
      rewrite decide_False by done. lia.
Qed.

Lemma count_into_keys (acc : list (string * Z)) (x : string) :
  (RiskSummary.count_into acc x).*1
  = if decide (x ∈ acc.*1) then acc.*1 else acc.*1 ++ [x].
Proof.
  induction acc as [|[k' m] acc IH]; [done|].
  cbn [RiskSummary.count_into].
  destruct (String.eqb k' x) eqn:E1; rewrite !fmap_cons; cbn [fst].
  - apply String.eqb_eq in E1 as ->.
    rewrite decide_True; [done|]. apply list_elem_of_here.
  - apply String.eqb_neq in E1. rewrite IH.
    destruct (decide (x ∈ acc.*1)) as [Hin|Hout].
    + rewrite decide_True; [done|]. by apply list_elem_of_further.
    + rewrite decide_False; [done|].
      intros [Heq|Hin]%elem_of_cons; [by subst|done].
Qed.

Lemma count_into_positive (acc : list (string * Z)) (x : string) :
  Forall (λ p, 0 < p.2) acc →
  Forall (λ p, 0 < p.2) (RiskSummary.count_into acc x).
Proof.
  induction 1 as [|[k' m] acc Hp Hacc IH]; simpl.
  - by repeat constructor.
  - destruct (String.eqb k' x); constructor; auto. simpl in *. lia.
Qed.

Lemma counter_spec (keys : list string) :
  (∀ k, RiskSummary.counts_get (RiskSummary.counter keys) k 0
        = Z.of_nat (List.length (filter (λ x, x = k) keys)))
  ∧ NoDup (RiskSummary.counter keys).*1
  ∧ (∀ k, k ∈ (RiskSummary.counter keys).*1 ↔ k ∈ keys)
  ∧ Forall (λ p, 0 < p.2) (RiskSummary.counter keys).
Proof.
  unfold RiskSummary.counter.
  assert (Hgen : ∀ acc,
    NoDup acc.*1 → Forall (λ p, 0 < p.2) acc →
    (∀ k, RiskSummary.counts_get (fold_left RiskSummary.count_into keys acc) k 0
          = RiskSummary.counts_get acc k 0
            + Z.of_nat (List.length (filter (λ x, x = k) keys)))
    ∧ NoDup (fold_left RiskSummary.count_into keys acc).*1
    ∧ (∀ k, k ∈ (fold_left RiskSummary.count_into keys acc).*1
            ↔ k ∈ acc.*1 ∨ k ∈ keys)
    ∧ Forall (λ p, 0 < p.2) (fold_left RiskSummary.count_into keys acc)).
  { induction keys as [|x keys IH]; intros acc Hnd Hpos.
    - simpl. split; [intros; lia|]. split; [done|]. split; [|done].
      intros k. rewrite elem_of_nil. tauto.
    - cbn [fold_left].
      assert (Hnd' : NoDup (RiskSummary.count_into acc x).*1).
      { rewrite count_into_keys. destruct (decide (x ∈ acc.*1)); [done|].
        apply NoDup_app. split; [done|]. split; [|apply NoDup_singleton].
        by intros y Hy ->%list_elem_of_singleton. }
      destruct (IH _ Hnd' (count_into_positive _ x Hpos))
        as (H1 & H2 & H3 & H4).
      split; [|split; [done|split; [|done]]].
      + intros k. rewrite H1, counts_get_count_into.
        destruct (decide (x = k)) as [->|Hne].
        * rewrite filter_cons_True, decide_True by done. simpl. lia.
        * rewrite filter_cons_False, decide_False by done. lia.
      + intros k. rewrite H3, count_into_keys, elem_of_cons.
        destruct (decide (x ∈ acc.*1)) as [Hin|Hout].
        * split; [tauto|]. intros [?|[->|?]]; auto.
        * rewrite elem_of_app, list_elem_of_singleton. tauto. }
  destruct (Hgen []) as (H1 & H2 & H3 & H4); [constructor..|].
  split; [|split; [done|split; [|done]]].
  - intros k. rewrite H1. simpl. lia.
  - intros k. rewrite H3. simpl. rewrite elem_of_nil. tauto.
Qed.

Lemma counts_get_elem (acc : list (string * Z)) (k : string) (n : Z) :
  NoDup acc.*1 → (k, n) ∈ acc → RiskSummary.counts_get acc k 0 = n.
Proof.
  induction acc as [|[k' m] acc IH]; [by intros _ ?%elem_of_nil|].
  simpl. intros [Hk' Hnd]%NoDup_cons [[= -> ->]|Hin]%elem_of_cons.
  - by rewrite String.eqb_refl.
  - destruct (String.eqb k' k) eqn:E; [|by apply IH].
    apply String.eqb_eq in E as ->. exfalso. apply Hk'.
    apply list_elem_of_fmap. by exists (k, n).
Qed.

Lemma insert_by_count_perm (x : string * Z) (l : list (string * Z)) :
  RiskSummary.insert_by_count x l ≡ₚ x :: l.
Proof.
  induction l as [|y l IH]; [done|]. simpl.
  destruct (x.2 <? y.2); [|done]. rewrite IH. apply Permutation_swap.
Qed.

Lemma most_common_perm (l : list (string * Z)) :
  RiskSummary.most_common l ≡ₚ l.
Proof.
  induction l as [|x l IH]; [done|]. simpl.
  by rewrite insert_by_count_perm, IH.
Qed.

Lemma insert_by_count_sorted (x : string * Z) (l : list (string * Z)) :
  StronglySorted (λ a b : string * Z, b.2 ≤ a.2) l →
  StronglySorted (λ a b : string * Z, b.2 ≤ a.2)
                 (RiskSummary.insert_by_count x l).
Proof.
  induction 1 as [|y l Hs IH Hall]; simpl; [repeat constructor|].
  destruct (x.2 <? y.2) eqn:E.
  - apply Z.ltb_lt in E. constructor; [done|].
    apply Forall_forall. intros z Hz.
    apply (elem_of_perm _ _ _ (insert_by_count_perm x l)) in Hz.
    apply elem_of_cons in Hz as [->|Hz]; [lia|].
    rewrite Forall_forall in Hall. by apply Hall.
  - apply Z.ltb_ge in E. constructor; [by constructor|].
    constructor; [done|]. eapply Forall_impl; [exact Hall|].
    simpl. intros z Hz. lia.
Qed.

Lemma most_common_sorted (l : list (string * Z)) :
  StronglySorted (λ a b : string * Z, b.2 ≤ a.2) (RiskSummary.most_common l).
Proof.
  induction l as [|x l IH]; [constructor|]. simpl.
  by apply insert_by_count_sorted.
Qed.

Lemma length_filter_fmap {A} (g : A → string) (k : string) (l : list A) :
  List.length (filter (λ x, x = k) (g <$> l))
  = List.length (filter (λ a, g a = k) l).
Proof.
  induction l as [|a l IH]; [done|]. rewrite fmap_cons.
  destruct (decide (g a = k)).
  - rewrite !filter_cons_True by done. simpl. by rewrite IH.
  - by rewrite !filter_cons_False by done.
Qed.

Lemma classify_levels (f : MonkeyPatchClassify.Finding) :
  MonkeyPatchClassify.classify f = "HIGH"
  ∨ MonkeyPatchClassify.classify f = "MODERATE"
  ∨ MonkeyPatchClassify.classify f = "SAFE".
Proof. unfold MonkeyPatchClassify.classify. repeat case_match; auto. Qed.

(** X27.  The counts by risk level.  [aggregate] counts, for each of
    HIGH, MODERATE and SAFE, the findings [classify] puts there; a level
    without findings has no entry in [counts_by_risk], which is why
    [write_outputs] reads it with a default of 0.  The three lines under
    "Counts by Risk" of [RISK_SUMMARY.md] show these three numbers, and
    they add up to the number of findings. *)
Theorem risk_counts_add_up (findings : list MonkeyPatchClassify.Finding) :
  let agg := RiskSummary.aggregate findings in
  let count level :=
    Z.of_nat (List.length
                (filter (λ f, MonkeyPatchClassify.classify f = level)
                        findings)) in
  (∀ level,
     RiskSummary.counts_get (RiskSummary.counts_by_risk agg) level 0
     = count level)
  ∧ (∀ level n, (level, n) ∈ RiskSummary.counts_by_risk agg
                ↔ 0 < n ∧ n = count level)
  ∧ count "HIGH" + count "MODERATE" + count "SAFE"
    = Z.of_nat (List.length findings)
  ∧ RiskSummary.risk_summary_md agg
    = PyStr.join PyStr.newline
        ([ "# Monkey-Patch Risk Summary"; EmptyString; "## Counts by Risk";
           "- HIGH: " +:+ PyStr.str_of_Z (count "HIGH");
           "- MODERATE: " +:+ PyStr.str_of_Z (count "MODERATE");
           "- SAFE: " +:+ PyStr.str_of_Z (count "SAFE");
           EmptyString; "## Top Files" ]
         ++ (bullet <$> RiskSummary.top_files agg)
         ++ [ EmptyString; "## Top Categories" ]
         ++ (bullet <$> RiskSummary.top_categories agg))
      +:+ PyStr.newline.
Proof.
  intros agg count.
  destruct (counter_spec (MonkeyPatchClassify.classify <$> findings))
    as (Hget & Hnd & Hkeys & Hpos).
  assert (Hcount : ∀ level,
    RiskSummary.counts_get (RiskSummary.counts_by_risk agg) level 0
    = count level).
  { intros level. unfold agg, count. simpl.
    by rewrite Hget, length_filter_fmap. }
  split; [exact Hcount|]. split; [|split].
  - intros level n. split.
    + intros Hin. rewrite Forall_forall in Hpos. split; [by apply (Hpos _ Hin)|].
      rewrite <- Hcount. symmetry. by apply counts_get_elem.
    + intros [Hn ->]. rewrite <- Hcount.
      assert (Hk : level ∈ (RiskSummary.counts_by_risk agg).*1).
      { apply Hkeys. apply list_elem_of_fmap.
        unfold count in Hn.
        destruct (filter _ findings) as [|f l] eqn:E; [simpl in Hn; lia|].
        assert (Hf : f ∈ filter (λ f, MonkeyPatchClassify.classify f = level)
                           findings) by (rewrite E; apply list_elem_of_here).
        apply list_elem_of_filter in Hf as [Hf1 Hf2]. by exists f. }
      apply list_elem_of_fmap in Hk as ([k m] & -> & Hin). simpl.
      by rewrite (counts_get_elem _ _ _ Hnd Hin).
  - unfold count. clear. induction findings as [|f fs IH]; [done|].
    destruct (classify_levels f) as [H|[H|H]].
    + rewrite (filter_cons_True (λ f, _ = "HIGH")) by done.
      rewrite !filter_cons_False by (rewrite H; discriminate).
      simpl List.length. lia.
    + rewrite (filter_cons_True (λ f, _ = "MODERATE")) by done.
      rewrite !filter_cons_False by (rewrite H; discriminate).
      simpl List.length. lia.
    + rewrite (filter_cons_True (λ f, _ = "SAFE")) by done.
      rewrite !filter_cons_False by (rewrite H; discriminate).
      simpl List.length. lia.
  - unfold RiskSummary.risk_summary_md. rewrite !fmap_cons, !Hcount. done.
Qed.

(** X28.  The ranked lists of [aggregate].  "Top files" holds at most
    ten pairs of a file and the number of findings in it, by descending
    count, and no file left out has more findings than a file listed.
    "Top categories" holds every category that occurs, once, with the
    number of its findings, by descending count. *)
Theorem ranked_lists_of_aggregate
    (findings : list MonkeyPatchClassify.Finding) :
  let agg := RiskSummary.aggregate findings in
  let in_file name :=
    Z.of_nat (List.length
                (filter (λ f, MonkeyPatchClassify.file f = name) findings)) in
  let in_category c :=
    Z.of_nat (List.length
                (filter (λ f, MonkeyPatchClassify.category f = c) findings)) in
  (List.length (RiskSummary.top_files agg) ≤ 10)%nat
  ∧ StronglySorted (λ a b : string * Z, b.2 ≤ a.2) (RiskSummary.top_files agg)
  ∧ NoDup (RiskSummary.top_files agg).*1
  ∧ (∀ name n, (name, n) ∈ RiskSummary.top_files agg
               → 0 < n ∧ n = in_file name)
  ∧ (∀ name n other, (name, n) ∈ RiskSummary.top_files agg
                     → other ∉ (RiskSummary.top_files agg).*1
                     → in_file other ≤ n)
  ∧ StronglySorted (λ a b : string * Z, b.2 ≤ a.2)
                   (RiskSummary.top_categories agg)
  ∧ NoDup (RiskSummary.top_categories agg).*1
  ∧ (∀ c n, (c, n) ∈ RiskSummary.top_categories agg
            ↔ 0 < n ∧ n = in_category c).
Proof.
  intros agg in_file in_category.
  assert (Hranked : ∀ (g : MonkeyPatchClassify.Finding → string),
    let ranked := RiskSummary.most_common (RiskSummary.counter (g <$> findings))
    in
    let cnt k := Z.of_nat (List.length (filter (λ f, g f = k) findings)) in
    StronglySorted (λ a b : string * Z, b.2 ≤ a.2) ranked
    ∧ NoDup ranked.*1
    ∧ (∀ k n, (k, n) ∈ ranked ↔ 0 < n ∧ n = cnt k)).
  { intros g ranked cnt.
    destruct (counter_spec (g <$> findings)) as (Hget & Hnd & Hkeys & Hpos).
    assert (Hperm : ranked ≡ₚ RiskSummary.counter (g <$> findings))
      by apply most_common_perm.
    split; [apply most_common_sorted|]. split; [by rewrite Hperm|].
    intros k n. split.
    - intros Hin. apply (elem_of_perm _ _ _ Hperm) in Hin.
      rewrite Forall_forall in Hpos. split; [by apply (Hpos _ Hin)|].
      unfold cnt. rewrite <- length_filter_fmap, <- Hget. symmetry.
      by apply counts_get_elem.
    - intros [Hn ->]. symmetry in Hperm. apply (elem_of_perm _ _ _ Hperm).
      assert (Hk : k ∈ (RiskSummary.counter (g <$> findings)).*1).
      { apply Hkeys. apply list_elem_of_fmap. unfold cnt in Hn.
        destruct (filter _ findings) as [|f l] eqn:E; [simpl in Hn; lia|].
        assert (Hf : f ∈ filter (λ f, g f = k) findings)
          by (rewrite E; apply list_elem_of_here).
        apply list_elem_of_filter in Hf as [Hf1 Hf2]. by exists f. }
      apply list_elem_of_fmap in Hk as ([k' m] & -> & Hin). simpl.
      assert (m = cnt k') as ->; [|done].
      unfold cnt. rewrite <- length_filter_fmap, <- Hget. symmetry.
      by apply counts_get_elem. }
  destruct (Hranked MonkeyPatchClassify.file) as (Hs1 & Hn1 & He1).
  destruct (Hranked MonkeyPatchClassify.category) as (Hs2 & Hn2 & He2).
  clear Hranked. simpl in *.
  set (ranked := RiskSummary.most_common
                   (RiskSummary.counter (MonkeyPatchClassify.file <$> findings)))
    in *.
  assert (Hsplit : ranked = take 10 ranked ++ drop 10 ranked)
    by (by rewrite take_drop).
  change (RiskSummary.top_files agg) with (take 10 ranked).
  split; [rewrite length_take; lia|].
  split. { rewrite Hsplit in Hs1. by apply StronglySorted_app_1_l in Hs1. }
  split. { rewrite Hsplit, fmap_app in Hn1. by apply NoDup_app in Hn1 as [? _]. }
  split. { intros name n Hin. apply He1. rewrite Hsplit, elem_of_app. by left. }
  split; [|done].
  intros name n other Hin Hother.
  destruct (decide (0 < in_file other)) as [Hpos|Hzero]; [|].
  - assert (Ho : (other, in_file other) ∈ ranked) by (by apply He1).
    rewrite Hsplit in Ho. apply elem_of_app in Ho as [Ho|Ho].
    + exfalso. apply Hother. apply list_elem_of_fmap.
      by exists (other, in_file other).
    + rewrite Hsplit in Hs1.
      apply (StronglySorted_app_1_elem_of _ _ _ _ _ Hs1 Hin Ho).
  - assert (0 < n); [|lia]. apply (He1 name n).
    rewrite Hsplit, elem_of_app. by left.
Qed.

Lemma ranked_lists_of_aggregate_witness :
  let findings :=
    [ MonkeyPatchClassify.mkFinding "pkg/a.py" 3 "sys_modules_assignment"
        false true (Some "sys");
      MonkeyPatchClassify.mkFinding "pkg/b.py" 7 "global_env_mutation"
        false true (Some "os");
      MonkeyPatchClassify.mkFinding "pkg/b.py" 9 "global_env_mutation"
        false true (Some "os") ] in
  RiskSummary.top_files (RiskSummary.aggregate findings)
  = [("pkg/b.py", 2); ("pkg/a.py", 1)]
  ∧ ("pkg/b.py", 2) ∈ RiskSummary.top_files (RiskSummary.aggregate findings)
  ∧ (0 < 2
     ∧ 2 = Z.of_nat
             (List.length
                (filter (λ f, MonkeyPatchClassify.file f = "pkg/b.py")
                        findings))).
Proof.
  intros findings.
  assert (H : ("pkg/b.py", 2)
              ∈ RiskSummary.top_files (RiskSummary.aggregate findings))
    by apply list_elem_of_here.
  split; [reflexivity|]. split; [exact H|].
  exact (proj1 (proj2 (proj2 (proj2 (ranked_lists_of_aggregate findings))))
           "pkg/b.py" 2 H).
Defined.

(** ** Reading the answer of [git blame] *)

Lemma hex_not_space (c : ascii) :
  GitBlame.is_hex c = true → PyStr.is_space c = false.
Proof.
  destruct c as [[] [] [] [] [] [] [] []]; vm_compute; congruence.
Qed.

Lemma hex_then_space_word (k : nat) (s : string) :
  GitBlame.hex_then_space k s = true →
  String.length (GitBlame.until_space s) = k
  ∧ GitBlame.all_hex (GitBlame.until_space s) = true
  ∧ (k ≠ 0%nat → PyStr.lstrip s = s).
Proof.
  revert s. induction k as [|k IH]; intros [|c s]; simpl; try discriminate.
  - intros Hc. apply Ascii.eqb_eq in Hc as ->. done.
  - intros [Hc Hs]%andb_true_iff. rewrite (hex_not_space c Hc).
    destruct (IH s Hs) as (H1 & H2 & _). simpl.
    by rewrite H1, H2, Hc.
Qed.

Lemma commit_line_word (line : string) :
  GitBlame.commit_line line = true →
  GitBlame.all_hex (GitBlame.first_word line) = true
  ∧ (7 ≤ String.length (GitBlame.first_word line) ≤ 40)%nat.
Proof.
  unfold GitBlame.commit_line, GitBlame.first_word.
  intros (k & Hk & Hm)%existsb_exists. apply in_seq in Hk.
  destruct (hex_then_space_word k line Hm) as (H1 & H2 & H3).
  rewrite H3 by lia. rewrite H1. split; [done|lia].
Qed.

Lemma prefix_app (p s : string) :
  String.prefix p s = true → ∃ r, s = p +:+ r.
Proof.
  revert s. induction p as [|c p IH]; intros s.
  - intros _. by exists s.
  - destruct s as [|c' s]; [discriminate|]. simpl.
    destruct (ascii_dec c c') as [->|]; [|discriminate].
    intros [r ->]%IH. by exists r.
Qed.

Section BlameParse.
Variable int_of_str : string → option Z.
Variable iso_of_timestamp : Z → option string.

Local Abbreviation step := (GitBlame.blame_step int_of_str iso_of_timestamp).
Local Abbreviation parse := (GitBlame.parse_blame int_of_str iso_of_timestamp).

(** The commit of the state, if any, is a hexadecimal id. *)
Local Abbreviation commit_ok := (λ st : outcome GitBlame.blame_triple,
  match st with
  | Returned (_, Some c, _) =>
      GitBlame.all_hex c = true ∧ (7 ≤ String.length c ≤ 40)%nat
  | _ => True
  end).

Lemma blame_step_commit_ok (st : outcome GitBlame.blame_triple)
    (line : string) :
  commit_ok st → commit_ok (step st line).
Proof.
  destruct st as [[[a c] d]|]; [|done]. simpl. intros Hc.
  destruct (PyStr.startswith line "author "); [done|].
  destruct (GitBlame.commit_line line) eqn:E.
  - by apply commit_line_word.
  - destruct (PyStr.startswith line "author-time "); [|done].
    destruct (int_of_str _); [|done]. by destruct (iso_of_timestamp _).
Qed.

Lemma fold_commit_ok (lines : list string)
    (st : outcome GitBlame.blame_triple) :
  commit_ok st → commit_ok (fold_left step lines st).
Proof.
  revert st. induction lines as [|l lines IH]; intros st Hst; [done|].
  simpl. apply IH. by apply blame_step_commit_ok.
Qed.

Lemma fold_raised (lines : list string) : fold_left step lines Raised = Raised.
Proof. by induction lines. Qed.

(** X29.  What [add_git_blame] makes of the answer of [git blame].  A
    commit it reports consists of 7 to 40 lower-case hexadecimal digits:
    it is the first word of a line the pattern for commit lines accepts.
    One [author-time] line whose value does not convert, to an integer or
    to a date, voids the whole answer: the exception is caught around the
    loop, so author and commit read from the other lines are dropped and
    all three fields stay unset. *)
Theorem git_blame_answer :
  (∀ proc author commit date,
     GitBlame.add_git_blame int_of_str iso_of_timestamp proc
     = (author, Some commit, date) →
     GitBlame.all_hex commit = true
     ∧ (7 ≤ String.length commit ≤ 40)%nat)
  ∧ (∀ returncode before line after,
       PyStr.startswith line "author-time " = true →
       (int_of_str (PyStr.strip (GitBlame.drop_chars 12 line)) ≫=
          iso_of_timestamp) = None →
       GitBlame.add_git_blame int_of_str iso_of_timestamp
         (Some (returncode, before ++ line :: after))
       = (None, None, None)).
Proof.
  split.
  - intros proc author commit date. unfold GitBlame.add_git_blame.
    destruct proc as [[rc lines]|]; [|discriminate].
    destruct (negb (rc =? 0)); [discriminate|].
    pose proof (fold_commit_ok lines (Returned (None, None, None)) I) as Hok.
    unfold GitBlame.parse_blame.
    destruct (fold_left _ lines _) as [[[a c] d]|]; [|discriminate].
    intros [= -> -> ->]. exact Hok.
  - intros rc before line after Hline Hbad. unfold GitBlame.add_git_blame.
    destruct (negb (rc =? 0)); [done|].
    assert (Hraise : parse (before ++ line :: after) = Raised);
      [|by rewrite Hraise].
    unfold GitBlame.parse_blame. rewrite fold_left_app. simpl.
    assert (Hstep : ∀ st, step st line = Raised);
      [|by rewrite Hstep, fold_raised].
    intros [[[a c] d]|]; [|done]. unfold GitBlame.blame_step.
    rewrite Hline.
    destruct (prefix_app _ _ Hline) as [r Hr].
    assert (H1 : PyStr.startswith line "author " = false)
      by (by rewrite Hr).
    assert (H2 : GitBlame.commit_line line = false) by (by rewrite Hr).
    rewrite H1, H2.
    destruct (int_of_str _) as [ts|]; [|done]. simpl in Hbad.
    by rewrite Hbad.
Qed.
End BlameParse.

Lemma git_blame_answer_witness :
  let answer :=
    [ "3f9a7c21d4e5b6a7980c1d2e3f4a5b6c7d8e9f01 12 12 1";
      "author Ada Lovelace";
      "author-mail <ada@example.org>";
      "author-time 1700000000";
      "summary Keep the pool small";
      "	requests.adapters.DEFAULT_POOLSIZE = 1" ] in
  let int_of_str (s : string) : option Z :=
    if String.eqb s "1700000000" then Some 1700000000 else None in
  let no_date (ts : Z) : option string := None in
  let iso (ts : Z) : option string := Some "2023-11-14T22:13:20+00:00" in
  GitBlame.add_git_blame int_of_str iso (Some (0, answer))
  = (Some "Ada Lovelace", Some "3f9a7c21d4e5b6a7980c1d2e3f4a5b6c7d8e9f01",
     Some "2023-11-14T22:13:20+00:00")
  ∧ (GitBlame.all_hex "3f9a7c21d4e5b6a7980c1d2e3f4a5b6c7d8e9f01" = true
     ∧ (7 ≤ String.length "3f9a7c21d4e5b6a7980c1d2e3f4a5b6c7d8e9f01" ≤ 40)%nat)
  ∧ PyStr.startswith "author-time 1700000000" "author-time " = true
  ∧ GitBlame.add_git_blame int_of_str no_date (Some (0, answer))
    = (None, None, None).
Proof.
  intros answer int_of_str no_date iso.
  assert (H1 : GitBlame.add_git_blame int_of_str iso (Some (0, answer))
               = (Some "Ada Lovelace",
                  Some "3f9a7c21d4e5b6a7980c1d2e3f4a5b6c7d8e9f01",
                  Some "2023-11-14T22:13:20+00:00")) by reflexivity.
  assert (H2 : PyStr.startswith "author-time 1700000000" "author-time " = true)
    by reflexivity.
  split; [exact H1|]. split; [|split; [exact H2|]].
  - exact (proj1 (git_blame_answer int_of_str iso) _ _ _ _ H1).
  - exact (proj2 (git_blame_answer int_of_str no_date) 0
             [ "3f9a7c21d4e5b6a7980c1d2e3f4a5b6c7d8e9f01 12 12 1";
               "author Ada Lovelace";
               "author-mail <ada@example.org>" ]
             "author-time 1700000000"
             [ "summary Keep the pool small";
               "	requests.adapters.DEFAULT_POOLSIZE = 1" ]
             H2 eq_refl).
Defined.

(** ** The files handed to the scanner *)

(** X30.  Which files [iter_python_files] yields.  A file of the
    listing is yielded exactly when no component of its path relative to
    the root, directory or file name, at any depth, is one of the
    excluded names and no exclusion glob matches the relative path.  The
    files come in the order of the listing, and filtering twice changes
    nothing. *)
Theorem iter_python_files_selection
    (path_match : list string → string → bool) (listing : list SourceFile)
    (exclude_dirs : gset string) (patterns : list string) :
  let files := iter_python_files path_match listing exclude_dirs patterns in
  (∀ f, f ∈ files
        ↔ f ∈ listing
          ∧ (∀ part, part ∈ rel_of (src_path f) → part ∉ exclude_dirs)
          ∧ (∀ pat, pat ∈ patterns
                    → path_match (rel_of (src_path f)) pat = false))
  ∧ files `sublist_of` listing
  ∧ iter_python_files path_match files exclude_dirs patterns = files.
Proof.
  intros files. unfold files, iter_python_files.
  split; [|split].
  - intros f. rewrite list_elem_of_filter. split.
    + intros [Hkeep Hin]. split; [done|]. split.
      * intros part Hpart Hex. apply Hkeep. left.
        unfold in_excluded_dir. apply bool_decide_eq_true.
        intros Hempty.
        assert (part ∈ (list_to_set (rel_of (src_path f)) ∩ exclude_dirs
                        : gset string)) as Hp.
        { apply elem_of_intersection. split; [|done].
          by apply elem_of_list_to_set. }
        rewrite Hempty in Hp. by apply elem_of_empty in Hp.
      * intros pat Hpat.
        destruct (path_match (rel_of (src_path f)) pat) eqn:E; [|done].
        exfalso. apply Hkeep. right. apply glob_skip_true. eauto.
    + intros (Hin & Hparts & Hpats). split; [|done].
      intros [Hex|Hglob].
      * unfold in_excluded_dir in Hex. apply bool_decide_eq_true in Hex.
        apply Hex. apply set_eq. intros part.
        rewrite elem_of_intersection, elem_of_list_to_set.
        split; [|by intros ?%elem_of_empty].
        intros [Hp Hx]. exfalso. by apply (Hparts part).
      * apply glob_skip_true in Hglob as (pat & Hpat & Hm).
        by rewrite (Hpats pat Hpat) in Hm.
  - apply sublist_filter.
  - apply list_filter_filter_l. done.
Qed.

(** ** Dotted imports and the alias table *)

(** What [import p], without alias, enters into the alias table. *)
Lemma binds_dotted_import (lineno : Z) (p a m : string) :
  binds (Import lineno [Alias p None]) a m
  ↔ a = PyStr.last_component p ∧ m = p.
Proof.
  simpl. split.
  - intros (al & ->%list_elem_of_singleton & -> & ->). done.
  - intros [-> ->]. exists (Alias p None). split; [|done].
    apply list_elem_of_here.
Qed.

(** A name no import statement of the file enters has no entry. *)
Lemma alias_table_unbound (tree : node) (a : string) :
  (∀ n m, inside tree n → ¬ binds n a m) →
  alias_to_module (resolver_of tree) !! a = None.
Proof.
  intros Hno. destruct (alias_to_module (resolver_of tree) !! a) as [m|] eqn:Hm;
    [|done].
  apply alias_table_accounted in Hm as (n & Hn & Hb).
  destruct (Hno n m Hn Hb).
Qed.

(** An attribute target whose base name has no entry yields no
    attribute_reassignment_on_import finding. *)
Lemma unresolved_attribute_target file_path lines (resolver : ImportResolver)
    project_pkgs (lineno l l' : Z) (a attr : string) (f : Finding) :
  alias_to_module resolver !! a = None →
  f ∈ target_findings file_path lines resolver project_pkgs lineno
        (Attribute l (Name l' a) attr) →
  category f ≠ CATEGORY_ATTRIBUTE_REASSIGNMENT.
Proof.
  intros Ha Hf Hcat.
  destruct (target_findings_cases file_path lines resolver project_pkgs lineno
              (Attribute l (Name l' a) attr))
    as [[_ Heq]|[[_ Heq]|[[_ Heq]|[(b & _ & Heq)|[(ba & b & Hba & Hb & Heq)
       |[(l0 & id & m & b & Hx & _)| Heq]]]]]];
    try (rewrite Heq in Hf; set_unfold in Hf; destruct_or?; subst f;
         discriminate Hcat).
  - simpl in Hba. injection Hba as <-.
    unfold is_alias_external in Hb. rewrite Ha in Hb. discriminate Hb.
  - discriminate Hx.
Qed.

(** C10, as the code has it.  A plain import of a dotted path without
    alias adds one entry to the alias table: the last component, mapped
    to the full path; the statement enters no other name.  A name that no
    import statement of the file enters, wherever the statement stands,
    has no entry in the table of the file.  So when the last component of
    [p] differs from the first and the only import statements of the file
    that could enter the first component are [import p] themselves, the
    name the import binds (the first component) has no entry, and an
    assignment target [a.attr] on that name yields no
    attribute_reassignment_on_import finding, whatever the other
    statements of the file are, imports of other names included.  In general
    an attribute target whose base name has no entry yields no such
    finding.  For [import a.b.c] followed by [a.attr = 1] the scan
    reports nothing. *)
Theorem dotted_import_binds_last_component :
  (∀ (p : string) (lineno : Z) (r : ImportResolver),
     alias_to_module (visit_Import lineno [Alias p None] r)
     = <[PyStr.last_component p := p]> (alias_to_module r))
  ∧ (∀ (lineno : Z) (p a m : string),
       binds (Import lineno [Alias p None]) a m
       ↔ a = PyStr.last_component p ∧ m = p)
  ∧ (∀ (tree : node) (a : string),
       (∀ n m, inside tree n → ¬ binds n a m) →
       alias_to_module (resolver_of tree) !! a = None)
  ∧ (∀ (src : SourceFile) (tree : node) (p : string),
       parsed src = Some tree →
       PyStr.first_component p ≠ PyStr.last_component p →
       (∀ n m, inside tree n → binds n (PyStr.first_component p) m →
               ∃ l, n = Import l [Alias p None]) →
       alias_to_module (resolver_of tree) !! PyStr.first_component p = None
       ∧ ∀ project_pkgs lineno l l' (attr : string) (f : Finding),
           f ∈ target_findings (src_path src) (text_lines src)
                 (resolver_of tree) project_pkgs lineno
                 (Attribute l (Name l' (PyStr.first_component p)) attr) →
           category f ≠ CATEGORY_ATTRIBUTE_REASSIGNMENT)
  ∧ (∀ file_path lines (resolver : ImportResolver) project_pkgs lineno
       l l' (a attr : string) (f : Finding),
       alias_to_module resolver !! a = None →
       f ∈ target_findings file_path lines resolver project_pkgs lineno
             (Attribute l (Name l' a) attr) →
       category f ≠ CATEGORY_ATTRIBUTE_REASSIGNMENT)
  ∧ scan_file dotted_import owned 2 false = ([], Returned []).
Proof.
  split; [|split; [|split; [|split; [|split]]]].
  - intros p lineno r. apply alias_table_of_dotted_import.
  - intros lineno p a m. apply binds_dotted_import.
  - apply alias_table_unbound.
  - intros src tree p _ Hne Hno.
    assert (Hnone : alias_to_module (resolver_of tree)
                    !! PyStr.first_component p = None).
    { apply alias_table_unbound. intros n m Hn Hb.
      destruct (Hno n m Hn Hb) as [l ->].
      apply binds_dotted_import in Hb as [Hb _]. by destruct Hne. }
    split; [exact Hnone|]. intros pkgs lineno l l' attr f.
    by apply unresolved_attribute_target.
  - intros fp lines resolver pkgs lineno l l' a attr f.
    apply unresolved_attribute_target.
  - vm_compute. reflexivity.
Qed.

Lemma dotted_import_binds_last_component_witness :
  let tree := Module [ Import 1 [Alias "a.b.c" None];
                       Import 2 [Alias "os" None];
                       Assign 3 [Attribute 3 (Name 3 "a") "attr"] (Other []) ] in
  let src := mkSourceFile (in_repo ["pkg"; "dotted.py"])
               [ "import a.b.c"; "import os"; "a.attr = 1" ] (Some tree) in
  parsed src = Some tree
  ∧ PyStr.first_component "a.b.c" ≠ PyStr.last_component "a.b.c"
  ∧ (∀ n m, inside tree n → binds n (PyStr.first_component "a.b.c") m →
            ∃ l, n = Import l [Alias "a.b.c" None])
  ∧ alias_to_module (resolver_of tree) !! PyStr.first_component "a.b.c"
    = None
  ∧ ∀ project_pkgs lineno l l' (attr : string) (f : Finding),
      f ∈ target_findings (src_path src) (text_lines src)
            (resolver_of tree) project_pkgs lineno
            (Attribute l (Name l' (PyStr.first_component "a.b.c")) attr) →
      category f ≠ CATEGORY_ATTRIBUTE_REASSIGNMENT.
Proof.
  intros tree src.
  assert (H1 : PyStr.first_component "a.b.c" ≠ PyStr.last_component "a.b.c")
    by (vm_compute; discriminate).
  assert (H2 : ∀ n m, inside tree n →
                 binds n (PyStr.first_component "a.b.c") m →
                 ∃ l, n = Import l [Alias "a.b.c" None]).
  { intros n m Hin Hb.
    apply inside_inv in Hin as [-> | (c & Hc & Hin)]; [destruct Hb|].
    simpl in Hc.
    apply elem_of_cons in Hc as [-> | Hc].
    { apply inside_inv in Hin as [-> | (c & Hc & _)]; [by exists 1|].
      by apply elem_of_nil in Hc. }
    apply elem_of_cons in Hc as [-> | Hc].
    { apply inside_inv in Hin as [-> | (c & Hc & _)];
        [|by apply elem_of_nil in Hc].
      destruct Hb as (al & ->%list_elem_of_singleton & Ha & _).
      vm_compute in Ha. discriminate Ha. }
    apply list_elem_of_singleton in Hc as ->.
    apply inside_inv in Hin as [-> | (c & Hc & Hin)]; [destruct Hb|].
    simpl in Hc. apply elem_of_cons in Hc as [-> | Hc].
    { apply inside_inv in Hin as [-> | (c & Hc & Hin)]; [destruct Hb|].
      simpl in Hc. apply list_elem_of_singleton in Hc as ->.
      apply inside_inv in Hin as [-> | (c & Hc & _)]; [destruct Hb|].
      by apply elem_of_nil in Hc. }
    apply list_elem_of_singleton in Hc as ->.
    apply inside_inv in Hin as [-> | (c & Hc & _)]; [destruct Hb|].
    by apply elem_of_nil in Hc. }
  split; [reflexivity|]. split; [exact H1|]. split; [exact H2|].
  exact (proj1 (proj2 (proj2 (proj2 dotted_import_binds_last_component)))
           src tree "a.b.c" eq_refl H1 H2).
Defined.
